(** * Field and enum-value comparators of the proto breaking-change detector

    A shallow embedding of [src/comparator/field_comparator.py] and
    [src/comparator/enum_value_comparator.py].  The comparators are Python
    methods that read two descriptor views, append findings to a shared
    container and may raise; they are embedded as state transformers over the
    comparator object ([self]) whose outcome is either a returned value or a
    raised exception.  The findings appended before an exception is raised
    stay in the container, as they do in Python. *)

From Stdlib Require Import String Ascii List ZArith Bool Lia Permutation Sorted.
Import ListNotations.
Local Open Scope string_scope.
Local Open Scope list_scope.

(** ** Python values used by the comparators *)

Module Py.

(** Truthiness of a [str]: the empty string is falsy. *)
Definition truthy_str (s : string) : bool :=
  match s with
  | EmptyString => false
  | String _ _ => true
  end.

(** Truthiness of a value that is either [None] or a [str]. *)
Definition truthy (v : option string) : bool :=
  match v with
  | None => false
  | Some s => truthy_str s
  end.

(** Truthiness of a value that is either [None] or an object without
    [__bool__] / [__len__] (a dataclass instance, a database handle). *)
Definition truthy_obj {A : Type} (v : option A) : bool :=
  match v with
  | None => false
  | Some _ => true
  end.

(** [a or b] on values: the first operand when it is truthy, else the second. *)
Definition or_ (a b : option string) : option string :=
  if truthy a then a else b.

(** [a == b] on values that are [None] or a [str]. *)
Definition eq (a b : option string) : bool :=
  match a, b with
  | None, None => true
  | Some x, Some y => String.eqb x y
  | _, _ => false
  end.

(** How an f-string renders a value that is [None] or a [str]. *)
Definition fmt (v : option string) : string :=
  match v with
  | None => "None"
  | Some s => s
  end.

(** [str.replace] for a non-empty [old]: scan left to right; at an
    occurrence of [old] emit [new] and skip the occurrence ([skip] counts the
    characters of it still to drop), otherwise copy one character. *)
Fixpoint replace_from (old new : string) (skip : nat) (s : string) : string :=
  match s with
  | EmptyString => EmptyString
  | String c rest =>
      match skip with
      | S k => replace_from old new k rest
      | O =>
          if String.prefix old s
          then new ++ replace_from old new (String.length old - 1) rest
          else String c (replace_from old new 0 rest)
      end
  end.

(** [str.replace] for the empty [old]: [new] goes before every character
    and after the last one. *)
Fixpoint replace_empty (new : string) (s : string) : string :=
  match s with
  | EmptyString => new
  | String c rest => new ++ String c (replace_empty new rest)
  end.

(** [s.replace(old, new)] on two strings. *)
Definition replace (s old new : string) : string :=
  if truthy_str old then replace_from old new 0 s else replace_empty new s.

(** The exceptions the comparators can raise. *)
Inductive Exception : Type :=
| TypeError (msg : string)
| AttributeError (msg : string).

(** What a call does: it returns a value or raises. *)
Inductive Outcome (A : Type) : Type :=
| Returned (a : A)
| Raised (e : Exception).
Arguments Returned {A} a.
Arguments Raised {A} e.

Definition is_raised {A : Type} (r : Outcome A) : bool :=
  match r with
  | Returned _ => false
  | Raised _ => true
  end.

(** A method of an object of class [S]: it runs on the object, may update
    it, and returns or raises. *)
Definition Method (S A : Type) : Type := S -> Outcome A * S.

Definition ret {S A : Type} (a : A) : Method S A :=
  fun self => (Returned a, self).

Definition raise {S A : Type} (e : Exception) : Method S A :=
  fun self => (Raised e, self).

Definition bind {S A B : Type} (m : Method S A) (k : A -> Method S B) : Method S B :=
  fun self =>
    match m self with
    | (Returned a, self') => k a self'
    | (Raised e, self') => (Raised e, self')
    end.

(** Attribute access [self.attr]. *)
Definition gets {S A : Type} (attr : S -> A) : Method S A :=
  fun self => (Returned (attr self), self).

(** Attribute access on a value that may be [None]. *)
Definition getattr {S A : Type} (obj : option A) (attr : string) : Method S A :=
  match obj with
  | Some o => ret o
  | None => raise (AttributeError ("'NoneType' object has no attribute '" ++ attr ++ "'"))
  end.

End Py.

Import Py.

Declare Scope py_scope.
Delimit Scope py_scope with py.
Notation "x <- m ;; k" := (bind m (fun x => k))
  (at level 61, m at next level, right associativity) : py_scope.
Notation "m ;; k" := (bind m (fun _ => k))
  (at level 61, right associativity) : py_scope.
Local Open Scope py_scope.

(** ** Findings

    [src/findings/utils.py] and [src/findings/finding_container.py] are
    imported by the comparators but are not among the sources. *)

(** Modelled from the spec: the severity vocabulary [{MAJOR, MINOR, PATCH}] of
    [src.findings.utils.ChangeType], which is not among the sources. *)
Inductive ChangeType : Type := MAJOR | MINOR | PATCH.

(** Modelled from the spec: [src.findings.utils.FindingCategory], which is not
    among the sources; these are the members the two comparators name. *)
Inductive FindingCategory : Type :=
| FIELD_ADDITION
| FIELD_REMOVAL
| FIELD_NAME_CHANGE
| FIELD_REPEATED_CHANGE
| FIELD_BEHAVIOR_CHANGE
| FIELD_TYPE_CHANGE
| FIELD_ONEOF_REMOVAL
| FIELD_ONEOF_ADDITION
| FIELD_PROTO3_OPTIONAL_CHANGE
| RESOURCE_REFERENCE_ADDITION
| RESOURCE_REFERENCE_REMOVAL
| RESOURCE_REFERENCE_CHANGE
| ENUM_VALUE_ADDITION
| ENUM_VALUE_REMOVAL
| ENUM_VALUE_NAME_CHANGE.

Definition ChangeType_eq_dec (a b : ChangeType) : {a = b} + {a <> b}.
Proof. decide equality. Defined.

Definition FindingCategory_eq_dec (a b : FindingCategory) : {a = b} + {a <> b}.
Proof. decide equality. Defined.

Definition category_eqb (a b : FindingCategory) : bool :=
  if FindingCategory_eq_dec a b then true else false.

Module Finding.

(** One finding, with the keyword arguments of [addFinding] as its fields. *)
Record t : Type := make {
  category : FindingCategory;
  proto_file_name : string;
  source_code_line : Z;
  message : string;
  change_type : ChangeType
}.

End Finding.

Module FindingContainer.

Definition t : Type := list Finding.t.

(** Modelled from the spec: [FindingContainer.addFinding], which is not among
    the sources; the accumulator is an append-only ordered sink. *)
Definition addFinding (c : t) (category : FindingCategory)
    (proto_file_name : string) (source_code_line : Z) (message : string)
    (change_type : ChangeType) : t :=
  c ++ [Finding.make category proto_file_name source_code_line message change_type].

End FindingContainer.

(** ** Descriptor views

    [src/comparator/wrappers.py] is not among the sources; the records below
    carry exactly the attributes the comparators read, with the shapes the
    comparators use them at. *)

Module WithLocation.

(** An attribute wrapped with its source location: [.value] and
    [.source_code_line]. *)
Record t (A : Type) : Type := make {
  value : A;
  source_code_line : Z
}.
Arguments make {A} value source_code_line.
Arguments value {A} _.
Arguments source_code_line {A} _.

End WithLocation.

Module Resource.

(** A resource definition; only [.type] is read. *)
Record t : Type := make {
  type : string;
  pattern : list string
}.

End Resource.

Module ResourceReference.

(** The [google.api.resource_reference] annotation: [.type] and
    [.child_type], each a string or unset. *)
Record t : Type := make {
  type : option string;
  child_type : option string
}.

End ResourceReference.

Module ResourceDatabase.

(** A database query: it takes a type name and returns resource
    definitions.  The result is a collection that the comparators only test
    for emptiness or scan with [any]. *)
Definition Query : Type := option string -> list (WithLocation.t Resource.t).

(** The database object as the comparators see it: the methods it offers,
    by name.  Calling a name it does not offer raises [AttributeError]. *)
Definition t : Type := list (string * Query).

Fixpoint lookup (db : t) (name : string) : option Query :=
  match db with
  | [] => None
  | (n, q) :: rest => if String.eqb n name then Some q else lookup rest name
  end.

(** [db.name(arg)]. *)
Definition call {S : Type} (db : option t) (name : string) (arg : option string)
  : Method S (list (WithLocation.t Resource.t)) :=
  match db with
  | None =>
      raise (AttributeError ("'NoneType' object has no attribute '" ++ name ++ "'"))
  | Some d =>
      match lookup d name with
      | Some q => ret (q arg)
      | None =>
          raise (AttributeError
                   ("'ResourceDatabase' object has no attribute '" ++ name ++ "'"))
      end
  end.

(** Modelled from the spec: the resource database class, which is not among
    the sources.  Its declared contract has two queries,
    [getResourceByType(type)] and [getParentResourcesByChildType(childType)];
    a database built here offers these two and nothing else. *)
Definition declared (by_type by_child_type : Query) : t :=
  [ ("get_resource_by_type", by_type);
    ("get_parent_resources_by_child_type", by_child_type) ].

End ResourceDatabase.

Module MapEntry.

(** [map_entry_type]: a dict with the keys ["key"] and ["value"]. *)
Record t : Type := make {
  key : string;
  value : string
}.

End MapEntry.

Module Field.

(** The view of one field.  [repeated], [required] and [proto_type] are
    read through [.value] and [.source_code_line]; [type_name] and
    [resource_reference] are [None] or such a wrapped value; [oneof] is a
    boolean, as in the unit tests' [make_field(oneof=True)]; [child_type]
    tells whether the resource reference uses [child_type]; [api_version],
    [message_resource] and [resource_database] may be [None]. *)
Record t : Type := make {
  name : string;
  proto_file_name : string;
  source_code_line : Z;
  repeated : WithLocation.t bool;
  required : WithLocation.t bool;
  proto_type : WithLocation.t string;
  type_name : option (WithLocation.t string);
  is_map_type : bool;
  map_entry_type : option MapEntry.t;
  oneof : bool;
  proto3_optional : bool;
  resource_reference : option (WithLocation.t ResourceReference.t);
  child_type : bool;
  api_version : option string;
  message_resource : option (WithLocation.t Resource.t);
  resource_database : option ResourceDatabase.t
}.

End Field.

Module EnumValue.

Record t : Type := make {
  name : string;
  proto_file_name : string;
  source_code_line : Z
}.

End EnumValue.


(** ** The field comparator ([src/comparator/field_comparator.py]) *)

Module FieldComparator.

(** The comparator object: what [__init__] stores on [self]. *)
Record t : Type := make {
  field_original : option Field.t;
  field_update : option Field.t;
  finding_container : FindingContainer.t
}.

(** [self.finding_container.addFinding(category=..., proto_file_name=...,
    source_code_line=..., message=..., change_type=...)]. *)
Definition addFinding (category : FindingCategory) (proto_file_name : string)
    (source_code_line : Z) (message : string) (change_type : ChangeType)
  : Method t unit :=
  fun self =>
    (Returned tt,
     make (field_original self) (field_update self)
       (FindingContainer.addFinding (finding_container self) category
          proto_file_name source_code_line message change_type)).

(** [bool(resources)] and the argument of [any] are over a collection. *)
Definition nonempty {A : Type} (l : list A) : bool :=
  match l with
  | [] => false
  | _ :: _ => true
  end.

(** [_transformed_type_name] (lines 303-314): the type name with the
    original api version replaced by the updated one, or [None] when the
    original field has no api version. *)
Definition _transformed_type_name (type_name : string) : Method t (option string) :=
  fo <- gets field_original ;;
  fo <- getattr fo "api_version" ;;
  let api_version_original := Field.api_version fo in
  fu <- gets field_update ;;
  fu <- getattr fu "api_version" ;;
  let api_version_update := Field.api_version fu in
  match api_version_original with
  | Some old =>
      if truthy_str old then
        match api_version_update with
        | Some new => ret (Some (replace type_name old new))
        | None => raise (TypeError "replace() argument 2 must be str, not None")
        end
      else ret None
  | None => ret None
  end.

(** [_resource_in_database] (lines 316-326). *)
Definition _resource_in_database
    (resource_ref : WithLocation.t ResourceReference.t) : Method t bool :=
  fu <- gets field_update ;;
  fu <- getattr fu "resource_database" ;;
  let rb_update := Field.resource_database fu in
  if negb (truthy_obj rb_update) then ret false
  else
    resources <-
      (if Field.child_type fu
       then ResourceDatabase.call rb_update "get_parent_resource_by_child_type"
              (ResourceReference.child_type (WithLocation.value resource_ref))
       else ResourceDatabase.call rb_update "get_resource_by_type"
              (ResourceReference.type (WithLocation.value resource_ref))) ;;
    ret (nonempty resources).

(** [_resource_ref_in_local] (lines 328-350): is the resource type among the
    local resources defined by a message option? *)
Definition _resource_ref_in_local (resource_ref : ResourceReference.t) : Method t bool :=
  fu <- gets field_update ;;
  fu <- getattr fu "message_resource" ;;
  match Field.message_resource fu with
  | None => ret false
  | Some mr_update =>
      let checked_type :=
        or_ (ResourceReference.type resource_ref)
            (ResourceReference.child_type resource_ref) in
      if negb (truthy checked_type) then
        raise (TypeError
          "In a resource_reference annotation, either `type` or `child_type` field should be defined")
      else
        fo <- gets field_original ;;
        fo <- getattr fo "child_type" ;;
        if Field.child_type fo then
          let rb_update := Field.resource_database fu in
          parent_resources <-
            ResourceDatabase.call rb_update "get_parent_resources_by_child_type"
              (ResourceReference.child_type resource_ref) ;;
          if negb (existsb
                     (fun resource =>
                        String.eqb (Resource.type (WithLocation.value mr_update))
                                   (Resource.type (WithLocation.value resource)))
                     parent_resources)
          then ret false
          else ret true
        else if negb (eq (Some (Resource.type (WithLocation.value mr_update)))
                         (ResourceReference.type resource_ref))
        then ret false
        else ret true
  end.

(** [_is_parent_type] (lines 352-373). *)
Definition _is_parent_type (child_type parent_type : option string)
    (original_is_child : bool) (source_code_line : Z) : Method t unit :=
  parent_resources <-
    (if original_is_child then
       fo <- gets field_original ;;
       fo <- getattr fo "resource_database" ;;
       let rb_original := Field.resource_database fo in
       ResourceDatabase.call rb_original "get_parent_resources_by_child_type" child_type
     else
       fu <- gets field_update ;;
       fu <- getattr fu "resource_database" ;;
       let rb_update := Field.resource_database fu in
       ResourceDatabase.call rb_update "get_parent_resources_by_child_type" child_type) ;;
  if negb (existsb
             (fun parent =>
                eq (Some (Resource.type (WithLocation.value parent))) parent_type)
             parent_resources)
  then
    fu <- gets field_update ;;
    fu <- getattr fu "proto_file_name" ;;
    fo <- gets field_original ;;
    fo <- getattr fo "name" ;;
    addFinding RESOURCE_REFERENCE_CHANGE
      (Field.proto_file_name fu)
      source_code_line
      ("The child_type `" ++ fmt child_type ++ "` and type `" ++ fmt parent_type
         ++ "` of resource reference option in field `" ++ Field.name fo
         ++ "` cannot be resolved to the identical resource.")
      MAJOR
  else ret tt.

(** [_compare_resource_reference] (lines 214-301). *)
Definition _compare_resource_reference : Method t unit :=
  field_original <- gets field_original ;;
  field_update <- gets field_update ;;
  field_original <- getattr field_original "resource_reference" ;;
  let resource_ref_original := Field.resource_reference field_original in
  field_update <- getattr field_update "resource_reference" ;;
  let resource_ref_update := Field.resource_reference field_update in
  match resource_ref_original, resource_ref_update with
  | None, None =>
      (* No annotation in both versions. *)
      ret tt
  | None, Some resource_ref_update =>
      (* The annotation is added. *)
      resource_in_database <- _resource_in_database resource_ref_update ;;
      if negb resource_in_database then
        addFinding RESOURCE_REFERENCE_ADDITION
          (Field.proto_file_name field_update)
          (WithLocation.source_code_line resource_ref_update)
          ("A resource reference option is added to the field `"
             ++ Field.name field_original ++ "`, but it is not defined anywhere")
          MAJOR
      else
        addFinding RESOURCE_REFERENCE_ADDITION
          (Field.proto_file_name field_update)
          (WithLocation.source_code_line resource_ref_update)
          ("A resource reference option is added to the field `"
             ++ Field.name field_original ++ "`.")
          MINOR
  | Some resource_ref_original, None =>
      (* The annotation is removed. *)
      in_local <- _resource_ref_in_local (WithLocation.value resource_ref_original) ;;
      if negb in_local then
        addFinding RESOURCE_REFERENCE_REMOVAL
          (Field.proto_file_name field_original)
          (WithLocation.source_code_line resource_ref_original)
          ("A resource reference option of the field `"
             ++ Field.name field_original ++ "` is removed.")
          MAJOR
      else
        addFinding RESOURCE_REFERENCE_REMOVAL
          (Field.proto_file_name field_original)
          (WithLocation.source_code_line resource_ref_original)
          ("A resource reference option of the field `"
             ++ Field.name field_original
             ++ "` is removed, but added back to the message options.")
          MINOR
  | Some resource_ref_original, Some resource_ref_update =>
      let ref_original := WithLocation.value resource_ref_original in
      let ref_update := WithLocation.value resource_ref_update in
      if Bool.eqb (Field.child_type field_original) (Field.child_type field_update)
      then
        (* Both use [type] or both use [child_type]. *)
        let original_type :=
          or_ (ResourceReference.type ref_original)
              (ResourceReference.child_type ref_original) in
        let update_type :=
          or_ (ResourceReference.type ref_update)
              (ResourceReference.child_type ref_update) in
        if negb (eq original_type update_type) then
          addFinding RESOURCE_REFERENCE_CHANGE
            (Field.proto_file_name field_update)
            (WithLocation.source_code_line resource_ref_update)
            ("The type of resource reference option of the field `"
               ++ Field.name field_original ++ "` is changed from `"
               ++ fmt original_type ++ "` to `" ++ fmt update_type ++ "`.")
            MAJOR
        else ret tt
      else
        (* [type] is changed to [child_type], or the other way round. *)
        (if Field.child_type field_original then
           _is_parent_type
             (ResourceReference.child_type ref_original)
             (ResourceReference.type ref_update)
             true
             (WithLocation.source_code_line resource_ref_update)
         else ret tt) ;;
        (if Field.child_type field_update then
           _is_parent_type
             (ResourceReference.child_type ref_update)
             (ResourceReference.type ref_original)
             false
             (WithLocation.source_code_line resource_ref_update)
         else ret tt)
  end.

(** Step 4 of [compare] (lines 73-82): the repeated state. *)
Definition compare_repeated (o u : Field.t) : Method t unit :=
  if negb (Bool.eqb (WithLocation.value (Field.repeated o))
                    (WithLocation.value (Field.repeated u)))
  then
    addFinding FIELD_REPEATED_CHANGE
      (Field.proto_file_name u)
      (WithLocation.source_code_line (Field.repeated u))
      ("Repeated state of an existing field `" ++ Field.name o ++ "` is changed.")
      MAJOR
  else ret tt.

(** Lines 83-91 of [compare]: optional to required is breaking. *)
Definition compare_required (o u : Field.t) : Method t unit :=
  if negb (WithLocation.value (Field.required o))
     && WithLocation.value (Field.required u)
  then
    addFinding FIELD_BEHAVIOR_CHANGE
      (Field.proto_file_name u)
      (WithLocation.source_code_line (Field.required u))
      ("Field behavior of an existing field `" ++ Field.name o ++ "` is changed.")
      MAJOR
  else ret tt.

(** [d["key"]] on a value that may be [None]. *)
Definition subscript {A : Type} (d : option A) : Method t A :=
  match d with
  | Some e => ret e
  | None => raise (TypeError "'NoneType' object is not subscriptable")
  end.

(** Two map entry types are identical when they are equal or equal after
    the version transformation (lines 150-157); [or] evaluates the
    transformation only when the types differ. *)
Definition identical_entry_type (entry_original entry_update : string) : Method t bool :=
  if String.eqb entry_original entry_update then ret true
  else
    transformed <- _transformed_type_name entry_original ;;
    ret (eq transformed (Some entry_update)).

(** Step 5 of [compare] (lines 92-165): the type of the field. *)
Definition compare_type (o u : Field.t) : Method t unit :=
  if negb (String.eqb (WithLocation.value (Field.proto_type o))
                      (WithLocation.value (Field.proto_type u)))
  then
    addFinding FIELD_TYPE_CHANGE
      (Field.proto_file_name u)
      (WithLocation.source_code_line (Field.proto_type u))
      ("Type of an existing field `" ++ Field.name o ++ "` is changed from `"
         ++ WithLocation.value (Field.proto_type o) ++ "` to `"
         ++ WithLocation.value (Field.proto_type u) ++ "`.")
      MAJOR
  else
    match Field.type_name o with
    | None => ret tt
    | Some type_name_original =>
        type_name_update <- getattr (Field.type_name u) "value" ;;
        if negb (String.eqb (WithLocation.value type_name_original)
                            (WithLocation.value type_name_update))
        then
          (* Same proto type, different type name: a version update is allowed. *)
          transformed_type_name <-
            _transformed_type_name (WithLocation.value type_name_original) ;;
          if negb (truthy transformed_type_name)
             || negb (eq transformed_type_name
                         (Some (WithLocation.value type_name_update)))
          then
            addFinding FIELD_TYPE_CHANGE
              (Field.proto_file_name u)
              (WithLocation.source_code_line type_name_update)
              ("Type of an existing field `" ++ Field.name o ++ "` is changed from `"
                 ++ WithLocation.value type_name_original ++ "` to `"
                 ++ WithLocation.value type_name_update ++ "`.")
              MAJOR
          else ret tt
        else if Field.is_map_type o && negb (Field.is_map_type u) then
          addFinding FIELD_TYPE_CHANGE
            (Field.proto_file_name u)
            (WithLocation.source_code_line type_name_update)
            ("Type of an existing field `" ++ Field.name o
               ++ "` is changed from a map to `"
               ++ WithLocation.value type_name_update ++ "`.")
            MAJOR
        else if negb (Field.is_map_type o) && Field.is_map_type u then
          addFinding FIELD_TYPE_CHANGE
            (Field.proto_file_name u)
            (WithLocation.source_code_line type_name_update)
            ("Type of an existing field `" ++ Field.name o ++ "` is changed from `"
               ++ WithLocation.value type_name_original ++ "` to a map.")
            MAJOR
        else if Field.is_map_type o && Field.is_map_type u then
          entry_original <- subscript (Field.map_entry_type o) ;;
          let key_original := MapEntry.key entry_original in
          let value_original := MapEntry.value entry_original in
          entry_update <- subscript (Field.map_entry_type u) ;;
          let key_update := MapEntry.key entry_update in
          let value_update := MapEntry.value entry_update in
          identical_key_type <- identical_entry_type key_original key_update ;;
          identical_value_type <- identical_entry_type value_original value_update ;;
          if negb (identical_key_type && identical_value_type) then
            addFinding FIELD_TYPE_CHANGE
              (Field.proto_file_name u)
              (WithLocation.source_code_line type_name_update)
              ("Type of an existing field `" ++ Field.name o
                 ++ "` is changed from `map<" ++ key_original ++ ", "
                 ++ value_original ++ ">` to `map<" ++ key_update ++ ", "
                 ++ value_update ++ ">`.")
              MAJOR
          else ret tt
        else ret tt
    end.

(** Steps 6 and 7 of [compare] (lines 167-209): the oneof state and the
    proto3 optional state. *)
Definition compare_oneof (o u : Field.t) : Method t unit :=
  if negb (Bool.eqb (Field.oneof o) (Field.oneof u)) then
    if Field.oneof o then
      addFinding FIELD_ONEOF_REMOVAL
        (Field.proto_file_name u)
        (Field.source_code_line u)
        ("An existing field `" ++ Field.name o ++ "` is moved out of One-of.")
        MAJOR
    else
      addFinding FIELD_ONEOF_ADDITION
        (Field.proto_file_name u)
        (Field.source_code_line u)
        ("An existing field `" ++ Field.name o ++ "` is moved into One-of.")
        MAJOR
  else if Field.oneof o
          && negb (Bool.eqb (Field.proto3_optional o) (Field.proto3_optional u))
  then
    (if Field.proto3_optional o then
       addFinding FIELD_PROTO3_OPTIONAL_CHANGE
         (Field.proto_file_name u)
         (Field.source_code_line u)
         ("Proto3 optional state of an existing field `" ++ Field.name o
            ++ "` is changed to required.")
         MAJOR
     else ret tt) ;;
    (if Field.proto3_optional u then
       addFinding FIELD_PROTO3_OPTIONAL_CHANGE
         (Field.proto_file_name u)
         (Field.source_code_line u)
         ("An existing field `" ++ Field.name o ++ "` is changed to proto3 optional.")
         MINOR
     else ret tt)
  else ret tt.

(** [compare] (lines 36-212). *)
Definition compare : Method t unit :=
  original <- gets field_original ;;
  match original with
  | None =>
      (* 1. A new field is added. *)
      update <- gets field_update ;;
      u <- getattr update "proto_file_name" ;;
      addFinding FIELD_ADDITION
        (Field.proto_file_name u)
        (Field.source_code_line u)
        ("A new field `" ++ Field.name u ++ "` is added.")
        MINOR
  | Some o =>
      update <- gets field_update ;;
      match update with
      | None =>
          (* 2. The original field is removed. *)
          addFinding FIELD_REMOVAL
            (Field.proto_file_name o)
            (Field.source_code_line o)
            ("An existing field `" ++ Field.name o ++ "` is removed.")
            MAJOR
      | Some u =>
          if negb (String.eqb (Field.name o) (Field.name u)) then
            (* 3. The name is changed. *)
            addFinding FIELD_NAME_CHANGE
              (Field.proto_file_name u)
              (Field.source_code_line u)
              ("Name of an existing field is changed from `" ++ Field.name o
                 ++ "` to `" ++ Field.name u ++ "`.")
              MAJOR
          else
            compare_repeated o u ;;
            compare_required o u ;;
            compare_type o u ;;
            compare_oneof o u ;;
            (* 8. The resource_reference annotation. *)
            _compare_resource_reference
      end
  end.

End FieldComparator.

(** ** The enum-value comparator ([src/comparator/enum_value_comparator.py]) *)

Module EnumValueComparator.

Record t : Type := make {
  enum_value_original : option EnumValue.t;
  enum_value_update : option EnumValue.t;
  finding_container : FindingContainer.t
}.

Definition addFinding (category : FindingCategory) (proto_file_name : string)
    (source_code_line : Z) (message : string) (change_type : ChangeType)
  : Method t unit :=
  fun self =>
    (Returned tt,
     make (enum_value_original self) (enum_value_update self)
       (FindingContainer.addFinding (finding_container self) category
          proto_file_name source_code_line message change_type)).

(** [compare] (lines 31-58). *)
Definition compare : Method t unit :=
  original <- gets enum_value_original ;;
  update <- gets enum_value_update ;;
  match original with
  | None =>
      u <- getattr update "proto_file_name" ;;
      addFinding ENUM_VALUE_ADDITION
        (EnumValue.proto_file_name u)
        (EnumValue.source_code_line u)
        ("A new EnumValue `" ++ EnumValue.name u ++ "` is added.")
        MINOR
  | Some o =>
      match update with
      | None =>
          addFinding ENUM_VALUE_REMOVAL
            (EnumValue.proto_file_name o)
            (EnumValue.source_code_line o)
            ("An existing EnumValue `" ++ EnumValue.name o ++ "` is removed.")
            MAJOR
      | Some u =>
          if negb (String.eqb (EnumValue.name o) (EnumValue.name u)) then
            addFinding ENUM_VALUE_NAME_CHANGE
              (EnumValue.proto_file_name u)
              (EnumValue.source_code_line u)
              ("Name of the EnumValue is changed from `" ++ EnumValue.name o
                 ++ "` to `" ++ EnumValue.name u ++ "`.")
              MAJOR
          else ret tt
      end
  end.

End EnumValueComparator.

(** ** Running a comparator on a fresh accumulator *)

(** [FieldComparator(original, update, container).compare()]: the outcome
    and the findings in the container afterwards. *)
Definition run_field (original update : option Field.t) (container : FindingContainer.t)
  : Outcome unit * FieldComparator.t :=
  FieldComparator.compare (FieldComparator.make original update container).

Definition findings_field (original update : option Field.t) : list Finding.t :=
  FieldComparator.finding_container (snd (run_field original update [])).

Definition outcome_field (original update : option Field.t) : Outcome unit :=
  fst (run_field original update []).

Definition run_enum_value (original update : option EnumValue.t)
    (container : FindingContainer.t) : Outcome unit * EnumValueComparator.t :=
  EnumValueComparator.compare (EnumValueComparator.make original update container).

Definition findings_enum_value (original update : option EnumValue.t) : list Finding.t :=
  EnumValueComparator.finding_container (snd (run_enum_value original update [])).

(** The findings of one category. *)
Definition of_category (c : FindingCategory) (fs : list Finding.t) : list Finding.t :=
  filter (fun f => category_eqb (Finding.category f) c) fs.

(** ** Descriptors in the style of the unit tests' [make_field] *)

Definition located {A : Type} (v : A) (line : Z) : WithLocation.t A :=
  WithLocation.make v line.

(** A plain field named [name] in file ["foo"]: optional, not repeated,
    of proto type [proto_type], without annotations. *)
Definition make_field (name proto_type : string) (type_name : option string)
    (api_version : option string) : Field.t :=
  Field.make name "foo" 1
    (located false 1) (located false 1) (located proto_type 1)
    (option_map (fun n => located n 1) type_name)
    false None false false None false api_version None None.

(** ** What a method may do to the comparator object *)

(** An outcome that, when it is an exception, is one that [Q] allows. *)
Definition raises_only (Q : Exception -> Prop) {A : Type} (r : Outcome A) : Prop :=
  match r with
  | Returned _ => True
  | Raised e => Q e
  end.

Definition any_exception (e : Exception) : Prop := True.

(** [appends oo uu P Q m]: run on a comparator whose views are [oo] and
    [uu], the method [m] leaves both views as they are and only appends
    findings to the container; the outcome and the appended findings do not
    depend on what the container already holds, every appended finding
    satisfies [P], and an exception raised satisfies [Q]. *)
Definition appends (oo uu : option Field.t) (P : Finding.t -> Prop)
    (Q : Exception -> Prop) {A : Type} (m : Method FieldComparator.t A) : Prop :=
  exists (r : Outcome A) (fs : list Finding.t),
    Forall P fs /\ raises_only Q r /\
    forall c, m (FieldComparator.make oo uu c) = (r, FieldComparator.make oo uu (c ++ fs)).

(** A severity that is [MAJOR] or [MINOR], so not [PATCH]. *)
Definition major_or_minor (f : Finding.t) : Prop :=
  Finding.change_type f = MAJOR \/ Finding.change_type f = MINOR.

(** A finding of another category than [FIELD_TYPE_CHANGE]. *)
Definition not_type_change (f : Finding.t) : Prop :=
  Finding.category f <> FIELD_TYPE_CHANGE.

(** The finding line 116 adds for a changed type name. *)
Definition type_name_change_finding (o u : Field.t)
    (type_name_original type_name_update : WithLocation.t string) : Finding.t :=
  Finding.make FIELD_TYPE_CHANGE
    (Field.proto_file_name u)
    (WithLocation.source_code_line type_name_update)
    ("Type of an existing field `" ++ Field.name o ++ "` is changed from `"
       ++ WithLocation.value type_name_original ++ "` to `"
       ++ WithLocation.value type_name_update ++ "`.")
    MAJOR.

(** The dot-separated segments of a qualified name. *)
Fixpoint segments (s : string) : list string :=
  match s with
  | EmptyString => [EmptyString]
  | String c rest =>
      if Ascii.eqb c "."%char then EmptyString :: segments rest
      else
        match segments rest with
        | seg :: segs => String c seg :: segs
        | [] => [String c EmptyString]
        end
  end.

(** The substitution as the specification words it, segment-exact: every
    segment of the type name that is the original api version becomes the
    updated api version, and no other segment changes. *)
Definition spec_segment_substitute (type_name old new : string) : string :=
  String.concat "." (map (fun seg => if String.eqb seg old then new else seg)
                         (segments type_name)).

(** ** Where a finding points

    The file and line each category of finding is located at, as the
    [addFinding] calls of the field comparator give them: the one (file,
    line) pair a finding of the category carries, none when the side or the
    attribute it reads is absent. *)





(** A string field in [file] at [line] with a [resource_reference]
    annotation (or none), a message-level resource (or none) and a resource
    database (or none); [child_type] is set when the annotation has a
    [child_type], as the wrapper derives it. *)
Definition make_reference_field (name file : string) (line : Z)
    (reference : option (WithLocation.t ResourceReference.t))
    (message_resource : option (WithLocation.t Resource.t))
    (resource_database : option ResourceDatabase.t) : Field.t :=
  Field.make name file line
    (located false line) (located false line) (located "TYPE_STRING" line)
    None false None false false
    reference
    match reference with
    | Some r => truthy (ResourceReference.child_type (WithLocation.value r))
    | None => false
    end
    None message_resource resource_database.



(** The finding [_is_parent_type] adds (lines 365-373). *)
Definition unresolved_parent_finding (o u : Field.t)
    (child_type parent_type : option string) (source_code_line : Z) : Finding.t :=
  Finding.make RESOURCE_REFERENCE_CHANGE
    (Field.proto_file_name u)
    source_code_line
    ("The child_type `" ++ fmt child_type ++ "` and type `" ++ fmt parent_type
       ++ "` of resource reference option in field `" ++ Field.name o
       ++ "` cannot be resolved to the identical resource.")
    MAJOR.

(** Is one of [parents] a resource of type [parent_type]?  The test of
    line 363. *)
Definition has_parent_of_type (parent_type : option string)
    (parents : list (WithLocation.t Resource.t)) : bool :=
  existsb (fun parent => eq (Some (Resource.type (WithLocation.value parent))) parent_type)
          parents.

(** What the database [db] answers to [get_parent_resources_by_child_type],
    nothing when it is absent or lacks the query. *)
Definition parents_in (db : option ResourceDatabase.t) (child_type : option string)
  : list (WithLocation.t Resource.t) :=
  match db with
  | Some d =>
      match ResourceDatabase.lookup d "get_parent_resources_by_child_type" with
      | Some q => q child_type
      | None => []
      end
  | None => []
  end.

(** A database with the two declared queries in which
    [example.com/Parent] is the one parent of [example.com/Child] and the one
    resource of its own type. *)
Definition parent_resource : WithLocation.t Resource.t :=
  located (Resource.make "example.com/Parent" ["parents/{parent}"]) 2.

Definition database_with_parent : ResourceDatabase.t :=
  ResourceDatabase.declared
    (fun type => if eq type (Some "example.com/Parent") then [parent_resource] else [])
    (fun child_type =>
       if eq child_type (Some "example.com/Child") then [parent_resource] else []).

(** A database with the two declared queries and nothing registered. *)
Definition database_empty : ResourceDatabase.t :=
  ResourceDatabase.declared (fun _ => []) (fun _ => []).

(** The reference [child_type: "example.com/Child"], the reference
    [type: "example.com/Parent"], and a reference with neither set. *)
Definition child_reference (line : Z) : WithLocation.t ResourceReference.t :=
  located (ResourceReference.make (Some "") (Some "example.com/Child")) line.

Definition parent_reference (line : Z) : WithLocation.t ResourceReference.t :=
  located (ResourceReference.make (Some "example.com/Parent") (Some "")) line.

Definition malformed_reference (line : Z) : WithLocation.t ResourceReference.t :=
  located (ResourceReference.make (Some "") (Some "")) line.

(** The fault of lines 335-337. *)
Definition malformed_resource_reference : Exception :=
  TypeError
    "In a resource_reference annotation, either `type` or `child_type` field should be defined".

(** A resource reference with neither [type] nor [child_type] set. *)
Definition both_unset (r : ResourceReference.t) : bool :=
  negb (truthy (ResourceReference.type r))
  && negb (truthy (ResourceReference.child_type r)).

(** Any exception but the malformed-reference fault. *)
Definition not_malformed_fault (e : Exception) : Prop :=
  e <> malformed_resource_reference.

(** The one situation in which the resolver reaches the check of lines
    333-337 with a reference that has neither field set: the reference is on
    the original field only, and the updated field has a message-level
    resource. *)
Definition malformed_removal_checked (o u : Field.t) : Prop :=
  exists (r : WithLocation.t ResourceReference.t) (mr : WithLocation.t Resource.t),
    Field.resource_reference o = Some r
    /\ Field.resource_reference u = None
    /\ Field.message_resource u = Some mr
    /\ both_unset (WithLocation.value r) = true.

(** The field [name] of [a.proto] used in the evaluations below. *)
Definition reference_field (reference : option (WithLocation.t ResourceReference.t))
    (message_resource : option (WithLocation.t Resource.t))
    (resource_database : option ResourceDatabase.t) : Field.t :=
  make_reference_field "name" "a.proto" 3 reference message_resource resource_database.

(** A database that offers, besides the two declared queries, a query under
    the name line 322 calls. *)
Definition database_with_singular_query : ResourceDatabase.t :=
  ("get_parent_resource_by_child_type",
   fun child_type =>
     if eq child_type (Some "example.com/Child") then [parent_resource] else [])
  :: database_with_parent.

(** ** The checklist steps of [compare]

    The step of [compare] that adds findings of a category, numbered in the
    order of the source: 1 addition, 2 removal, 3 name, 4 repeated state,
    5 field behavior, 6 type, 7 oneof and proto3 optional, 8 resource
    reference; 0 for the categories the field comparator does not use. *)
Definition step_of (category : FindingCategory) : nat :=
  match category with
  | FIELD_ADDITION => 1
  | FIELD_REMOVAL => 2
  | FIELD_NAME_CHANGE => 3
  | FIELD_REPEATED_CHANGE => 4
  | FIELD_BEHAVIOR_CHANGE => 5
  | FIELD_TYPE_CHANGE => 6
  | FIELD_ONEOF_REMOVAL | FIELD_ONEOF_ADDITION | FIELD_PROTO3_OPTIONAL_CHANGE => 7
  | RESOURCE_REFERENCE_ADDITION | RESOURCE_REFERENCE_REMOVAL
  | RESOURCE_REFERENCE_CHANGE => 8
  | ENUM_VALUE_ADDITION | ENUM_VALUE_REMOVAL | ENUM_VALUE_NAME_CHANGE => 0
  end%nat.

Definition steps (fs : list Finding.t) : list nat :=
  map (fun f => step_of (Finding.category f)) fs.

(** [ordered oo uu lo hi m]: as [appends], and the findings [m] appends
    belong to steps after [lo] and up to [hi], each to a later step than the
    one before it. *)
Definition ordered (oo uu : option Field.t) (lo hi : nat) {A : Type}
    (m : Method FieldComparator.t A) : Prop :=
  exists (r : Outcome A) (fs : list Finding.t),
    StronglySorted lt (steps fs)
    /\ Forall (fun s => lo < s <= hi)%nat (steps fs)
    /\ forall c, m (FieldComparator.make oo uu c) = (r, FieldComparator.make oo uu (c ++ fs)).

(** The findings of lines 76-82, 85-91 and 94-100. *)
Definition repeated_change_finding (o u : Field.t) : Finding.t :=
  Finding.make FIELD_REPEATED_CHANGE
    (Field.proto_file_name u)
    (WithLocation.source_code_line (Field.repeated u))
    ("Repeated state of an existing field `" ++ Field.name o ++ "` is changed.")
    MAJOR.

Definition behavior_change_finding (o u : Field.t) : Finding.t :=
  Finding.make FIELD_BEHAVIOR_CHANGE
    (Field.proto_file_name u)
    (WithLocation.source_code_line (Field.required u))
    ("Field behavior of an existing field `" ++ Field.name o ++ "` is changed.")
    MAJOR.

Definition proto_type_change_finding (o u : Field.t) : Finding.t :=
  Finding.make FIELD_TYPE_CHANGE
    (Field.proto_file_name u)
    (WithLocation.source_code_line (Field.proto_type u))
    ("Type of an existing field `" ++ Field.name o ++ "` is changed from `"
       ++ WithLocation.value (Field.proto_type o) ++ "` to `"
       ++ WithLocation.value (Field.proto_type u) ++ "`.")
    MAJOR.

(** The findings of lines 127-133, 135-141 and 159-165. *)
Definition map_to_type_finding (o u : Field.t)
    (type_name_update : WithLocation.t string) : Finding.t :=
  Finding.make FIELD_TYPE_CHANGE
    (Field.proto_file_name u)
    (WithLocation.source_code_line type_name_update)
    ("Type of an existing field `" ++ Field.name o
       ++ "` is changed from a map to `"
       ++ WithLocation.value type_name_update ++ "`.")
    MAJOR.

Definition type_to_map_finding (o u : Field.t)
    (type_name_original type_name_update : WithLocation.t string) : Finding.t :=
  Finding.make FIELD_TYPE_CHANGE
    (Field.proto_file_name u)
    (WithLocation.source_code_line type_name_update)
    ("Type of an existing field `" ++ Field.name o ++ "` is changed from `"
       ++ WithLocation.value type_name_original ++ "` to a map.")
    MAJOR.

Definition map_entry_change_finding (o u : Field.t)
    (type_name_update : WithLocation.t string)
    (entry_original entry_update : MapEntry.t) : Finding.t :=
  Finding.make FIELD_TYPE_CHANGE
    (Field.proto_file_name u)
    (WithLocation.source_code_line type_name_update)
    ("Type of an existing field `" ++ Field.name o
       ++ "` is changed from `map<" ++ MapEntry.key entry_original ++ ", "
       ++ MapEntry.value entry_original ++ ">` to `map<"
       ++ MapEntry.key entry_update ++ ", "
       ++ MapEntry.value entry_update ++ ">`.")
    MAJOR.

(** Two type names that are equal, or equal once every occurrence of the
    api version [v] in the first is replaced by [w]. *)
Definition equal_up_to_version (v w x y : string) : bool :=
  String.eqb x y || String.eqb (replace x v w) y.

(** The findings of lines 173-179, 182-188, 195-201 and 203-209. *)
Definition oneof_removal_finding (o u : Field.t) : Finding.t :=
  Finding.make FIELD_ONEOF_REMOVAL
    (Field.proto_file_name u) (Field.source_code_line u)
    ("An existing field `" ++ Field.name o ++ "` is moved out of One-of.")
    MAJOR.

Definition oneof_addition_finding (o u : Field.t) : Finding.t :=
  Finding.make FIELD_ONEOF_ADDITION
    (Field.proto_file_name u) (Field.source_code_line u)
    ("An existing field `" ++ Field.name o ++ "` is moved into One-of.")
    MAJOR.

Definition optional_to_required_finding (o u : Field.t) : Finding.t :=
  Finding.make FIELD_PROTO3_OPTIONAL_CHANGE
    (Field.proto_file_name u) (Field.source_code_line u)
    ("Proto3 optional state of an existing field `" ++ Field.name o
       ++ "` is changed to required.")
    MAJOR.

Definition required_to_optional_finding (o u : Field.t) : Finding.t :=
  Finding.make FIELD_PROTO3_OPTIONAL_CHANGE
    (Field.proto_file_name u) (Field.source_code_line u)
    ("An existing field `" ++ Field.name o ++ "` is changed to proto3 optional.")
    MINOR.

(** What steps 6 and 7 append, as a list. *)
Definition oneof_findings (o u : Field.t) : list Finding.t :=
  if negb (Bool.eqb (Field.oneof o) (Field.oneof u)) then
    [if Field.oneof o then oneof_removal_finding o u else oneof_addition_finding o u]
  else if Field.oneof o
          && negb (Bool.eqb (Field.proto3_optional o) (Field.proto3_optional u))
  then
    (if Field.proto3_optional o then [optional_to_required_finding o u] else [])
    ++ (if Field.proto3_optional u then [required_to_optional_finding o u] else [])
  else [].

(** [old in s]: the string [old] occurs in [s]. *)
Fixpoint occurs_in (old s : string) : bool :=
  String.prefix old s
  || match s with
     | EmptyString => false
     | String _ rest => occurs_in old rest
     end.

(** The findings of lines 228-243, 248-262 and 275-281. *)
Definition reference_addition_finding (o u : Field.t)
    (resource_ref_update : WithLocation.t ResourceReference.t)
    (in_database : bool) : Finding.t :=
  if in_database then
    Finding.make RESOURCE_REFERENCE_ADDITION
      (Field.proto_file_name u)
      (WithLocation.source_code_line resource_ref_update)
      ("A resource reference option is added to the field `"
         ++ Field.name o ++ "`.")
      MINOR
  else
    Finding.make RESOURCE_REFERENCE_ADDITION
      (Field.proto_file_name u)
      (WithLocation.source_code_line resource_ref_update)
      ("A resource reference option is added to the field `"
         ++ Field.name o ++ "`, but it is not defined anywhere")
      MAJOR.

Definition reference_removal_finding (o : Field.t)
    (resource_ref_original : WithLocation.t ResourceReference.t)
    (in_local : bool) : Finding.t :=
  if in_local then
    Finding.make RESOURCE_REFERENCE_REMOVAL
      (Field.proto_file_name o)
      (WithLocation.source_code_line resource_ref_original)
      ("A resource reference option of the field `" ++ Field.name o
         ++ "` is removed, but added back to the message options.")
      MINOR
  else
    Finding.make RESOURCE_REFERENCE_REMOVAL
      (Field.proto_file_name o)
      (WithLocation.source_code_line resource_ref_original)
      ("A resource reference option of the field `" ++ Field.name o
         ++ "` is removed.")
      MAJOR.

(** [type or child_type] of a reference (lines 267-273). *)
Definition referenced_type (r : ResourceReference.t) : option string :=
  or_ (ResourceReference.type r) (ResourceReference.child_type r).

Definition reference_change_finding (o u : Field.t)
    (resource_ref_original resource_ref_update : WithLocation.t ResourceReference.t)
  : Finding.t :=
  Finding.make RESOURCE_REFERENCE_CHANGE
    (Field.proto_file_name u)
    (WithLocation.source_code_line resource_ref_update)
    ("The type of resource reference option of the field `"
       ++ Field.name o ++ "` is changed from `"
       ++ fmt (referenced_type (WithLocation.value resource_ref_original))
       ++ "` to `"
       ++ fmt (referenced_type (WithLocation.value resource_ref_update)) ++ "`.")
    MAJOR.

(** Does the message-level resource [mr] have the type of one of
    [resources]?  The test of lines 343-346. *)
Definition resource_among (mr : WithLocation.t Resource.t)
    (resources : list (WithLocation.t Resource.t)) : bool :=
  existsb (fun resource =>
             String.eqb (Resource.type (WithLocation.value mr))
                        (Resource.type (WithLocation.value resource)))
          resources.

(** The categories of the enum-value comparator. *)
Definition is_enum_value_category (category : FindingCategory) : bool :=
  match category with
  | ENUM_VALUE_ADDITION | ENUM_VALUE_REMOVAL | ENUM_VALUE_NAME_CHANGE => true
  | _ => false
  end.

(** ** The protoc loader ([src/detector/loader.py])

    [Loader.__init__] and [Loader._get_proto_files] read the file system
    through [os.path.isdir] and [os.listdir]; the file system is a parameter
    of the model. *)

Module Loader.

(** What the loader asks the file system: whether a path is a directory,
    and the entries of a directory ([None] when [os.listdir] raises
    [OSError], as for a path that is no directory). *)
Record FileSystem : Type := {
  isdir : string -> bool;
  listdir : string -> option (list string)
}.

(** What the loader can raise: a builtin exception, or the [OSError] of
    [os.listdir]. *)
Inductive Fault : Type :=
| Builtin (e : Exception)
| OSError (path : string).

Inductive Result (A : Type) : Type :=
| Done (a : A)
| Failed (f : Fault).
Arguments Done {A} a.
Arguments Failed {A} f.

(** The loader object: what [__init__] stores on [self]. *)
Record t : Type := make {
  proto_dirs : list string;
  proto_files : list string
}.

(** [file_name.endsWith(".proto")] (line 85): [str] has no attribute
    [endsWith] (its method is [endswith]), so evaluating the call raises
    before the suffix is looked at. *)
Definition endsWith (file_name suffix : string) : Result bool :=
  Failed (Builtin (AttributeError "'str' object has no attribute 'endsWith'")).

(** The inner loop of [_get_proto_files] (lines 84-86). *)
Fixpoint scan_files (files : list string) (proto_files : list string)
  : Result (list string) :=
  match files with
  | [] => Done proto_files
  | file_name :: rest =>
      match endsWith file_name ".proto" with
      | Failed f => Failed f
      | Done true => scan_files rest (proto_files ++ [file_name])
      | Done false => scan_files rest proto_files
      end
  end.

(** The outer loop of [_get_proto_files] (lines 82-86). *)
Fixpoint scan_directories (fs : FileSystem) (proto_dirs : list string)
    (proto_files : list string) : Result (list string) :=
  match proto_dirs with
  | [] => Done proto_files
  | directory :: rest =>
      match listdir fs directory with
      | None => Failed (OSError directory)
      | Some files =>
          match scan_files files proto_files with
          | Failed f => Failed f
          | Done proto_files' => scan_directories fs rest proto_files'
          end
      end
  end.

(** [_get_proto_files] (lines 80-87). *)
Definition _get_proto_files (fs : FileSystem) (proto_dirs : list string)
  : Result (list string) :=
  scan_directories fs proto_dirs [].

(** The check of lines 40-44: every path must be a directory. *)
Fixpoint check_directories (fs : FileSystem) (proto_dirs : list string) : Result unit :=
  match proto_dirs with
  | [] => Done tt
  | path :: rest =>
      if negb (isdir fs path) then
        Failed (Builtin (TypeError
          ("The directory " ++ path
             ++ " passed in is not existing. Please check the path.")))
      else check_directories fs rest
  end.

(** [__init__] (lines 34-49); [proto_files] is [None] by default. *)
Definition __init__ (fs : FileSystem) (proto_dirs : list string)
    (proto_files : option (list string)) : Result t :=
  match check_directories fs proto_dirs with
  | Failed f => Failed f
  | Done _ =>
      let self_proto_dirs := map (fun dir => dir) proto_dirs in
      match proto_files with
      | Some (file :: files) => Done (make self_proto_dirs (file :: files))
      | Some [] | None =>
          match _get_proto_files fs self_proto_dirs with
          | Failed f => Failed f
          | Done found => Done (make self_proto_dirs found)
          end
      end
  end.

End Loader.

(** * Properties *)

(** ** Sanity checks: [str.replace] and the unit tests *)

Example replace_v1_v1beta1 :
  replace ".example.v1.Enum" "v1" "v1beta1" = ".example.v1beta1.Enum".
Proof. reflexivity. Qed.

Example replace_all_occurrences :
  replace "v1.v1x" "v1" "v2" = "v2.v2x".
Proof. reflexivity. Qed.

Example replace_non_overlapping :
  replace "aaa" "aa" "b" = "ba".
Proof. reflexivity. Qed.

Example replace_empty_old :
  replace "abc" "" "-" = "-a-b-c-".
Proof. reflexivity. Qed.

Example test_field_removal :
  findings_field (Some (make_field "Foo" "TYPE_INT32" None None)) None
  = [Finding.make FIELD_REMOVAL "foo" 1 "An existing field `Foo` is removed." MAJOR].
Proof. reflexivity. Qed.

Example test_field_addition :
  findings_field None (Some (make_field "Foo" "TYPE_INT32" None None))
  = [Finding.make FIELD_ADDITION "foo" 1 "A new field `Foo` is added." MINOR].
Proof. reflexivity. Qed.

Example test_primitive_type_change :
  findings_field (Some (make_field "my_field" "TYPE_INT32" None None))
                 (Some (make_field "my_field" "TYPE_STRING" None None))
  = [Finding.make FIELD_TYPE_CHANGE "foo" 1
       "Type of an existing field `my_field` is changed from `TYPE_INT32` to `TYPE_STRING`."
       MAJOR].
Proof. reflexivity. Qed.

Example test_message_type_change :
  findings_field
    (Some (make_field "my_field" "TYPE_ENUM" (Some ".example.v1.Enum") (Some "v1")))
    (Some (make_field "my_field" "TYPE_ENUM" (Some ".example.v1beta1.EnumUpdate")
             (Some "v1beta1")))
  = [Finding.make FIELD_TYPE_CHANGE "foo" 1
       "Type of an existing field `my_field` is changed from `.example.v1.Enum` to `.example.v1beta1.EnumUpdate`."
       MAJOR].
Proof. reflexivity. Qed.

Example test_name_change :
  findings_field (Some (make_field "Foo" "TYPE_INT32" None None))
                 (Some (make_field "Bar" "TYPE_INT32" None None))
  = [Finding.make FIELD_NAME_CHANGE "foo" 1
       "Name of an existing field is changed from `Foo` to `Bar`." MAJOR].
Proof. reflexivity. Qed.

Example enum_value_name_change :
  findings_enum_value (Some (EnumValue.make "RED" "foo" 4))
                      (Some (EnumValue.make "CRIMSON" "foo" 5))
  = [Finding.make ENUM_VALUE_NAME_CHANGE "foo" 5
       "Name of the EnumValue is changed from `RED` to `CRIMSON`." MAJOR].
Proof. reflexivity. Qed.

Example version_update_allowed :
  findings_field
    (Some (make_field "f" "TYPE_ENUM" (Some ".pkg.v1.Enum") (Some "v1")))
    (Some (make_field "f" "TYPE_ENUM" (Some ".pkg.v1beta1.Enum") (Some "v1beta1")))
  = [].
Proof. reflexivity. Qed.

Example version_update_breaking :
  findings_field
    (Some (make_field "f" "TYPE_ENUM" (Some ".pkg.v1.Enum") (Some "v1")))
    (Some (make_field "f" "TYPE_ENUM" (Some ".pkg.v2.EnumUpdate") (Some "v2")))
  = [Finding.make FIELD_TYPE_CHANGE "foo" 1
       "Type of an existing field `f` is changed from `.pkg.v1.Enum` to `.pkg.v2.EnumUpdate`."
       MAJOR].
Proof. reflexivity. Qed.

(** ** Composition rules for [appends] *)

Section AppendsRules.

Variables oo uu : option Field.t.
Variable P : Finding.t -> Prop.
Variable Q : Exception -> Prop.

Lemma appends_ret {A : Type} (a : A) : appends oo uu P Q (ret a).
Proof.
  exists (Returned a), []. split; [constructor|]. split; [exact I|].
  intros c. unfold ret. now rewrite app_nil_r.
Qed.

Lemma appends_raise {A : Type} (e : Exception) :
  Q e -> appends oo uu P Q (@raise _ A e).
Proof.
  intros HQ. exists (Raised e), []. split; [constructor|]. split; [assumption|].
  intros c. unfold raise. now rewrite app_nil_r.
Qed.

Lemma appends_bind {A B : Type} (m : Method FieldComparator.t A)
    (k : A -> Method FieldComparator.t B) :
  appends oo uu P Q m -> (forall a, appends oo uu P Q (k a)) ->
  appends oo uu P Q (bind m k).
Proof.
  intros (r & fs & Hfs & Hr & Hm) Hk. destruct r as [a|e].
  - destruct (Hk a) as (r' & fs' & Hfs' & Hr' & Hka).
    exists r', (fs ++ fs'). split; [now apply Forall_app|]. split; [assumption|].
    intros c. unfold bind. rewrite Hm, Hka. now rewrite app_assoc.
  - exists (Raised e), fs. split; [assumption|]. split; [assumption|].
    intros c. unfold bind. now rewrite Hm.
Qed.

Lemma appends_gets_original {B : Type} (k : option Field.t -> Method FieldComparator.t B) :
  appends oo uu P Q (k oo) ->
  appends oo uu P Q (bind (gets FieldComparator.field_original) k).
Proof.
  intros (r & fs & Hfs & Hr & Hk). exists r, fs. split; [assumption|]. split; [assumption|].
  intros c. unfold bind, gets. simpl. apply Hk.
Qed.

Lemma appends_gets_update {B : Type} (k : option Field.t -> Method FieldComparator.t B) :
  appends oo uu P Q (k uu) ->
  appends oo uu P Q (bind (gets FieldComparator.field_update) k).
Proof.
  intros (r & fs & Hfs & Hr & Hk). exists r, fs. split; [assumption|]. split; [assumption|].
  intros c. unfold bind, gets. simpl. apply Hk.
Qed.

Lemma appends_getattr {A : Type} (obj : option A) (attr : string) :
  (forall msg, Q (AttributeError msg)) ->
  appends oo uu P Q (getattr obj attr).
Proof.
  intros HQ. destruct obj; [apply appends_ret | apply appends_raise, HQ].
Qed.

Lemma appends_bind_getattr {A B : Type} (obj : option A) (attr : string)
    (k : A -> Method FieldComparator.t B) :
  (forall msg, Q (AttributeError msg)) ->
  (forall a, obj = Some a -> appends oo uu P Q (k a)) ->
  appends oo uu P Q (bind (getattr obj attr) k).
Proof.
  intros HQ Hk. destruct obj as [a|].
  - destruct (Hk a eq_refl) as (r & fs & Hfs & Hr & Hka). exists r, fs.
    split; [assumption|]. split; [assumption|].
    intros c. unfold bind, getattr, ret. apply Hka.
  - eexists (Raised _), []. split; [constructor|]. split; [apply HQ|].
    intros c. unfold bind, getattr, raise. now rewrite app_nil_r.
Qed.

Lemma appends_subscript {A : Type} (d : option A) :
  Q (TypeError "'NoneType' object is not subscriptable") ->
  appends oo uu P Q (FieldComparator.subscript d).
Proof.
  intros HQ. destruct d; [apply appends_ret | apply appends_raise, HQ].
Qed.

Lemma appends_call (db : option ResourceDatabase.t) (name : string) (arg : option string) :
  (forall msg, Q (AttributeError msg)) ->
  appends oo uu P Q (ResourceDatabase.call db name arg).
Proof.
  intros HQ. unfold ResourceDatabase.call.
  destruct db as [d|]; [|apply appends_raise, HQ].
  destruct (ResourceDatabase.lookup d name); [apply appends_ret | apply appends_raise, HQ].
Qed.

Lemma appends_addFinding (category : FindingCategory) (file : string) (line : Z)
    (msg : string) (change_type : ChangeType) :
  P (Finding.make category file line msg change_type) ->
  appends oo uu P Q (FieldComparator.addFinding category file line msg change_type).
Proof.
  intros HP. exists (Returned tt), [Finding.make category file line msg change_type].
  split; [now repeat constructor|]. split; [exact I|]. intros c. reflexivity.
Qed.

End AppendsRules.

(** The exception side conditions of the rules, for the two predicates on
    exceptions used below. *)
Ltac allowed_exception :=
  intros; first [ exact I | unfold not_malformed_fault; discriminate ].

(** One step of a proof of [appends]: follow the structure of the method. *)
Ltac appends_step :=
  first
    [ apply appends_ret
    | apply appends_getattr; [allowed_exception]
    | apply appends_subscript; [allowed_exception]
    | apply appends_call; [allowed_exception]
    | apply appends_addFinding
    | apply appends_gets_original
    | apply appends_gets_update
    | apply appends_bind_getattr;
      [ allowed_exception
      | let a := fresh "a" in
        let Ha := fresh "Ha" in
        intros a Ha; try (injection Ha as <-) ]
    | apply appends_bind; [ | intros ? ]
    | match goal with
      | |- appends _ _ _ _ (if ?b then _ else _) => destruct b eqn:?
      | |- appends _ _ _ _ (match ?x with _ => _ end) => destruct x eqn:?
      end
    | apply appends_raise ].

Ltac appends_auto := repeat appends_step.

(** ** Addition and removal of a field *)

(** C3: for every present field [F], comparing an absent original with [F]
    appends exactly one finding, [FIELD_ADDITION] of severity [MINOR] at
    [F]'s file and line, and returns; comparing [F] with an absent update
    appends exactly one finding, [FIELD_REMOVAL] of severity [MAJOR] at
    [F]'s file and line, and returns. *)
Theorem C3_addition_and_removal (F : Field.t) (c : FindingContainer.t) :
  run_field None (Some F) c
  = (Returned tt,
     FieldComparator.make None (Some F)
       (c ++ [Finding.make FIELD_ADDITION (Field.proto_file_name F)
                (Field.source_code_line F)
                ("A new field `" ++ Field.name F ++ "` is added.") MINOR]))
  /\
  run_field (Some F) None c
  = (Returned tt,
     FieldComparator.make (Some F) None
       (c ++ [Finding.make FIELD_REMOVAL (Field.proto_file_name F)
                (Field.source_code_line F)
                ("An existing field `" ++ Field.name F ++ "` is removed.") MAJOR])).
Proof.
  split; reflexivity.
Qed.

(** ** Severities *)

Ltac unfold_field_comparator :=
  unfold FieldComparator.compare, FieldComparator.compare_repeated,
    FieldComparator.compare_required, FieldComparator.compare_type,
    FieldComparator.compare_oneof, FieldComparator._compare_resource_reference,
    FieldComparator._is_parent_type, FieldComparator._resource_ref_in_local,
    FieldComparator._resource_in_database, FieldComparator.identical_entry_type,
    FieldComparator._transformed_type_name.

(** The field comparator only appends findings of severity [MAJOR] or
    [MINOR], whatever the views are. *)
Lemma field_compare_appends_major_or_minor (oo uu : option Field.t) :
  appends oo uu major_or_minor any_exception FieldComparator.compare.
Proof.
  unfold_field_comparator. appends_auto.
  all: unfold major_or_minor, any_exception; simpl; auto.
Qed.

(** The enum-value comparator appends at most one finding, of severity
    [MAJOR] or [MINOR], and leaves what the container holds in place. *)
Lemma enum_value_compare_appends (original update : option EnumValue.t)
    (c : FindingContainer.t) :
  exists fs,
    EnumValueComparator.finding_container (snd (run_enum_value original update c))
    = c ++ fs
    /\ Forall major_or_minor fs /\ (length fs <= 1)%nat.
Proof.
  unfold run_enum_value, EnumValueComparator.compare, bind, gets. simpl.
  destruct original as [o|], update as [u|]; simpl;
    try destruct (String.eqb (EnumValue.name o) (EnumValue.name u)); simpl;
    try (exists []; rewrite app_nil_r; repeat split; [constructor | simpl; lia]);
    (eexists; split; [reflexivity|]; split; [|simpl; lia];
     constructor; [|constructor]; unfold major_or_minor; simpl; auto).
Qed.

(** Both comparators, run on any container, return or raise with the views
    as they were and the container extended. *)
Lemma run_field_appends (original update : option Field.t) :
  exists (r : Outcome unit) (fs : list Finding.t),
    Forall major_or_minor fs /\ raises_only any_exception r /\
    forall c, run_field original update c
              = (r, FieldComparator.make original update (c ++ fs)).
Proof.
  exact (field_compare_appends_major_or_minor original update).
Qed.

Lemma major_or_minor_not_patch (f : Finding.t) :
  major_or_minor f -> Finding.change_type f <> PATCH.
Proof.
  intros [H|H]; rewrite H; discriminate.
Qed.

(** C8: for every input pair, every finding appended by the field comparator
    and by the enum-value comparator has severity [MAJOR] or [MINOR], never
    [PATCH]. *)
Theorem C8_severity_major_or_minor :
  (forall (original update : option Field.t) (c : FindingContainer.t),
      exists fs,
        FieldComparator.finding_container (snd (run_field original update c)) = c ++ fs
        /\ Forall (fun f => major_or_minor f /\ Finding.change_type f <> PATCH) fs)
  /\
  (forall (original update : option EnumValue.t) (c : FindingContainer.t),
      exists fs,
        EnumValueComparator.finding_container (snd (run_enum_value original update c))
        = c ++ fs
        /\ Forall (fun f => major_or_minor f /\ Finding.change_type f <> PATCH) fs).
Proof.
  split; intros original update c.
  - destruct (run_field_appends original update) as (r & fs & Hfs & _ & Hrun).
    exists fs. rewrite Hrun. split; [reflexivity|].
    eapply Forall_impl; [|exact Hfs].
    intros f Hf. split; [assumption | now apply major_or_minor_not_patch].
  - destruct (enum_value_compare_appends original update c) as (fs & Hc & Hfs & _).
    exists fs. split; [assumption|].
    eapply Forall_impl; [|exact Hfs].
    intros f Hf. split; [assumption | now apply major_or_minor_not_patch].
Qed.

(** ** Determinism and read-only views *)

(** The comparator looks at a database answer only through [bool(...)] and
    [any(...)], so the order in which a database lists the resources of an
    answer does not matter. *)
Lemma nonempty_permutation {A : Type} (l l' : list A) :
  Permutation l l' -> FieldComparator.nonempty l = FieldComparator.nonempty l'.
Proof.
  induction 1 as [| x l l' _ _ | x y l | l l' l'' _ IH1 _ IH2];
    simpl; try reflexivity.
  now rewrite IH1.
Qed.

Lemma existsb_permutation {A : Type} (test : A -> bool) (l l' : list A) :
  Permutation l l' -> existsb test l = existsb test l'.
Proof.
  induction 1 as [| x l l' _ IH | x y l | l l' l'' _ IH1 _ IH2]; simpl.
  - reflexivity.
  - now rewrite IH.
  - now rewrite !orb_assoc, (orb_comm (test y)).
  - now rewrite IH1.
Qed.

(** C9: a run of the field comparator leaves both views as they were, and a
    second run on the views as the first run left them, into a fresh
    accumulator of its own, has the same outcome and appends the same ordered
    list of findings; what a run appends does not depend on what its
    accumulator already holds. *)
Theorem C9_deterministic_read_only (original update : option Field.t) :
  let first := run_field original update [] in
  let second :=
    run_field (FieldComparator.field_original (snd first))
              (FieldComparator.field_update (snd first)) [] in
  FieldComparator.field_original (snd first) = original
  /\ FieldComparator.field_update (snd first) = update
  /\ FieldComparator.field_original (snd second) = original
  /\ FieldComparator.field_update (snd second) = update
  /\ FieldComparator.finding_container (snd second)
     = FieldComparator.finding_container (snd first)
  /\ fst second = fst first
  /\ forall c,
       run_field original update c
       = (fst first,
          FieldComparator.make original update
            (c ++ FieldComparator.finding_container (snd first))).
Proof.
  destruct (run_field_appends original update) as (r & fs & _ & _ & Hrun).
  cbv zeta. rewrite (Hrun []). simpl.
  rewrite (Hrun []). simpl. repeat split; try reflexivity.
  intros c. apply Hrun.
Qed.

(** ** The type step among the steps of [compare] *)

Lemma of_category_app (cat : FindingCategory) (l1 l2 : list Finding.t) :
  of_category cat (l1 ++ l2) = of_category cat l1 ++ of_category cat l2.
Proof.
  unfold of_category. apply filter_app.
Qed.

Lemma of_category_none (fs : list Finding.t) :
  Forall not_type_change fs -> of_category FIELD_TYPE_CHANGE fs = [].
Proof.
  induction 1 as [|f fs Hf _ IH]; [reflexivity|].
  unfold of_category in *. simpl. rewrite IH.
  unfold category_eqb.
  destruct (FindingCategory_eq_dec (Finding.category f) FIELD_TYPE_CHANGE);
    [contradiction | reflexivity].
Qed.

(** With equal names, [compare] runs steps 4 to 8 in sequence. *)
Lemma run_field_same_name (o u : Field.t) (c : FindingContainer.t) :
  Field.name o = Field.name u ->
  run_field (Some o) (Some u) c
  = (FieldComparator.compare_repeated o u ;;
     FieldComparator.compare_required o u ;;
     FieldComparator.compare_type o u ;;
     FieldComparator.compare_oneof o u ;;
     FieldComparator._compare_resource_reference)
      (FieldComparator.make (Some o) (Some u) c).
Proof.
  intros Hname. unfold run_field, FieldComparator.compare.
  unfold bind at 1, gets at 1. simpl.
  unfold bind at 1, gets at 1. simpl.
  rewrite Hname, String.eqb_refl. reflexivity.
Qed.

(** The steps before the type step return, and add no type change. *)
Lemma repeated_required_then (o u : Field.t) :
  exists fs,
    Forall not_type_change fs /\
    forall (c : FindingContainer.t) (k : Method FieldComparator.t unit),
      (FieldComparator.compare_repeated o u ;;
       FieldComparator.compare_required o u ;; k)
        (FieldComparator.make (Some o) (Some u) c)
      = k (FieldComparator.make (Some o) (Some u) (c ++ fs)).
Proof.
  unfold FieldComparator.compare_repeated, FieldComparator.compare_required.
  destruct (negb (Bool.eqb (WithLocation.value (Field.repeated o))
                           (WithLocation.value (Field.repeated u))));
    destruct (negb (WithLocation.value (Field.required o))
              && WithLocation.value (Field.required u)).
  - eexists. split; cycle 1.
    + intros c k. unfold bind, FieldComparator.addFinding, FindingContainer.addFinding.
      simpl. rewrite <- app_assoc. reflexivity.
    + repeat constructor; unfold not_type_change; simpl; discriminate.
  - eexists. split; cycle 1.
    + intros c k. reflexivity.
    + repeat constructor; unfold not_type_change; simpl; discriminate.
  - eexists. split; cycle 1.
    + intros c k. reflexivity.
    + repeat constructor; unfold not_type_change; simpl; discriminate.
  - exists []. split.
    + constructor.
    + intros c k. unfold bind, ret. simpl. now rewrite app_nil_r.
Qed.

(** The steps after the type step add no type change. *)
Lemma oneof_resource_appends (o u : Field.t) :
  appends (Some o) (Some u) not_type_change any_exception
    (FieldComparator.compare_oneof o u ;; FieldComparator._compare_resource_reference).
Proof.
  unfold_field_comparator. appends_auto.
  all: try exact I; unfold not_type_change; simpl; discriminate.
Qed.

(** So the type changes in the container after [compare] are those that
    were there plus those of the type step, whether that step returns or
    raises. *)
Lemma type_changes_of_compare (o u : Field.t) (r : Outcome unit)
    (tfs : list Finding.t) (c : FindingContainer.t) :
  Field.name o = Field.name u ->
  (forall c', FieldComparator.compare_type o u (FieldComparator.make (Some o) (Some u) c')
              = (r, FieldComparator.make (Some o) (Some u) (c' ++ tfs))) ->
  of_category FIELD_TYPE_CHANGE
    (FieldComparator.finding_container (snd (run_field (Some o) (Some u) c)))
  = of_category FIELD_TYPE_CHANGE c ++ of_category FIELD_TYPE_CHANGE tfs.
Proof.
  intros Hname Htype.
  rewrite run_field_same_name by assumption.
  destruct (repeated_required_then o u) as (fs & Hfs & Hfront).
  rewrite Hfront.
  destruct (oneof_resource_appends o u) as (r' & fs' & Hfs' & _ & Hrest).
  unfold bind at 1. rewrite Htype.
  destruct r as [[]|e]; simpl.
  - rewrite Hrest. simpl.
    rewrite !of_category_app, (of_category_none fs), (of_category_none fs') by assumption.
    now rewrite !app_nil_r.
  - rewrite !of_category_app, (of_category_none fs) by assumption.
    now rewrite !app_nil_r.
Qed.

(** ** Version tolerance of the type-name check *)

Lemma truthy_str_nonempty (s : string) : s <> "" -> truthy_str s = true.
Proof.
  destruct s; [congruence | reflexivity].
Qed.

Section TypeNameChanged.

Variables o u : Field.t.
Variables type_name_original type_name_update : WithLocation.t string.

Hypothesis same_proto_type :
  WithLocation.value (Field.proto_type o) = WithLocation.value (Field.proto_type u).
Hypothesis original_type_name : Field.type_name o = Some type_name_original.
Hypothesis update_type_name : Field.type_name u = Some type_name_update.
Hypothesis type_name_differs :
  WithLocation.value type_name_original <> WithLocation.value type_name_update.

(** The type step reaches the version transformation. *)
Lemma compare_type_changed_name (c : FindingContainer.t) :
  FieldComparator.compare_type o u (FieldComparator.make (Some o) (Some u) c)
  = (transformed_type_name <-
       FieldComparator._transformed_type_name (WithLocation.value type_name_original) ;;
     if negb (truthy transformed_type_name)
        || negb (eq transformed_type_name (Some (WithLocation.value type_name_update)))
     then
       FieldComparator.addFinding FIELD_TYPE_CHANGE
         (Field.proto_file_name u)
         (WithLocation.source_code_line type_name_update)
         ("Type of an existing field `" ++ Field.name o ++ "` is changed from `"
            ++ WithLocation.value type_name_original ++ "` to `"
            ++ WithLocation.value type_name_update ++ "`.")
         MAJOR
     else ret tt)
      (FieldComparator.make (Some o) (Some u) c).
Proof.
  unfold FieldComparator.compare_type.
  rewrite same_proto_type, String.eqb_refl. simpl.
  rewrite original_type_name, update_type_name. simpl.
  unfold bind at 1. simpl.
  apply String.eqb_neq in type_name_differs. rewrite type_name_differs. reflexivity.
Qed.

(** Without an api version on the original side the transformation gives
    [None], and the finding is added. *)
Lemma compare_type_no_api_version (c : FindingContainer.t) :
  Field.api_version o = None ->
  FieldComparator.compare_type o u (FieldComparator.make (Some o) (Some u) c)
  = (Returned tt,
     FieldComparator.make (Some o) (Some u)
       (c ++ [type_name_change_finding o u type_name_original type_name_update])).
Proof.
  intros Hv. rewrite compare_type_changed_name.
  unfold FieldComparator._transformed_type_name, bind, gets. simpl.
  rewrite Hv. reflexivity.
Qed.

(** With api versions on both sides the finding is added unless the replaced
    name is the updated one. *)
Lemma compare_type_api_versions (v w : string) (c : FindingContainer.t) :
  WithLocation.value type_name_update <> "" ->
  Field.api_version o = Some v -> v <> "" ->
  Field.api_version u = Some w ->
  FieldComparator.compare_type o u (FieldComparator.make (Some o) (Some u) c)
  = (Returned tt,
     FieldComparator.make (Some o) (Some u)
       (c ++ if String.eqb (replace (WithLocation.value type_name_original) v w)
                           (WithLocation.value type_name_update)
             then []
             else [type_name_change_finding o u type_name_original type_name_update])).
Proof.
  intros Hne Hv Hv' Hw. rewrite compare_type_changed_name.
  unfold FieldComparator._transformed_type_name, bind, gets. simpl.
  rewrite Hv, Hw, (truthy_str_nonempty v Hv'). simpl.
  destruct (String.eqb_spec (replace (WithLocation.value type_name_original) v w)
                            (WithLocation.value type_name_update)) as [Heq|Hneq].
  - rewrite Heq, (truthy_str_nonempty _ Hne). simpl.
    unfold ret. now rewrite app_nil_r.
  - rewrite orb_true_r. reflexivity.
Qed.

(** With an api version on the original side only, [str.replace] is given
    [None] and raises. *)
Lemma compare_type_update_version_missing (v : string) (c : FindingContainer.t) :
  Field.api_version o = Some v -> v <> "" ->
  Field.api_version u = None ->
  FieldComparator.compare_type o u (FieldComparator.make (Some o) (Some u) c)
  = (Raised (TypeError "replace() argument 2 must be str, not None"),
     FieldComparator.make (Some o) (Some u) c).
Proof.
  intros Hv Hv' Hw. rewrite compare_type_changed_name.
  unfold FieldComparator._transformed_type_name, bind, gets. simpl.
  rewrite Hv, Hw, (truthy_str_nonempty v Hv'). reflexivity.
Qed.

End TypeNameChanged.

(** C10: for present fields with equal names and equal proto types whose
    non-empty type names differ, when the original field has no api version
    the comparator adds exactly one [FIELD_TYPE_CHANGE] finding, of severity
    [MAJOR], whatever the two type names are: no version tolerance applies. *)
Theorem C10_no_tolerance_without_original_api_version
    (o u : Field.t) (type_name_original type_name_update : WithLocation.t string)
    (c : FindingContainer.t) :
  Field.name o = Field.name u ->
  WithLocation.value (Field.proto_type o) = WithLocation.value (Field.proto_type u) ->
  Field.type_name o = Some type_name_original ->
  Field.type_name u = Some type_name_update ->
  WithLocation.value type_name_original <> "" ->
  WithLocation.value type_name_update <> "" ->
  WithLocation.value type_name_original <> WithLocation.value type_name_update ->
  Field.api_version o = None ->
  of_category FIELD_TYPE_CHANGE
    (FieldComparator.finding_container (snd (run_field (Some o) (Some u) c)))
  = of_category FIELD_TYPE_CHANGE c
    ++ [type_name_change_finding o u type_name_original type_name_update]
  /\ Finding.change_type
       (type_name_change_finding o u type_name_original type_name_update) = MAJOR.
Proof.
  intros Hname Hproto Ho Hu _ _ Hdiff Hv. split; [|reflexivity].
  rewrite (type_changes_of_compare o u (Returned tt)
             [type_name_change_finding o u type_name_original type_name_update]
             c Hname).
  - reflexivity.
  - intros c'. now apply compare_type_no_api_version.
Qed.

(** C10 at [.pkg.v1.Enum] against [.pkg.v1beta1.Enum], which a replacement
    of [v1] by [v1beta1] would make equal. *)
Lemma C10_witness :
  of_category FIELD_TYPE_CHANGE
    (findings_field
       (Some (make_field "f" "TYPE_ENUM" (Some ".pkg.v1.Enum") None))
       (Some (make_field "f" "TYPE_ENUM" (Some ".pkg.v1beta1.Enum") (Some "v1beta1"))))
  = [Finding.make FIELD_TYPE_CHANGE "foo" 1
       "Type of an existing field `f` is changed from `.pkg.v1.Enum` to `.pkg.v1beta1.Enum`."
       MAJOR].
Proof.
  apply (C10_no_tolerance_without_original_api_version
           (make_field "f" "TYPE_ENUM" (Some ".pkg.v1.Enum") None)
           (make_field "f" "TYPE_ENUM" (Some ".pkg.v1beta1.Enum") (Some "v1beta1"))
           (located ".pkg.v1.Enum" 1) (located ".pkg.v1beta1.Enum" 1) []);
    simpl; try reflexivity; discriminate.
Defined.

(** What the code does for present fields with equal names and equal proto
    types whose non-empty type names differ, where the original api version
    is a non-empty string and the updated api version is a string: it
    replaces every occurrence of the original api version in the original
    type name by the updated api version ([str.replace]), adds no
    [FIELD_TYPE_CHANGE] finding when the replaced name is the updated type
    name, and exactly one, of severity [MAJOR], otherwise. *)
Lemma type_name_compared_after_replacement
    (o u : Field.t) (type_name_original type_name_update : WithLocation.t string)
    (v w : string) (c : FindingContainer.t) :
  Field.name o = Field.name u ->
  WithLocation.value (Field.proto_type o) = WithLocation.value (Field.proto_type u) ->
  Field.type_name o = Some type_name_original ->
  Field.type_name u = Some type_name_update ->
  WithLocation.value type_name_original <> "" ->
  WithLocation.value type_name_update <> "" ->
  WithLocation.value type_name_original <> WithLocation.value type_name_update ->
  Field.api_version o = Some v -> v <> "" ->
  Field.api_version u = Some w ->
  of_category FIELD_TYPE_CHANGE
    (FieldComparator.finding_container (snd (run_field (Some o) (Some u) c)))
  = of_category FIELD_TYPE_CHANGE c
    ++ (if String.eqb (replace (WithLocation.value type_name_original) v w)
                      (WithLocation.value type_name_update)
        then []
        else [type_name_change_finding o u type_name_original type_name_update])
  /\ Finding.change_type
       (type_name_change_finding o u type_name_original type_name_update) = MAJOR.
Proof.
  intros Hname Hproto Ho Hu _ Hne Hdiff Hv Hv' Hw. split; [|reflexivity].
  rewrite (type_changes_of_compare o u (Returned tt)
             (if String.eqb (replace (WithLocation.value type_name_original) v w)
                            (WithLocation.value type_name_update)
              then []
              else [type_name_change_finding o u type_name_original type_name_update])
             c Hname).
  - f_equal. now destruct (String.eqb _ _).
  - intros c'. now apply compare_type_api_versions.
Qed.

(** C1 fails on the code.  The comparator substitutes with [str.replace],
    which rewrites every occurrence of the original api version and not the
    version segment alone, against what lines 107-108 and 304-306 of the
    source say (a version update is allowed, a renamed type is breaking).
    With the api versions [v1] and [v1beta1], the segment-exact substitution
    turns [.pkg.v1.Ipv1Config] into the updated type name
    [.pkg.v1beta1.Ipv1Config], a pure version update, yet the comparator
    also rewrites the [v1] inside [Ipv1Config] and adds a
    [FIELD_TYPE_CHANGE].  With the api versions [v1] and [v2], the
    segment-exact substitution turns [.pkg.v1.Xv1] into [.pkg.v2.Xv1], which
    is not the updated type name [.pkg.v2.Xv2], a renamed type, yet the
    comparator rewrites the [v1] inside [Xv1] too and adds nothing.  The two
    type names the claim cites behave as it says. *)
Theorem C1_replacement_is_not_segment_exact :
  let o1 := make_field "f" "TYPE_MESSAGE" (Some ".pkg.v1.Ipv1Config") (Some "v1") in
  let u1 :=
    make_field "f" "TYPE_MESSAGE" (Some ".pkg.v1beta1.Ipv1Config") (Some "v1beta1") in
  let o2 := make_field "f" "TYPE_MESSAGE" (Some ".pkg.v1.Xv1") (Some "v1") in
  let u2 := make_field "f" "TYPE_MESSAGE" (Some ".pkg.v2.Xv2") (Some "v2") in
  (spec_segment_substitute ".pkg.v1.Ipv1Config" "v1" "v1beta1"
   = ".pkg.v1beta1.Ipv1Config"
   /\ replace ".pkg.v1.Ipv1Config" "v1" "v1beta1" = ".pkg.v1beta1.Ipv1beta1Config"
   /\ run_field (Some o1) (Some u1) []
      = (Returned tt,
         FieldComparator.make (Some o1) (Some u1)
           [Finding.make FIELD_TYPE_CHANGE "foo" 1
              "Type of an existing field `f` is changed from `.pkg.v1.Ipv1Config` to `.pkg.v1beta1.Ipv1Config`."
              MAJOR]))
  /\ (spec_segment_substitute ".pkg.v1.Xv1" "v1" "v2" = ".pkg.v2.Xv1"
      /\ replace ".pkg.v1.Xv1" "v1" "v2" = ".pkg.v2.Xv2"
      /\ run_field (Some o2) (Some u2) []
         = (Returned tt, FieldComparator.make (Some o2) (Some u2) []))
  /\ (findings_field
        (Some (make_field "f" "TYPE_ENUM" (Some ".pkg.v1.Enum") (Some "v1")))
        (Some (make_field "f" "TYPE_ENUM" (Some ".pkg.v1beta1.Enum") (Some "v1beta1")))
      = []
      /\ findings_field
           (Some (make_field "f" "TYPE_ENUM" (Some ".pkg.v1.Enum") (Some "v1")))
           (Some (make_field "f" "TYPE_ENUM" (Some ".pkg.v2.EnumUpdate") (Some "v2")))
         = [Finding.make FIELD_TYPE_CHANGE "foo" 1
              "Type of an existing field `f` is changed from `.pkg.v1.Enum` to `.pkg.v2.EnumUpdate`."
              MAJOR]).
Proof.
  repeat split.
Qed.

(** ** Locations *)






(** ** The resolver when [type] and [child_type] are swapped *)

(** C2, as amended: when both fields carry a resource reference and one uses
    [child_type] where the other uses [type], the resolver queries the
    parent resources of the child type in the resource database of the side
    that carries the [child_type] reference (the child side itself); when no
    parent there has the other side's type it adds one
    [RESOURCE_REFERENCE_CHANGE] finding of severity [MAJOR] saying that the
    pair cannot be resolved to the identical resource, at the updated
    reference's line, and when one has it adds nothing. *)
Theorem C2_swapped_reference_queries_child_side
    (o u : Field.t) (ref_original ref_update : WithLocation.t ResourceReference.t)
    (db : ResourceDatabase.t) (q : ResourceDatabase.Query) (c : FindingContainer.t) :
  Field.resource_reference o = Some ref_original ->
  Field.resource_reference u = Some ref_update ->
  Field.child_type o <> Field.child_type u ->
  let child_side := if Field.child_type o then o else u in
  let child_ref :=
    WithLocation.value (if Field.child_type o then ref_original else ref_update) in
  let other_ref :=
    WithLocation.value (if Field.child_type o then ref_update else ref_original) in
  Field.resource_database child_side = Some db ->
  ResourceDatabase.lookup db "get_parent_resources_by_child_type" = Some q ->
  FieldComparator._compare_resource_reference (FieldComparator.make (Some o) (Some u) c)
  = (Returned tt,
     FieldComparator.make (Some o) (Some u)
       (c ++ if has_parent_of_type (ResourceReference.type other_ref)
                  (q (ResourceReference.child_type child_ref))
             then []
             else [unresolved_parent_finding o u
                     (ResourceReference.child_type child_ref)
                     (ResourceReference.type other_ref)
                     (WithLocation.source_code_line ref_update)])).
Proof.
  intros Ho Hu Hswap child_side child_ref other_ref Hdb Hq.
  subst child_side child_ref other_ref.
  unfold FieldComparator._compare_resource_reference, bind, gets, getattr, ret. simpl.
  rewrite Ho, Hu.
  destruct (Field.child_type o) eqn:Hco, (Field.child_type u) eqn:Hcu;
    try congruence; simpl;
    unfold FieldComparator._is_parent_type, bind, gets, getattr, ret; simpl;
    rewrite Hdb; unfold ResourceDatabase.call; rewrite Hq; unfold ret;
    unfold has_parent_of_type;
    destruct (existsb _ _); simpl; try rewrite app_nil_r; reflexivity.
Qed.

(** C2 as amended, at a child reference on the original side whose parent
    is registered in the original side's database: nothing is added. *)
Lemma C2_witness :
  FieldComparator._compare_resource_reference
    (FieldComparator.make
       (Some (make_reference_field "name" "a.proto" 3 (Some (child_reference 7)) None
                (Some database_with_parent)))
       (Some (make_reference_field "name" "a.proto" 3 (Some (parent_reference 8)) None
                (Some database_empty)))
       [])
  = (Returned tt,
     FieldComparator.make
       (Some (make_reference_field "name" "a.proto" 3 (Some (child_reference 7)) None
                (Some database_with_parent)))
       (Some (make_reference_field "name" "a.proto" 3 (Some (parent_reference 8)) None
                (Some database_empty)))
       []).
Proof.
  apply (C2_swapped_reference_queries_child_side
           (make_reference_field "name" "a.proto" 3 (Some (child_reference 7)) None
              (Some database_with_parent))
           (make_reference_field "name" "a.proto" 3 (Some (parent_reference 8)) None
              (Some database_empty))
           (child_reference 7) (parent_reference 8)
           database_with_parent
           (fun child_type =>
              if eq child_type (Some "example.com/Child") then [parent_resource] else [])
           []);
    simpl; try reflexivity; discriminate.
Defined.

(** C2 as stated fails in both directions.  The original side holds the
    child reference.  First, the database of the side that is not the child
    side (the updated one) registers no parent of the child type, yet
    nothing is added, because the original side's database registers it.
    Second, the updated side's database registers the parent, yet the
    finding is added, because the original side's database does not. *)
Lemma C2_counterexample :
  let o db := make_reference_field "name" "a.proto" 3 (Some (child_reference 7)) None db in
  let u db := make_reference_field "name" "a.proto" 3 (Some (parent_reference 8)) None db in
  (Field.child_type (o None) = true /\ Field.child_type (u None) = false)
  /\ (has_parent_of_type (Some "example.com/Parent")
        (parents_in (Some database_empty) (Some "example.com/Child")) = false
      /\ findings_field (Some (o (Some database_with_parent)))
                        (Some (u (Some database_empty))) = []
      /\ outcome_field (Some (o (Some database_with_parent)))
                       (Some (u (Some database_empty))) = Returned tt)
  /\ (has_parent_of_type (Some "example.com/Parent")
        (parents_in (Some database_with_parent) (Some "example.com/Child")) = true
      /\ findings_field (Some (o (Some database_empty)))
                        (Some (u (Some database_with_parent)))
         = [Finding.make RESOURCE_REFERENCE_CHANGE "a.proto" 8
              "The child_type `example.com/Child` and type `example.com/Parent` of resource reference option in field `name` cannot be resolved to the identical resource."
              MAJOR]).
Proof.
  repeat split.
Qed.

(** ** Malformed resource references *)

Lemma truthy_or (a b : option string) :
  truthy (or_ a b) = truthy a || truthy b.
Proof.
  unfold or_. destruct (truthy a) eqn:Ha; [assumption | reflexivity].
Qed.

Lemma both_unset_checked_type (r : ResourceReference.t) :
  negb (truthy (or_ (ResourceReference.type r) (ResourceReference.child_type r)))
  = both_unset r.
Proof.
  unfold both_unset. rewrite truthy_or. apply negb_orb.
Qed.

(** Outside that situation the resolver does not raise the fault. *)
Lemma resolver_without_fault (o u : Field.t) :
  ~ malformed_removal_checked o u ->
  appends (Some o) (Some u) (fun _ => True) not_malformed_fault
    FieldComparator._compare_resource_reference.
Proof.
  intros Hnot. unfold_field_comparator. appends_auto.
  all: try exact I.
  exfalso. apply Hnot. unfold malformed_removal_checked.
  rewrite both_unset_checked_type in *. eauto 10.
Qed.

(** In that situation it does, before anything is appended. *)
Lemma resolver_with_fault (o u : Field.t) (c : FindingContainer.t) :
  malformed_removal_checked o u ->
  FieldComparator._compare_resource_reference (FieldComparator.make (Some o) (Some u) c)
  = (Raised malformed_resource_reference, FieldComparator.make (Some o) (Some u) c).
Proof.
  intros (r & mr & Ho & Hu & Hmr & Hunset).
  unfold FieldComparator._compare_resource_reference, bind, gets, getattr, ret. simpl.
  rewrite Ho, Hu.
  unfold FieldComparator._resource_ref_in_local, bind, gets, getattr, ret. simpl.
  rewrite Hmr, both_unset_checked_type, Hunset. reflexivity.
Qed.

(** Where the code checks: the resolver raises the malformed-reference
    fault exactly when a reference with neither [type] nor [child_type] set
    is on the original field only and the updated field has a message-level
    resource (the removal branch, past the message-resource guard of
    [_resource_ref_in_local]); it then appends nothing.  No other path of
    the resolver has the check. *)
Lemma malformed_fault_exactly_when_removal_checked
    (o u : Field.t) (c : FindingContainer.t) :
  (fst (FieldComparator._compare_resource_reference
          (FieldComparator.make (Some o) (Some u) c))
   = Raised malformed_resource_reference
   <-> malformed_removal_checked o u)
  /\
  (fst (FieldComparator._compare_resource_reference
          (FieldComparator.make (Some o) (Some u) c))
   = Raised malformed_resource_reference
   -> FieldComparator.finding_container
        (snd (FieldComparator._compare_resource_reference
                (FieldComparator.make (Some o) (Some u) c))) = c).
Proof.
  assert (Hiff :
    fst (FieldComparator._compare_resource_reference
           (FieldComparator.make (Some o) (Some u) c))
    = Raised malformed_resource_reference
    -> malformed_removal_checked o u).
  { intros Hraised.
    destruct (Field.resource_reference o) as [r|] eqn:Ho;
      destruct (Field.resource_reference u) as [r'|] eqn:Hu;
      destruct (Field.message_resource u) as [mr|] eqn:Hmr;
      try destruct (both_unset (WithLocation.value r)) eqn:Hunset;
      try (exists r, mr; now repeat split);
      exfalso;
      (assert (Hnot : ~ malformed_removal_checked o u)
        by (intros (r0 & mr0 & H1 & H2 & H3 & H4); congruence));
      destruct (resolver_without_fault o u Hnot) as (out & fs & _ & Hout & Hrun);
      rewrite Hrun in Hraised; simpl in Hraised; subst out;
      now apply Hout. }
  split; [split|].
  - exact Hiff.
  - intros H. now rewrite resolver_with_fault.
  - intros H. apply Hiff in H. now rewrite resolver_with_fault.
Qed.

(** C4 fails on the code.  The check for a reference with neither [type]
    nor [child_type] set (lines 333-337) is in [_resource_ref_in_local]
    alone, behind its message-resource guard, and is missing from the
    sibling paths: such a reference raises nothing when it is added, when it
    is removed from a field whose message has no resource, when it replaces
    another such reference, and when it replaces a [child_type] reference;
    the resolver returns and, in three of the four cases, adds an ordinary
    finding.  Only its removal from a field whose message has a resource
    raises the fault. *)
Theorem C4_malformed_reference_not_rejected :
  let field reference db := make_reference_field "name" "a.proto" 3 reference None db in
  both_unset (WithLocation.value (malformed_reference 7)) = true
  /\ run_field (Some (field None None))
               (Some (field (Some (malformed_reference 7)) (Some database_empty))) []
     = (Returned tt,
        FieldComparator.make
          (Some (field None None))
          (Some (field (Some (malformed_reference 7)) (Some database_empty)))
          [Finding.make RESOURCE_REFERENCE_ADDITION "a.proto" 7
             "A resource reference option is added to the field `name`, but it is not defined anywhere"
             MAJOR])
  /\ run_field (Some (field (Some (malformed_reference 7)) None))
               (Some (field None None)) []
     = (Returned tt,
        FieldComparator.make
          (Some (field (Some (malformed_reference 7)) None))
          (Some (field None None))
          [Finding.make RESOURCE_REFERENCE_REMOVAL "a.proto" 7
             "A resource reference option of the field `name` is removed." MAJOR])
  /\ run_field (Some (field (Some (malformed_reference 7)) None))
               (Some (field (Some (malformed_reference 8)) None)) []
     = (Returned tt,
        FieldComparator.make
          (Some (field (Some (malformed_reference 7)) None))
          (Some (field (Some (malformed_reference 8)) None))
          [])
  /\ run_field (Some (field (Some (child_reference 7)) (Some database_with_parent)))
               (Some (field (Some (malformed_reference 8)) (Some database_with_parent))) []
     = (Returned tt,
        FieldComparator.make
          (Some (field (Some (child_reference 7)) (Some database_with_parent)))
          (Some (field (Some (malformed_reference 8)) (Some database_with_parent)))
          [Finding.make RESOURCE_REFERENCE_CHANGE "a.proto" 8
             "The child_type `example.com/Child` and type `` of resource reference option in field `name` cannot be resolved to the identical resource."
             MAJOR])
  /\ run_field
       (Some (make_reference_field "name" "a.proto" 3
                (Some (malformed_reference 7)) None None))
       (Some (make_reference_field "name" "a.proto" 3 None
                (Some parent_resource) None))
       []
     = (Raised malformed_resource_reference,
        FieldComparator.make
          (Some (make_reference_field "name" "a.proto" 3
                   (Some (malformed_reference 7)) None None))
          (Some (make_reference_field "name" "a.proto" 3 None
                   (Some parent_resource) None))
          []).
Proof.
  repeat split.
Qed.

Example malformed_removal_raises :
  run_field (Some (reference_field (Some (malformed_reference 7)) None None))
            (Some (reference_field None (Some parent_resource) None)) []
  = (Raised malformed_resource_reference,
     FieldComparator.make
       (Some (reference_field (Some (malformed_reference 7)) None None))
       (Some (reference_field None (Some parent_resource) None))
       []).
Proof. reflexivity. Qed.

(** ** Queries to the resource database *)

(** What [_resource_in_database] asks a database that is present: for a
    [child_type] reference, the query named
    [get_parent_resource_by_child_type]. *)
Lemma resource_in_database_child_type (o u : Field.t)
    (resource_ref : WithLocation.t ResourceReference.t) (d : ResourceDatabase.t)
    (c : FindingContainer.t) :
  Field.resource_database u = Some d ->
  Field.child_type u = true ->
  FieldComparator._resource_in_database resource_ref
    (FieldComparator.make (Some o) (Some u) c)
  = match ResourceDatabase.lookup d "get_parent_resource_by_child_type" with
    | Some q =>
        (Returned
           (FieldComparator.nonempty
              (q (ResourceReference.child_type (WithLocation.value resource_ref)))),
         FieldComparator.make (Some o) (Some u) c)
    | None =>
        (Raised
           (AttributeError
              "'ResourceDatabase' object has no attribute 'get_parent_resource_by_child_type'"),
         FieldComparator.make (Some o) (Some u) c)
    end.
Proof.
  intros Hdb Hchild.
  unfold FieldComparator._resource_in_database, bind, gets, getattr, ret. simpl.
  rewrite Hdb, Hchild. simpl.
  destruct (ResourceDatabase.lookup d "get_parent_resource_by_child_type"); reflexivity.
Qed.

(** C7 fails on the code: a [child_type] reference is added and the updated
    side's database registers the parent of that child type and offers the
    two declared queries.  [_resource_in_database] calls the database under
    the name [get_parent_resource_by_child_type], which is neither of them,
    so the comparison raises and no finding is added; a [type] reference
    added against the same database is found through [get_resource_by_type],
    and a database that also answers the undeclared name lets the
    [child_type] addition through. *)
Theorem C7_addition_calls_undeclared_query :
  run_field (Some (reference_field None None None))
            (Some (reference_field (Some (child_reference 7)) None
                     (Some database_with_parent))) []
  = (Raised
       (AttributeError
          "'ResourceDatabase' object has no attribute 'get_parent_resource_by_child_type'"),
     FieldComparator.make
       (Some (reference_field None None None))
       (Some (reference_field (Some (child_reference 7)) None (Some database_with_parent)))
       [])
  /\ findings_field (Some (reference_field None None None))
                    (Some (reference_field (Some (parent_reference 7)) None
                             (Some database_with_parent)))
     = [Finding.make RESOURCE_REFERENCE_ADDITION "a.proto" 7
          "A resource reference option is added to the field `name`." MINOR]
  /\ findings_field (Some (reference_field None None None))
                    (Some (reference_field (Some (child_reference 7)) None
                             (Some database_with_singular_query)))
     = [Finding.make RESOURCE_REFERENCE_ADDITION "a.proto" 7
          "A resource reference option is added to the field `name`." MINOR].
Proof.
  repeat split.
Qed.

(** ** An absent resource database *)

(** With no database on the updated side, an added reference is reported
    as not defined anywhere. *)
Lemma addition_without_database (o u : Field.t)
    (resource_ref_update : WithLocation.t ResourceReference.t) (c : FindingContainer.t) :
  Field.resource_reference o = None ->
  Field.resource_reference u = Some resource_ref_update ->
  Field.resource_database u = None ->
  FieldComparator._compare_resource_reference (FieldComparator.make (Some o) (Some u) c)
  = (Returned tt,
     FieldComparator.make (Some o) (Some u)
       (c ++ [Finding.make RESOURCE_REFERENCE_ADDITION
                (Field.proto_file_name u)
                (WithLocation.source_code_line resource_ref_update)
                ("A resource reference option is added to the field `"
                   ++ Field.name o ++ "`, but it is not defined anywhere")
                MAJOR])).
Proof.
  intros Ho Hu Hdb.
  unfold FieldComparator._compare_resource_reference, bind, gets, getattr, ret. simpl.
  rewrite Ho, Hu.
  unfold FieldComparator._resource_in_database, bind, gets, getattr, ret. simpl.
  rewrite Hdb. reflexivity.
Qed.

(** With no database on the updated side, the removal of a well-formed
    [child_type] reference from a field whose message has a resource raises:
    the query of line 340 is made on [None]. *)
Lemma removal_without_database (o u : Field.t)
    (resource_ref_original : WithLocation.t ResourceReference.t)
    (mr_update : WithLocation.t Resource.t) (c : FindingContainer.t) :
  Field.resource_reference o = Some resource_ref_original ->
  Field.resource_reference u = None ->
  Field.message_resource u = Some mr_update ->
  both_unset (WithLocation.value resource_ref_original) = false ->
  Field.child_type o = true ->
  Field.resource_database u = None ->
  FieldComparator._compare_resource_reference (FieldComparator.make (Some o) (Some u) c)
  = (Raised
       (AttributeError
          "'NoneType' object has no attribute 'get_parent_resources_by_child_type'"),
     FieldComparator.make (Some o) (Some u) c).
Proof.
  intros Ho Hu Hmr Hset Hchild Hdb.
  unfold FieldComparator._compare_resource_reference, bind, gets, getattr, ret. simpl.
  rewrite Ho, Hu.
  unfold FieldComparator._resource_ref_in_local, bind, gets, getattr, ret. simpl.
  rewrite Hmr, both_unset_checked_type, Hset. simpl.
  rewrite Hchild, Hdb. reflexivity.
Qed.

(** C5 holds for the addition check and fails on the code for the other
    two: with no database on the updated side an added reference is
    classified as not defined anywhere ([MAJOR]); but removing a
    [child_type] reference from a field whose message has a resource, and a
    swap of [child_type] and [type] whose child side has no database, both
    raise [AttributeError] instead of completing with a negative result. *)
Theorem C5_absent_database :
  run_field (Some (reference_field None None None))
            (Some (reference_field (Some (parent_reference 7)) None None)) []
  = (Returned tt,
     FieldComparator.make
       (Some (reference_field None None None))
       (Some (reference_field (Some (parent_reference 7)) None None))
       [Finding.make RESOURCE_REFERENCE_ADDITION "a.proto" 7
          "A resource reference option is added to the field `name`, but it is not defined anywhere"
          MAJOR])
  /\ run_field (Some (reference_field (Some (child_reference 7)) None None))
               (Some (reference_field None (Some parent_resource) None)) []
     = (Raised
          (AttributeError
             "'NoneType' object has no attribute 'get_parent_resources_by_child_type'"),
        FieldComparator.make
          (Some (reference_field (Some (child_reference 7)) None None))
          (Some (reference_field None (Some parent_resource) None))
          [])
  /\ run_field (Some (reference_field (Some (child_reference 7)) None None))
               (Some (reference_field (Some (parent_reference 8)) None
                        (Some database_with_parent))) []
     = (Raised
          (AttributeError
             "'NoneType' object has no attribute 'get_parent_resources_by_child_type'"),
        FieldComparator.make
          (Some (reference_field (Some (child_reference 7)) None None))
          (Some (reference_field (Some (parent_reference 8)) None
                   (Some database_with_parent)))
          []).
Proof.
  repeat split.
Qed.

(** * Further properties of the comparators *)

(** ** A changed name ends the comparison *)

(** X1: when both fields are present and their names differ, the comparison
    appends exactly one finding, [FIELD_NAME_CHANGE] of severity [MAJOR] at
    the updated field's file and line, and returns: no other difference
    between the two fields is looked at, and the resource database is not
    queried. *)
Theorem X1_name_change_ends_comparison (o u : Field.t) (c : FindingContainer.t) :
  Field.name o <> Field.name u ->
  run_field (Some o) (Some u) c
  = (Returned tt,
     FieldComparator.make (Some o) (Some u)
       (c ++ [Finding.make FIELD_NAME_CHANGE
                (Field.proto_file_name u) (Field.source_code_line u)
                ("Name of an existing field is changed from `" ++ Field.name o
                   ++ "` to `" ++ Field.name u ++ "`.")
                MAJOR])).
Proof.
  intros Hname. apply String.eqb_neq in Hname.
  unfold run_field, FieldComparator.compare, bind, gets. simpl.
  rewrite Hname. reflexivity.
Qed.

(** X1 at a field that is renamed, retyped, made repeated and given an
    undefined resource reference at once. *)
Lemma X1_witness :
  run_field
    (Some (make_field "Foo" "TYPE_INT32" None None))
    (Some (Field.make "Bar" "foo" 9 (located true 9) (located true 9)
             (located "TYPE_STRING" 9) None false None true false
             (Some (malformed_reference 9)) false None None None))
    []
  = (Returned tt,
     FieldComparator.make
       (Some (make_field "Foo" "TYPE_INT32" None None))
       (Some (Field.make "Bar" "foo" 9 (located true 9) (located true 9)
                (located "TYPE_STRING" 9) None false None true false
                (Some (malformed_reference 9)) false None None None))
       [Finding.make FIELD_NAME_CHANGE "foo" 9
          "Name of an existing field is changed from `Foo` to `Bar`." MAJOR]).
Proof.
  apply (X1_name_change_ends_comparison
           (make_field "Foo" "TYPE_INT32" None None)
           (Field.make "Bar" "foo" 9 (located true 9) (located true 9)
              (located "TYPE_STRING" 9) None false None true false
              (Some (malformed_reference 9)) false None None None)
           []).
  simpl. discriminate.
Defined.

(** ** A field compared with itself *)

Lemma eq_refl_value (a : option string) : eq a a = true.
Proof.
  destruct a as [s|]; [apply String.eqb_refl | reflexivity].
Qed.

(** X2: comparing a present field with itself appends no finding, whatever
    the field is; and the comparison returns, unless the field is a map
    with a type name but without map entry types, where reading the entry
    types raises. *)
Theorem X2_unchanged_field_no_finding (F : Field.t) (c : FindingContainer.t) :
  FieldComparator.finding_container (snd (run_field (Some F) (Some F) c)) = c
  /\ fst (run_field (Some F) (Some F) c)
     = match Field.type_name F, Field.is_map_type F, Field.map_entry_type F with
       | Some _, true, None =>
           Raised (TypeError "'NoneType' object is not subscriptable")
       | _, _, _ => Returned tt
       end.
Proof.
  unfold run_field, FieldComparator.compare, bind, gets. simpl.
  rewrite String.eqb_refl. simpl.
  unfold FieldComparator.compare_repeated. rewrite Bool.eqb_reflx. simpl.
  unfold FieldComparator.compare_required.
  replace (negb (WithLocation.value (Field.required F))
           && WithLocation.value (Field.required F)) with false
    by (now destruct (WithLocation.value (Field.required F))).
  simpl.
  assert (Hrest :
    forall s, (FieldComparator.compare_oneof F F ;;
               FieldComparator._compare_resource_reference)
                (FieldComparator.make (Some F) (Some F) s)
              = (Returned tt, FieldComparator.make (Some F) (Some F) s)).
  { intros s. unfold FieldComparator.compare_oneof.
    rewrite !Bool.eqb_reflx, andb_false_r. simpl.
    unfold FieldComparator._compare_resource_reference, bind, gets, getattr, ret. simpl.
    destruct (Field.resource_reference F) as [r|]; [|reflexivity].
    rewrite Bool.eqb_reflx, eq_refl_value. reflexivity. }
  unfold FieldComparator.compare_type. rewrite String.eqb_refl. simpl.
  destruct (Field.type_name F) as [tn|] eqn:Htn.
  - unfold getattr, bind, ret at 1. simpl. rewrite String.eqb_refl. simpl.
    destruct (Field.is_map_type F) eqn:Hmap; simpl.
    + destruct (Field.map_entry_type F) as [e|] eqn:He; simpl.
      * unfold FieldComparator.identical_entry_type. rewrite !String.eqb_refl.
        unfold ret at 1 2 3. simpl.
        change (FieldComparator.finding_container
                  (snd ((FieldComparator.compare_oneof F F ;;
                         FieldComparator._compare_resource_reference)
                          (FieldComparator.make (Some F) (Some F) c))) = c
                /\ fst ((FieldComparator.compare_oneof F F ;;
                         FieldComparator._compare_resource_reference)
                          (FieldComparator.make (Some F) (Some F) c)) = Returned tt).
        rewrite Hrest. split; reflexivity.
      * split; reflexivity.
    + change (FieldComparator.finding_container
                (snd ((FieldComparator.compare_oneof F F ;;
                       FieldComparator._compare_resource_reference)
                        (FieldComparator.make (Some F) (Some F) c))) = c
              /\ fst ((FieldComparator.compare_oneof F F ;;
                       FieldComparator._compare_resource_reference)
                        (FieldComparator.make (Some F) (Some F) c)) = Returned tt).
      rewrite Hrest. split; reflexivity.
  - change (FieldComparator.finding_container
              (snd ((FieldComparator.compare_oneof F F ;;
                     FieldComparator._compare_resource_reference)
                      (FieldComparator.make (Some F) (Some F) c))) = c
            /\ fst ((FieldComparator.compare_oneof F F ;;
                     FieldComparator._compare_resource_reference)
                      (FieldComparator.make (Some F) (Some F) c)) = Returned tt).
    rewrite Hrest. split; reflexivity.
Qed.

(** ** At most one finding per step, in the order of the steps *)

Section OrderedRules.

Variables oo uu : option Field.t.

Lemma ordered_ret {A : Type} (lo hi : nat) (a : A) : ordered oo uu lo hi (ret a).
Proof.
  exists (Returned a), []. split; [constructor|]. split; [constructor|].
  intros c. unfold ret. now rewrite app_nil_r.
Qed.

Lemma ordered_raise {A : Type} (lo hi : nat) (e : Exception) :
  ordered oo uu lo hi (@raise _ A e).
Proof.
  exists (Raised e), []. split; [constructor|]. split; [constructor|].
  intros c. unfold raise. now rewrite app_nil_r.
Qed.

Lemma steps_sorted_app (l1 l2 : list nat) (mid : nat) :
  StronglySorted lt l1 -> StronglySorted lt l2 ->
  Forall (fun s => s <= mid)%nat l1 -> Forall (fun s => mid < s)%nat l2 ->
  StronglySorted lt (l1 ++ l2).
Proof.
  intros H1 H2 Hle Hlt. induction H1 as [|x l1 Hs IH Hx]; simpl; [assumption|].
  inversion Hle as [|? ? Hxm Hle']; subst.
  constructor; [now apply IH|].
  apply Forall_app. split; [assumption|].
  eapply Forall_impl; [|exact Hlt]. intros s Hs'. simpl in Hs'. lia.
Qed.

Lemma ordered_bind {A B : Type} (lo mid hi : nat) (m : Method FieldComparator.t A)
    (k : A -> Method FieldComparator.t B) :
  (lo <= mid <= hi)%nat ->
  ordered oo uu lo mid m -> (forall a, ordered oo uu mid hi (k a)) ->
  ordered oo uu lo hi (bind m k).
Proof.
  intros Hmid (r & fs & Hs & Hb & Hm) Hk. destruct r as [a|e].
  - destruct (Hk a) as (r' & fs' & Hs' & Hb' & Hka).
    exists r', (fs ++ fs'). unfold steps in *. rewrite map_app. split; [|split].
    + apply (steps_sorted_app _ _ mid); try assumption.
      * eapply Forall_impl; [|exact Hb]. intros s Hs0. simpl in Hs0. lia.
      * eapply Forall_impl; [|exact Hb']. intros s Hs0. simpl in Hs0. lia.
    + apply Forall_app. split.
      * eapply Forall_impl; [|exact Hb]. intros s Hs0. simpl in Hs0. lia.
      * eapply Forall_impl; [|exact Hb']. intros s Hs0. simpl in Hs0. lia.
    + intros c. unfold bind. rewrite Hm, Hka. now rewrite app_assoc.
  - exists (Raised e), fs. split; [assumption|]. split.
    + eapply Forall_impl; [|exact Hb]. intros s Hs0. simpl in Hs0. lia.
    + intros c. unfold bind. now rewrite Hm.
Qed.

Lemma ordered_gets_original {B : Type} (lo hi : nat)
    (k : option Field.t -> Method FieldComparator.t B) :
  ordered oo uu lo hi (k oo) ->
  ordered oo uu lo hi (bind (gets FieldComparator.field_original) k).
Proof.
  intros (r & fs & Hs & Hb & Hk). exists r, fs. split; [assumption|]. split; [assumption|].
  intros c. unfold bind, gets. simpl. apply Hk.
Qed.

Lemma ordered_gets_update {B : Type} (lo hi : nat)
    (k : option Field.t -> Method FieldComparator.t B) :
  ordered oo uu lo hi (k uu) ->
  ordered oo uu lo hi (bind (gets FieldComparator.field_update) k).
Proof.
  intros (r & fs & Hs & Hb & Hk). exists r, fs. split; [assumption|]. split; [assumption|].
  intros c. unfold bind, gets. simpl. apply Hk.
Qed.

Lemma ordered_bind_getattr {A B : Type} (lo hi : nat) (obj : option A) (attr : string)
    (k : A -> Method FieldComparator.t B) :
  (forall a, obj = Some a -> ordered oo uu lo hi (k a)) ->
  ordered oo uu lo hi (bind (getattr obj attr) k).
Proof.
  intros Hk. destruct obj as [a|].
  - destruct (Hk a eq_refl) as (r & fs & Hs & Hb & Hka). exists r, fs.
    split; [assumption|]. split; [assumption|].
    intros c. unfold bind, getattr, ret. apply Hka.
  - eexists (Raised _), []. split; [constructor|]. split; [constructor|].
    intros c. unfold bind, getattr, raise. now rewrite app_nil_r.
Qed.

Lemma ordered_subscript {A : Type} (lo hi : nat) (d : option A) :
  ordered oo uu lo hi (FieldComparator.subscript d).
Proof.
  destruct d; [apply ordered_ret | apply ordered_raise].
Qed.

Lemma ordered_call (lo hi : nat) (db : option ResourceDatabase.t) (name : string)
    (arg : option string) :
  ordered oo uu lo hi (ResourceDatabase.call db name arg).
Proof.
  unfold ResourceDatabase.call. destruct db as [d|]; [|apply ordered_raise].
  destruct (ResourceDatabase.lookup d name); [apply ordered_ret | apply ordered_raise].
Qed.

Lemma ordered_addFinding (lo hi : nat) (category : FindingCategory) (file : string)
    (line : Z) (msg : string) (change_type : ChangeType) :
  (lo < step_of category <= hi)%nat ->
  ordered oo uu lo hi (FieldComparator.addFinding category file line msg change_type).
Proof.
  intros Hstep. exists (Returned tt), [Finding.make category file line msg change_type].
  split; [|split].
  - repeat constructor.
  - repeat constructor; simpl; lia.
  - intros c. reflexivity.
Qed.

Lemma ordered_weaken {A : Type} (lo hi lo' hi' : nat) (m : Method FieldComparator.t A) :
  (lo <= lo')%nat -> (hi' <= hi)%nat ->
  ordered oo uu lo' hi' m -> ordered oo uu lo hi m.
Proof.
  intros Hlo Hhi (r & fs & Hs & Hb & Hm). exists r, fs.
  split; [assumption|]. split; [|assumption].
  eapply Forall_impl; [|exact Hb]. intros s Hs0. simpl in Hs0. lia.
Qed.

End OrderedRules.

(** A condition on booleans that the equations at hand contradict. *)
Ltac contradictory_booleans :=
  exfalso;
  repeat match goal with
         | H : ?b = true, H' : context [?b] |- _ => rewrite H in H'
         | H : ?b = false, H' : context [?b] |- _ => rewrite H in H'
         end;
  simpl in *; rewrite ?andb_false_r in *; discriminate.

(** One step of a proof of [ordered]: the reads come first and append
    nothing; of two parts in sequence, one appends nothing. *)
Ltac ordered_step :=
  first
    [ apply ordered_ret
    | apply ordered_raise
    | apply ordered_subscript
    | apply ordered_call
    | apply ordered_addFinding; simpl; lia
    | apply ordered_gets_original
    | apply ordered_gets_update
    | apply ordered_bind_getattr;
      let a := fresh "a" in
      let Ha := fresh "Ha" in
      intros a Ha; try (injection Ha as <-)
    | match goal with
      | |- ordered _ _ _ _ (if ?b then _ else _) =>
          destruct b eqn:?; try solve [contradictory_booleans]
      | |- ordered _ _ _ _ (match ?x with _ => _ end) => destruct x eqn:?
      | |- ordered _ _ _ _ (bind (if ?b then _ else _) _) =>
          destruct b eqn:?; try solve [contradictory_booleans]
      | |- ordered _ _ ?lo ?hi (bind _ _) =>
          first
            [ apply (ordered_bind _ _ lo lo hi);
              [ lia | solve [repeat ordered_step] | intros ? ]
            | apply (ordered_bind _ _ lo hi hi);
              [ lia | | intros ? ] ]
      end ].

Ltac ordered_auto := repeat ordered_step.

Lemma resolver_ordered (o u : Field.t) :
  ordered (Some o) (Some u) 7 8 FieldComparator._compare_resource_reference.
Proof.
  unfold FieldComparator._compare_resource_reference,
    FieldComparator._is_parent_type, FieldComparator._resource_ref_in_local,
    FieldComparator._resource_in_database.
  ordered_auto.
Qed.

Lemma compare_oneof_ordered (o u : Field.t) :
  ordered (Some o) (Some u) 6 7 (FieldComparator.compare_oneof o u).
Proof.
  unfold FieldComparator.compare_oneof. ordered_auto.
Qed.

Lemma compare_type_ordered (o u : Field.t) :
  ordered (Some o) (Some u) 5 6 (FieldComparator.compare_type o u).
Proof.
  unfold FieldComparator.compare_type, FieldComparator.identical_entry_type,
    FieldComparator._transformed_type_name.
  ordered_auto.
Qed.

Lemma compare_required_ordered (o u : Field.t) :
  ordered (Some o) (Some u) 4 5 (FieldComparator.compare_required o u).
Proof.
  unfold FieldComparator.compare_required. ordered_auto.
Qed.

Lemma compare_repeated_ordered (o u : Field.t) :
  ordered (Some o) (Some u) 3 4 (FieldComparator.compare_repeated o u).
Proof.
  unfold FieldComparator.compare_repeated. ordered_auto.
Qed.

(** The whole comparison: one of the three early findings, or the findings
    of steps 4 to 8. *)
Lemma compare_ordered (oo uu : option Field.t) :
  ordered oo uu 0 3 FieldComparator.compare
  \/ ordered oo uu 3 8 FieldComparator.compare.
Proof.
  unfold FieldComparator.compare.
  destruct oo as [o|]; [destruct uu as [u|]|].
  - destruct (negb (String.eqb (Field.name o) (Field.name u))) eqn:Hname.
    + left. apply ordered_gets_original, ordered_gets_update.
      rewrite Hname. ordered_auto.
    + right. apply ordered_gets_original, ordered_gets_update.
      rewrite Hname.
      apply (ordered_bind _ _ 3 4 8); [lia | apply compare_repeated_ordered | intros _].
      apply (ordered_bind _ _ 4 5 8); [lia | apply compare_required_ordered | intros _].
      apply (ordered_bind _ _ 5 6 8); [lia | apply compare_type_ordered | intros _].
      apply (ordered_bind _ _ 6 7 8); [lia | apply compare_oneof_ordered | intros _].
      apply resolver_ordered.
  - left. ordered_auto.
  - left. ordered_auto.
Qed.

Lemma sorted_steps_length (l : list nat) (lo hi : nat) :
  StronglySorted lt l -> Forall (fun s => lo < s <= hi)%nat l ->
  (length l <= hi - lo)%nat.
Proof.
  intros Hs. revert lo. induction Hs as [|x l Hs IH Hx]; intros lo Hb; simpl; [lia|].
  inversion Hb as [|? ? Hxb Hb']; subst.
  assert (Hl : (length l <= hi - x)%nat).
  { apply IH. apply Forall_forall. intros s Hin.
    rewrite Forall_forall in Hx, Hb'. specialize (Hx s Hin). specialize (Hb' s Hin). lia. }
  lia.
Qed.

(** X3: whatever the two views are, the findings a comparison appends belong
    to strictly later and later steps of the checklist: at most one finding
    per step, in the order of the steps, so at most five findings in all
    (repeated state, field behavior, type, oneof or proto3 optional, resource
    reference); this also holds for what is appended before an exception. *)
Theorem X3_one_finding_per_step_in_order
    (original update : option Field.t) (c : FindingContainer.t) :
  exists fs,
    FieldComparator.finding_container (snd (run_field original update c)) = c ++ fs
    /\ StronglySorted lt (steps fs)
    /\ (length fs <= 5)%nat.
Proof.
  destruct (compare_ordered original update) as [H|H];
    destruct H as (r & fs & Hs & Hb & Hrun);
    exists fs; unfold run_field; rewrite Hrun; (split; [reflexivity|]);
    (split; [assumption|]);
    pose proof (sorted_steps_length _ _ _ Hs Hb) as Hlen;
    unfold steps in Hlen; rewrite length_map in Hlen; lia.
Qed.

(** ** Repeated state, field behavior and proto type *)

Lemma of_category_outside (cat : FindingCategory) (lo hi : nat) (fs : list Finding.t) :
  Forall (fun s => lo < s <= hi)%nat (steps fs) ->
  (step_of cat <= lo \/ hi < step_of cat)%nat ->
  of_category cat fs = [].
Proof.
  intros Hb Hcat. induction fs as [|f fs IH]; [reflexivity|].
  unfold steps in Hb. simpl in Hb. inversion Hb as [|? ? Hf Hb']; subst.
  unfold of_category in *. simpl. rewrite (IH Hb').
  unfold category_eqb.
  destruct (FindingCategory_eq_dec (Finding.category f) cat) as [Heq|]; [|reflexivity].
  rewrite Heq in Hf. lia.
Qed.

Lemma tail_from_type (o u : Field.t) :
  ordered (Some o) (Some u) 5 8
    (FieldComparator.compare_type o u ;;
     FieldComparator.compare_oneof o u ;;
     FieldComparator._compare_resource_reference).
Proof.
  apply (ordered_bind _ _ 5 6 8); [lia | apply compare_type_ordered | intros _].
  apply (ordered_bind _ _ 6 7 8); [lia | apply compare_oneof_ordered | intros _].
  apply resolver_ordered.
Qed.

Lemma tail_from_required (o u : Field.t) :
  ordered (Some o) (Some u) 4 8
    (FieldComparator.compare_required o u ;;
     FieldComparator.compare_type o u ;;
     FieldComparator.compare_oneof o u ;;
     FieldComparator._compare_resource_reference).
Proof.
  apply (ordered_bind _ _ 4 5 8); [lia | apply compare_required_ordered | intros _].
  apply tail_from_type.
Qed.

(** X4: for present fields with equal names, the comparison appends one
    [FIELD_REPEATED_CHANGE] finding, of severity [MAJOR] at the line of the
    updated repeated label, exactly when the repeated states differ (in
    either direction), whatever the later steps do. *)
Theorem X4_repeated_change_reported (o u : Field.t) (c : FindingContainer.t) :
  Field.name o = Field.name u ->
  of_category FIELD_REPEATED_CHANGE
    (FieldComparator.finding_container (snd (run_field (Some o) (Some u) c)))
  = of_category FIELD_REPEATED_CHANGE c
    ++ (if Bool.eqb (WithLocation.value (Field.repeated o))
                    (WithLocation.value (Field.repeated u))
        then []
        else [repeated_change_finding o u]).
Proof.
  intros Hname. rewrite run_field_same_name by assumption.
  destruct (tail_from_required o u) as (r & fs & _ & Hb & Hrest).
  unfold FieldComparator.compare_repeated.
  destruct (Bool.eqb (WithLocation.value (Field.repeated o))
                     (WithLocation.value (Field.repeated u))); simpl.
  - unfold bind at 1, ret at 1. rewrite Hrest. simpl.
    rewrite of_category_app.
    rewrite (of_category_outside _ 4 8 fs) by (first [exact Hb | simpl; lia]).
    reflexivity.
  - unfold bind at 1. simpl. rewrite Hrest. simpl.
    unfold FindingContainer.addFinding. rewrite !of_category_app.
    rewrite (of_category_outside _ 4 8 fs) by (first [exact Hb | simpl; lia]).
    rewrite ?app_nil_r. reflexivity.
Qed.

Lemma X4_witness :
  of_category FIELD_REPEATED_CHANGE
    (findings_field
       (Some (Field.make "tags" "foo" 3 (located true 4) (located false 3)
                (located "TYPE_STRING" 3) None false None false false None false
                None None None))
       (Some (Field.make "tags" "foo" 3 (located false 5) (located true 6)
                (located "TYPE_INT32" 3) None false None false false None false
                None None None)))
  = [Finding.make FIELD_REPEATED_CHANGE "foo" 5
       "Repeated state of an existing field `tags` is changed." MAJOR].
Proof.
  apply (X4_repeated_change_reported
           (Field.make "tags" "foo" 3 (located true 4) (located false 3)
              (located "TYPE_STRING" 3) None false None false false None false
              None None None)
           (Field.make "tags" "foo" 3 (located false 5) (located true 6)
              (located "TYPE_INT32" 3) None false None false false None false
              None None None)
           []).
  reflexivity.
Defined.

(** X5: for present fields with equal names, the comparison appends one
    [FIELD_BEHAVIOR_CHANGE] finding, of severity [MAJOR] at the line of the
    updated field behavior, exactly when the original is not required and
    the update is; a field that stops being required gives none. *)
Theorem X5_required_only_when_tightened (o u : Field.t) (c : FindingContainer.t) :
  Field.name o = Field.name u ->
  of_category FIELD_BEHAVIOR_CHANGE
    (FieldComparator.finding_container (snd (run_field (Some o) (Some u) c)))
  = of_category FIELD_BEHAVIOR_CHANGE c
    ++ (if negb (WithLocation.value (Field.required o))
           && WithLocation.value (Field.required u)
        then [behavior_change_finding o u]
        else []).
Proof.
  intros Hname. rewrite run_field_same_name by assumption.
  destruct (tail_from_type o u) as (r & fs & _ & Hb & Hrest).
  unfold FieldComparator.compare_repeated, FieldComparator.compare_required.
  destruct (negb (Bool.eqb (WithLocation.value (Field.repeated o))
                           (WithLocation.value (Field.repeated u))));
    destruct (negb (WithLocation.value (Field.required o))
              && WithLocation.value (Field.required u));
    unfold bind at 1; simpl; unfold bind at 1; simpl; rewrite Hrest; simpl;
    unfold FindingContainer.addFinding; rewrite !of_category_app;
    rewrite (of_category_outside _ 5 8 fs) by (first [exact Hb | simpl; lia]);
    simpl; rewrite ?app_nil_r; reflexivity.
Qed.

Lemma X5_witness :
  of_category FIELD_BEHAVIOR_CHANGE
    (findings_field
       (Some (Field.make "tags" "foo" 3 (located true 4) (located true 3)
                (located "TYPE_STRING" 3) None false None false false None false
                None None None))
       (Some (Field.make "tags" "foo" 3 (located false 5) (located false 6)
                (located "TYPE_INT32" 3) None false None false false None false
                None None None)))
  = [].
Proof.
  apply (X5_required_only_when_tightened
           (Field.make "tags" "foo" 3 (located true 4) (located true 3)
              (located "TYPE_STRING" 3) None false None false false None false
              None None None)
           (Field.make "tags" "foo" 3 (located false 5) (located false 6)
              (located "TYPE_INT32" 3) None false None false false None false
              None None None)
           []).
  reflexivity.
Defined.

(** The type step when the proto types differ: one finding, and neither the
    type names nor the api versions nor the map entries are read. *)
Lemma compare_type_proto_type_differs (o u : Field.t) (c : FindingContainer.t) :
  WithLocation.value (Field.proto_type o) <> WithLocation.value (Field.proto_type u) ->
  FieldComparator.compare_type o u (FieldComparator.make (Some o) (Some u) c)
  = (Returned tt,
     FieldComparator.make (Some o) (Some u) (c ++ [proto_type_change_finding o u])).
Proof.
  intros Hdiff. apply String.eqb_neq in Hdiff.
  unfold FieldComparator.compare_type. rewrite Hdiff. reflexivity.
Qed.

(** X6: for present fields with equal names whose proto types differ, the
    comparison appends exactly one [FIELD_TYPE_CHANGE] finding, of severity
    [MAJOR] at the line of the updated proto type and citing both proto
    types; the type names, map entries and api versions play no part. *)
Theorem X6_proto_type_change_reported_once (o u : Field.t) (c : FindingContainer.t) :
  Field.name o = Field.name u ->
  WithLocation.value (Field.proto_type o) <> WithLocation.value (Field.proto_type u) ->
  of_category FIELD_TYPE_CHANGE
    (FieldComparator.finding_container (snd (run_field (Some o) (Some u) c)))
  = of_category FIELD_TYPE_CHANGE c ++ [proto_type_change_finding o u].
Proof.
  intros Hname Hdiff.
  rewrite (type_changes_of_compare o u (Returned tt) [proto_type_change_finding o u]
             c Hname).
  - reflexivity.
  - intros c'. now apply compare_type_proto_type_differs.
Qed.

(** X6 at an enum field that becomes a message field of another name and
    version, with no api version on the updated side. *)
Lemma X6_witness :
  of_category FIELD_TYPE_CHANGE
    (findings_field
       (Some (make_field "f" "TYPE_ENUM" (Some ".pkg.v1.Enum") (Some "v1")))
       (Some (make_field "f" "TYPE_MESSAGE" (Some ".pkg.v2.Message") None)))
  = [Finding.make FIELD_TYPE_CHANGE "foo" 1
       "Type of an existing field `f` is changed from `TYPE_ENUM` to `TYPE_MESSAGE`."
       MAJOR].
Proof.
  apply (X6_proto_type_change_reported_once
           (make_field "f" "TYPE_ENUM" (Some ".pkg.v1.Enum") (Some "v1"))
           (make_field "f" "TYPE_MESSAGE" (Some ".pkg.v2.Message") None)
           []);
    simpl; try reflexivity; discriminate.
Defined.

(** ** Map fields *)

Section TypeNameUnchanged.

Variables o u : Field.t.
Variables type_name_original type_name_update : WithLocation.t string.

Hypothesis same_proto_type :
  WithLocation.value (Field.proto_type o) = WithLocation.value (Field.proto_type u).
Hypothesis original_type_name : Field.type_name o = Some type_name_original.
Hypothesis update_type_name : Field.type_name u = Some type_name_update.
Hypothesis same_type_name :
  WithLocation.value type_name_original = WithLocation.value type_name_update.

(** With the type name unchanged the type step reaches the map checks. *)
Lemma compare_type_same_name (c : FindingContainer.t) :
  FieldComparator.compare_type o u (FieldComparator.make (Some o) (Some u) c)
  = (if Field.is_map_type o && negb (Field.is_map_type u) then
       FieldComparator.addFinding FIELD_TYPE_CHANGE
         (Field.proto_file_name u)
         (WithLocation.source_code_line type_name_update)
         ("Type of an existing field `" ++ Field.name o
            ++ "` is changed from a map to `"
            ++ WithLocation.value type_name_update ++ "`.")
         MAJOR
     else if negb (Field.is_map_type o) && Field.is_map_type u then
       FieldComparator.addFinding FIELD_TYPE_CHANGE
         (Field.proto_file_name u)
         (WithLocation.source_code_line type_name_update)
         ("Type of an existing field `" ++ Field.name o ++ "` is changed from `"
            ++ WithLocation.value type_name_original ++ "` to a map.")
         MAJOR
     else if Field.is_map_type o && Field.is_map_type u then
       entry_original <- FieldComparator.subscript (Field.map_entry_type o) ;;
       entry_update <- FieldComparator.subscript (Field.map_entry_type u) ;;
       identical_key_type <-
         FieldComparator.identical_entry_type
           (MapEntry.key entry_original) (MapEntry.key entry_update) ;;
       identical_value_type <-
         FieldComparator.identical_entry_type
           (MapEntry.value entry_original) (MapEntry.value entry_update) ;;
       if negb (identical_key_type && identical_value_type) then
         FieldComparator.addFinding FIELD_TYPE_CHANGE
           (Field.proto_file_name u)
           (WithLocation.source_code_line type_name_update)
           ("Type of an existing field `" ++ Field.name o
              ++ "` is changed from `map<" ++ MapEntry.key entry_original ++ ", "
              ++ MapEntry.value entry_original ++ ">` to `map<"
              ++ MapEntry.key entry_update ++ ", "
              ++ MapEntry.value entry_update ++ ">`.")
           MAJOR
       else ret tt
     else ret tt)
      (FieldComparator.make (Some o) (Some u) c).
Proof.
  unfold FieldComparator.compare_type.
  rewrite same_proto_type, String.eqb_refl. simpl.
  rewrite original_type_name, update_type_name. simpl.
  unfold bind at 1. simpl.
  rewrite same_type_name, String.eqb_refl. reflexivity.
Qed.

(** A map that becomes a plain field of the same type name, or the other
    way round. *)
Lemma compare_type_map_state_differs (c : FindingContainer.t) :
  Field.is_map_type o <> Field.is_map_type u ->
  FieldComparator.compare_type o u (FieldComparator.make (Some o) (Some u) c)
  = (Returned tt,
     FieldComparator.make (Some o) (Some u)
       (c ++ [if Field.is_map_type o
              then map_to_type_finding o u type_name_update
              else type_to_map_finding o u type_name_original type_name_update])).
Proof.
  intros Hdiff. rewrite compare_type_same_name.
  destruct (Field.is_map_type o), (Field.is_map_type u); try congruence; reflexivity.
Qed.

(** Two maps: each entry type is compared up to the api version. *)
Lemma identical_entry_type_versions (v w x y : string) (c : FindingContainer.t) :
  Field.api_version o = Some v -> v <> "" ->
  Field.api_version u = Some w ->
  FieldComparator.identical_entry_type x y (FieldComparator.make (Some o) (Some u) c)
  = (Returned (equal_up_to_version v w x y), FieldComparator.make (Some o) (Some u) c).
Proof.
  intros Hv Hv' Hw. unfold FieldComparator.identical_entry_type, equal_up_to_version.
  destruct (String.eqb x y); [reflexivity|].
  unfold FieldComparator._transformed_type_name, bind, gets, getattr, ret. simpl.
  rewrite Hv, Hw, (truthy_str_nonempty v Hv'). reflexivity.
Qed.

Lemma identical_entry_type_no_version (x y : string) (c : FindingContainer.t) :
  Field.api_version o = None ->
  FieldComparator.identical_entry_type x y (FieldComparator.make (Some o) (Some u) c)
  = (Returned (String.eqb x y), FieldComparator.make (Some o) (Some u) c).
Proof.
  intros Hv. unfold FieldComparator.identical_entry_type.
  destruct (String.eqb x y); [reflexivity|].
  unfold FieldComparator._transformed_type_name, bind, gets, getattr, ret. simpl.
  rewrite Hv. reflexivity.
Qed.

Lemma compare_type_map_entries_versions (entry_original entry_update : MapEntry.t)
    (v w : string) (c : FindingContainer.t) :
  Field.is_map_type o = true -> Field.is_map_type u = true ->
  Field.map_entry_type o = Some entry_original ->
  Field.map_entry_type u = Some entry_update ->
  Field.api_version o = Some v -> v <> "" ->
  Field.api_version u = Some w ->
  FieldComparator.compare_type o u (FieldComparator.make (Some o) (Some u) c)
  = (Returned tt,
     FieldComparator.make (Some o) (Some u)
       (c ++ if equal_up_to_version v w
                  (MapEntry.key entry_original) (MapEntry.key entry_update)
                && equal_up_to_version v w
                     (MapEntry.value entry_original) (MapEntry.value entry_update)
             then []
             else [map_entry_change_finding o u type_name_update
                     entry_original entry_update])).
Proof.
  intros Hmo Hmu Heo Heu Hv Hv' Hw. rewrite compare_type_same_name.
  rewrite Hmo, Hmu, Heo, Heu. simpl.
  unfold bind at 1, ret at 1. unfold bind at 1, ret at 1.
  unfold bind at 1. rewrite (identical_entry_type_versions v w _ _ c Hv Hv' Hw).
  unfold bind at 1. rewrite (identical_entry_type_versions v w _ _ c Hv Hv' Hw).
  destruct (equal_up_to_version v w (MapEntry.key entry_original)
              (MapEntry.key entry_update)
            && equal_up_to_version v w (MapEntry.value entry_original)
                 (MapEntry.value entry_update)); simpl.
  - unfold ret. now rewrite app_nil_r.
  - reflexivity.
Qed.

Lemma compare_type_map_entries_no_version (entry_original entry_update : MapEntry.t)
    (c : FindingContainer.t) :
  Field.is_map_type o = true -> Field.is_map_type u = true ->
  Field.map_entry_type o = Some entry_original ->
  Field.map_entry_type u = Some entry_update ->
  Field.api_version o = None ->
  FieldComparator.compare_type o u (FieldComparator.make (Some o) (Some u) c)
  = (Returned tt,
     FieldComparator.make (Some o) (Some u)
       (c ++ if String.eqb (MapEntry.key entry_original) (MapEntry.key entry_update)
                && String.eqb (MapEntry.value entry_original)
                              (MapEntry.value entry_update)
             then []
             else [map_entry_change_finding o u type_name_update
                     entry_original entry_update])).
Proof.
  intros Hmo Hmu Heo Heu Hv. rewrite compare_type_same_name.
  rewrite Hmo, Hmu, Heo, Heu. simpl.
  unfold bind at 1, ret at 1. unfold bind at 1, ret at 1.
  unfold bind at 1. rewrite (identical_entry_type_no_version _ _ c Hv).
  unfold bind at 1. rewrite (identical_entry_type_no_version _ _ c Hv).
  destruct (String.eqb (MapEntry.key entry_original) (MapEntry.key entry_update)
            && String.eqb (MapEntry.value entry_original)
                          (MapEntry.value entry_update)); simpl.
  - unfold ret. now rewrite app_nil_r.
  - reflexivity.
Qed.

End TypeNameUnchanged.

(** X7: for present fields with equal names, equal proto types and equal
    type names, when one is a map and the other is not the comparison
    appends exactly one [FIELD_TYPE_CHANGE] finding, of severity [MAJOR] at
    the line of the updated type name, saying which way the map state
    changed; the map entry types are not read. *)
Theorem X7_map_state_change_reported_once
    (o u : Field.t) (type_name_original type_name_update : WithLocation.t string)
    (c : FindingContainer.t) :
  Field.name o = Field.name u ->
  WithLocation.value (Field.proto_type o) = WithLocation.value (Field.proto_type u) ->
  Field.type_name o = Some type_name_original ->
  Field.type_name u = Some type_name_update ->
  WithLocation.value type_name_original = WithLocation.value type_name_update ->
  Field.is_map_type o <> Field.is_map_type u ->
  of_category FIELD_TYPE_CHANGE
    (FieldComparator.finding_container (snd (run_field (Some o) (Some u) c)))
  = of_category FIELD_TYPE_CHANGE c
    ++ [if Field.is_map_type o
        then map_to_type_finding o u type_name_update
        else type_to_map_finding o u type_name_original type_name_update].
Proof.
  intros Hname Hproto Ho Hu Hsame Hmap.
  rewrite (type_changes_of_compare o u (Returned tt)
             [if Field.is_map_type o
              then map_to_type_finding o u type_name_update
              else type_to_map_finding o u type_name_original type_name_update]
             c Hname).
  - unfold of_category at 3. simpl.
    now destruct (Field.is_map_type o).
  - intros c'. now apply compare_type_map_state_differs.
Qed.

Lemma X7_witness :
  of_category FIELD_TYPE_CHANGE
    (findings_field
       (Some (Field.make "labels" "foo" 3 (located true 3) (located false 3)
                (located "TYPE_MESSAGE" 3) (Some (located ".pkg.LabelsEntry" 4))
                true None false false None false None None None))
       (Some (Field.make "labels" "foo" 3 (located true 3) (located false 3)
                (located "TYPE_MESSAGE" 3) (Some (located ".pkg.LabelsEntry" 5))
                false None false false None false None None None)))
  = [Finding.make FIELD_TYPE_CHANGE "foo" 5
       "Type of an existing field `labels` is changed from a map to `.pkg.LabelsEntry`."
       MAJOR].
Proof.
  apply (X7_map_state_change_reported_once
           (Field.make "labels" "foo" 3 (located true 3) (located false 3)
              (located "TYPE_MESSAGE" 3) (Some (located ".pkg.LabelsEntry" 4))
              true None false false None false None None None)
           (Field.make "labels" "foo" 3 (located true 3) (located false 3)
              (located "TYPE_MESSAGE" 3) (Some (located ".pkg.LabelsEntry" 5))
              false None false false None false None None None)
           (located ".pkg.LabelsEntry" 4) (located ".pkg.LabelsEntry" 5) []);
    simpl; try reflexivity; discriminate.
Defined.

(** X8: for two map fields with equal names, proto types and type names,
    where the original api version is a non-empty string and the updated
    api version is a string, the comparison appends no [FIELD_TYPE_CHANGE]
    finding when the key types and the value types are each equal or equal
    after replacing the original api version by the updated one, and exactly
    one, of severity [MAJOR] and citing both [map<K, V>] forms, otherwise. *)
Theorem X8_map_entries_compared_up_to_version
    (o u : Field.t) (type_name_original type_name_update : WithLocation.t string)
    (entry_original entry_update : MapEntry.t) (v w : string)
    (c : FindingContainer.t) :
  Field.name o = Field.name u ->
  WithLocation.value (Field.proto_type o) = WithLocation.value (Field.proto_type u) ->
  Field.type_name o = Some type_name_original ->
  Field.type_name u = Some type_name_update ->
  WithLocation.value type_name_original = WithLocation.value type_name_update ->
  Field.is_map_type o = true -> Field.is_map_type u = true ->
  Field.map_entry_type o = Some entry_original ->
  Field.map_entry_type u = Some entry_update ->
  Field.api_version o = Some v -> v <> "" ->
  Field.api_version u = Some w ->
  of_category FIELD_TYPE_CHANGE
    (FieldComparator.finding_container (snd (run_field (Some o) (Some u) c)))
  = of_category FIELD_TYPE_CHANGE c
    ++ (if equal_up_to_version v w
             (MapEntry.key entry_original) (MapEntry.key entry_update)
           && equal_up_to_version v w
                (MapEntry.value entry_original) (MapEntry.value entry_update)
        then []
        else [map_entry_change_finding o u type_name_update
                entry_original entry_update]).
Proof.
  intros Hname Hproto Ho Hu Hsame Hmo Hmu Heo Heu Hv Hv' Hw.
  rewrite (type_changes_of_compare o u (Returned tt)
             (if equal_up_to_version v w
                  (MapEntry.key entry_original) (MapEntry.key entry_update)
                && equal_up_to_version v w
                     (MapEntry.value entry_original) (MapEntry.value entry_update)
              then []
              else [map_entry_change_finding o u type_name_update
                      entry_original entry_update])
             c Hname).
  - f_equal. now destruct (_ && _).
  - intros c'.
    now apply (compare_type_map_entries_versions o u type_name_original
                 type_name_update Hproto Ho Hu Hsame entry_original entry_update v w).
Qed.

(** X8 at [map<string, .pkg.v1.Value>] against [map<string,
    .pkg.v1beta1.Value>] with the api versions [v1] and [v1beta1]. *)
Lemma X8_witness :
  of_category FIELD_TYPE_CHANGE
    (findings_field
       (Some (Field.make "labels" "foo" 3 (located true 3) (located false 3)
                (located "TYPE_MESSAGE" 3) (Some (located ".pkg.LabelsEntry" 4))
                true (Some (MapEntry.make "TYPE_STRING" ".pkg.v1.Value"))
                false false None false (Some "v1") None None))
       (Some (Field.make "labels" "foo" 3 (located true 3) (located false 3)
                (located "TYPE_MESSAGE" 3) (Some (located ".pkg.LabelsEntry" 5))
                true (Some (MapEntry.make "TYPE_STRING" ".pkg.v1beta1.Value"))
                false false None false (Some "v1beta1") None None)))
  = [].
Proof.
  apply (X8_map_entries_compared_up_to_version
           (Field.make "labels" "foo" 3 (located true 3) (located false 3)
              (located "TYPE_MESSAGE" 3) (Some (located ".pkg.LabelsEntry" 4))
              true (Some (MapEntry.make "TYPE_STRING" ".pkg.v1.Value"))
              false false None false (Some "v1") None None)
           (Field.make "labels" "foo" 3 (located true 3) (located false 3)
              (located "TYPE_MESSAGE" 3) (Some (located ".pkg.LabelsEntry" 5))
              true (Some (MapEntry.make "TYPE_STRING" ".pkg.v1beta1.Value"))
              false false None false (Some "v1beta1") None None)
           (located ".pkg.LabelsEntry" 4) (located ".pkg.LabelsEntry" 5)
           (MapEntry.make "TYPE_STRING" ".pkg.v1.Value")
           (MapEntry.make "TYPE_STRING" ".pkg.v1beta1.Value")
           "v1" "v1beta1" []);
    simpl; try reflexivity; discriminate.
Defined.

(** X9: for two map fields with equal names, proto types and type names,
    when the original field has no api version the key types and the value
    types must be literally equal: any difference gives exactly one
    [FIELD_TYPE_CHANGE] finding of severity [MAJOR], also one that a
    replacement of versions would remove. *)
Theorem X9_map_entries_without_api_version
    (o u : Field.t) (type_name_original type_name_update : WithLocation.t string)
    (entry_original entry_update : MapEntry.t) (c : FindingContainer.t) :
  Field.name o = Field.name u ->
  WithLocation.value (Field.proto_type o) = WithLocation.value (Field.proto_type u) ->
  Field.type_name o = Some type_name_original ->
  Field.type_name u = Some type_name_update ->
  WithLocation.value type_name_original = WithLocation.value type_name_update ->
  Field.is_map_type o = true -> Field.is_map_type u = true ->
  Field.map_entry_type o = Some entry_original ->
  Field.map_entry_type u = Some entry_update ->
  Field.api_version o = None ->
  of_category FIELD_TYPE_CHANGE
    (FieldComparator.finding_container (snd (run_field (Some o) (Some u) c)))
  = of_category FIELD_TYPE_CHANGE c
    ++ (if String.eqb (MapEntry.key entry_original) (MapEntry.key entry_update)
           && String.eqb (MapEntry.value entry_original) (MapEntry.value entry_update)
        then []
        else [map_entry_change_finding o u type_name_update
                entry_original entry_update]).
Proof.
  intros Hname Hproto Ho Hu Hsame Hmo Hmu Heo Heu Hv.
  rewrite (type_changes_of_compare o u (Returned tt)
             (if String.eqb (MapEntry.key entry_original) (MapEntry.key entry_update)
                && String.eqb (MapEntry.value entry_original)
                              (MapEntry.value entry_update)
              then []
              else [map_entry_change_finding o u type_name_update
                      entry_original entry_update])
             c Hname).
  - f_equal. now destruct (_ && _).
  - intros c'.
    now apply (compare_type_map_entries_no_version o u type_name_original
                 type_name_update Hproto Ho Hu Hsame entry_original entry_update).
Qed.

(** X9 at [map<string, int32>] against [map<string, int64>]. *)
Lemma X9_witness :
  of_category FIELD_TYPE_CHANGE
    (findings_field
       (Some (Field.make "counts" "foo" 3 (located true 3) (located false 3)
                (located "TYPE_MESSAGE" 3) (Some (located ".pkg.CountsEntry" 4))
                true (Some (MapEntry.make "TYPE_STRING" "TYPE_INT32"))
                false false None false None None None))
       (Some (Field.make "counts" "foo" 3 (located true 3) (located false 3)
                (located "TYPE_MESSAGE" 3) (Some (located ".pkg.CountsEntry" 5))
                true (Some (MapEntry.make "TYPE_STRING" "TYPE_INT64"))
                false false None false None None None)))
  = [Finding.make FIELD_TYPE_CHANGE "foo" 5
       "Type of an existing field `counts` is changed from `map<TYPE_STRING, TYPE_INT32>` to `map<TYPE_STRING, TYPE_INT64>`."
       MAJOR].
Proof.
  apply (X9_map_entries_without_api_version
           (Field.make "counts" "foo" 3 (located true 3) (located false 3)
              (located "TYPE_MESSAGE" 3) (Some (located ".pkg.CountsEntry" 4))
              true (Some (MapEntry.make "TYPE_STRING" "TYPE_INT32"))
              false false None false None None None)
           (Field.make "counts" "foo" 3 (located true 3) (located false 3)
              (located "TYPE_MESSAGE" 3) (Some (located ".pkg.CountsEntry" 5))
              true (Some (MapEntry.make "TYPE_STRING" "TYPE_INT64"))
              false false None false None None None)
           (located ".pkg.CountsEntry" 4) (located ".pkg.CountsEntry" 5)
           (MapEntry.make "TYPE_STRING" "TYPE_INT32")
           (MapEntry.make "TYPE_STRING" "TYPE_INT64") []);
    simpl; try reflexivity; discriminate.
Defined.

(** ** Oneof membership and proto3 optional *)

(** Steps 6 and 7 always return. *)
Lemma compare_oneof_findings (o u : Field.t) (c : FindingContainer.t) :
  FieldComparator.compare_oneof o u (FieldComparator.make (Some o) (Some u) c)
  = (Returned tt, FieldComparator.make (Some o) (Some u) (c ++ oneof_findings o u)).
Proof.
  unfold FieldComparator.compare_oneof, oneof_findings.
  destruct (Field.oneof o), (Field.oneof u),
    (Field.proto3_optional o), (Field.proto3_optional u); simpl;
    unfold bind, ret, FieldComparator.addFinding, FindingContainer.addFinding; simpl;
    rewrite ?app_nil_r; reflexivity.
Qed.

Lemma bind_run {S A B : Type} (m : Method S A) (k : A -> Method S B)
    (s s' : S) (r : Outcome A) :
  m s = (r, s') ->
  bind m k s = match r with
               | Returned a => k a s'
               | Raised e => (Raised e, s')
               end.
Proof.
  intros Hm. unfold bind. now rewrite Hm.
Qed.

(** When the comparison of two present fields with equal names returns, the
    findings of steps 6 and 7 in the container are those that were there
    plus [oneof_findings]. *)
Lemma oneof_findings_of_compare (o u : Field.t) (c : FindingContainer.t)
    (cat : FindingCategory) :
  Field.name o = Field.name u ->
  step_of cat = 7%nat ->
  fst (run_field (Some o) (Some u) c) = Returned tt ->
  of_category cat
    (FieldComparator.finding_container (snd (run_field (Some o) (Some u) c)))
  = of_category cat c ++ of_category cat (oneof_findings o u).
Proof.
  intros Hname Hcat.
  rewrite run_field_same_name by assumption.
  destruct (compare_repeated_ordered o u) as (r1 & f1 & _ & B1 & E1).
  destruct (compare_required_ordered o u) as (r2 & f2 & _ & B2 & E2).
  destruct (compare_type_ordered o u) as (r3 & f3 & _ & B3 & E3).
  destruct (resolver_ordered o u) as (r5 & f5 & _ & B5 & E5).
  assert (Hrun :
    (exists e s,
        (FieldComparator.compare_repeated o u ;;
         FieldComparator.compare_required o u ;;
         FieldComparator.compare_type o u ;;
         FieldComparator.compare_oneof o u ;;
         FieldComparator._compare_resource_reference)
          (FieldComparator.make (Some o) (Some u) c) = (Raised e, s))
    \/ (FieldComparator.compare_repeated o u ;;
        FieldComparator.compare_required o u ;;
        FieldComparator.compare_type o u ;;
        FieldComparator.compare_oneof o u ;;
        FieldComparator._compare_resource_reference)
         (FieldComparator.make (Some o) (Some u) c)
       = (r5, FieldComparator.make (Some o) (Some u)
                (((((c ++ f1) ++ f2) ++ f3) ++ oneof_findings o u) ++ f5))).
  { rewrite (bind_run _ _ _ _ _ (E1 c)). destruct r1 as [[]|e]; [|left; eauto].
    rewrite (bind_run _ _ _ _ _ (E2 _)). destruct r2 as [[]|e]; [|left; eauto].
    rewrite (bind_run _ _ _ _ _ (E3 _)). destruct r3 as [[]|e]; [|left; eauto].
    rewrite (bind_run _ _ _ _ _ (compare_oneof_findings o u _)), E5. now right. }
  destruct Hrun as [(e & s & Hrun)|Hrun]; rewrite Hrun;
    cbn [fst snd FieldComparator.finding_container]; [discriminate|].
  intros _.
  rewrite !of_category_app.
  rewrite (of_category_outside cat 3 4 f1) by (first [assumption | lia]).
  rewrite (of_category_outside cat 4 5 f2) by (first [assumption | lia]).
  rewrite (of_category_outside cat 5 6 f3) by (first [assumption | lia]).
  rewrite (of_category_outside cat 7 8 f5) by (first [assumption | lia]).
  now rewrite !app_nil_r.
Qed.

(** X10: when the comparison of two present fields with equal names
    returns, it has appended one [FIELD_ONEOF_REMOVAL] finding exactly when
    the original is in a oneof and the update is not, one
    [FIELD_ONEOF_ADDITION] finding exactly when it is the other way round,
    both of severity [MAJOR] at the updated field's line, and in either case
    no [FIELD_PROTO3_OPTIONAL_CHANGE] finding. *)
Theorem X10_oneof_membership_change (o u : Field.t) (c : FindingContainer.t) :
  Field.name o = Field.name u ->
  fst (run_field (Some o) (Some u) c) = Returned tt ->
  let final :=
    FieldComparator.finding_container (snd (run_field (Some o) (Some u) c)) in
  of_category FIELD_ONEOF_REMOVAL final
  = of_category FIELD_ONEOF_REMOVAL c
    ++ (if Field.oneof o && negb (Field.oneof u)
        then [oneof_removal_finding o u] else [])
  /\ of_category FIELD_ONEOF_ADDITION final
     = of_category FIELD_ONEOF_ADDITION c
       ++ (if negb (Field.oneof o) && Field.oneof u
           then [oneof_addition_finding o u] else [])
  /\ (Field.oneof o <> Field.oneof u ->
      of_category FIELD_PROTO3_OPTIONAL_CHANGE final
      = of_category FIELD_PROTO3_OPTIONAL_CHANGE c).
Proof.
  intros Hname Hret final. subst final.
  rewrite !oneof_findings_of_compare by (assumption || reflexivity).
  unfold oneof_findings.
  destruct (Field.oneof o), (Field.oneof u),
    (Field.proto3_optional o), (Field.proto3_optional u); simpl;
    repeat split; try reflexivity; try congruence;
    intros _; now rewrite app_nil_r.
Qed.

Lemma X10_witness :
  of_category FIELD_ONEOF_REMOVAL
    (findings_field
       (Some (Field.make "Foo" "foo" 3 (located false 3) (located false 3)
                (located "TYPE_STRING" 3) None false None true true None false
                None None None))
       (Some (Field.make "Foo" "foo" 4 (located false 4) (located false 4)
                (located "TYPE_STRING" 4) None false None false false None false
                None None None)))
  = [Finding.make FIELD_ONEOF_REMOVAL "foo" 4
       "An existing field `Foo` is moved out of One-of." MAJOR].
Proof.
  apply (X10_oneof_membership_change
           (Field.make "Foo" "foo" 3 (located false 3) (located false 3)
              (located "TYPE_STRING" 3) None false None true true None false
              None None None)
           (Field.make "Foo" "foo" 4 (located false 4) (located false 4)
              (located "TYPE_STRING" 4) None false None false false None false
              None None None)
           []);
    reflexivity.
Defined.

(** X11: when the comparison of two present fields with equal names
    returns, it has appended one [FIELD_PROTO3_OPTIONAL_CHANGE] finding
    exactly when both fields are in a oneof and their proto3 optional states
    differ: of severity [MAJOR] when the original was optional, of severity
    [MINOR] when the update is.  For a field outside any oneof a change of
    the proto3 optional state is not reported. *)
Theorem X11_proto3_optional_change (o u : Field.t) (c : FindingContainer.t) :
  Field.name o = Field.name u ->
  fst (run_field (Some o) (Some u) c) = Returned tt ->
  of_category FIELD_PROTO3_OPTIONAL_CHANGE
    (FieldComparator.finding_container (snd (run_field (Some o) (Some u) c)))
  = of_category FIELD_PROTO3_OPTIONAL_CHANGE c
    ++ (if Field.oneof o && Field.oneof u
           && negb (Bool.eqb (Field.proto3_optional o) (Field.proto3_optional u))
        then [if Field.proto3_optional o
              then optional_to_required_finding o u
              else required_to_optional_finding o u]
        else []).
Proof.
  intros Hname Hret.
  rewrite oneof_findings_of_compare by (assumption || reflexivity).
  unfold oneof_findings.
  destruct (Field.oneof o), (Field.oneof u),
    (Field.proto3_optional o), (Field.proto3_optional u); reflexivity.
Qed.

(** X11 at a field outside any oneof whose proto3 optional state changes. *)
Lemma X11_witness :
  of_category FIELD_PROTO3_OPTIONAL_CHANGE
    (findings_field
       (Some (Field.make "Foo" "foo" 3 (located false 3) (located false 3)
                (located "TYPE_STRING" 3) None false None false true None false
                None None None))
       (Some (Field.make "Foo" "foo" 4 (located false 4) (located false 4)
                (located "TYPE_STRING" 4) None false None false false None false
                None None None)))
  = [].
Proof.
  apply (X11_proto3_optional_change
           (Field.make "Foo" "foo" 3 (located false 3) (located false 3)
              (located "TYPE_STRING" 3) None false None false true None false
              None None None)
           (Field.make "Foo" "foo" 4 (located false 4) (located false 4)
              (located "TYPE_STRING" 4) None false None false false None false
              None None None)
           []);
    reflexivity.
Defined.

(** ** Where the version tolerance ends *)

Lemma prefix_split (old s : string) :
  String.prefix old s = true -> exists rest, s = (old ++ rest)%string.
Proof.
  revert s. induction old as [|a old IH]; intros s Hp.
  - exists s. reflexivity.
  - destruct s as [|b s]; simpl in Hp; [discriminate|].
    destruct (ascii_dec a b) as [->|]; [|discriminate].
    destruct (IH s Hp) as (rest & ->). exists rest. reflexivity.
Qed.

Lemma replace_from_skip (old new t s : string) :
  replace_from old new (String.length t) (t ++ s)%string = replace_from old new 0 s.
Proof.
  induction t as [|c t IH]; simpl; [reflexivity | exact IH].
Qed.

Lemma length_append (s t : string) :
  String.length (s ++ t)%string = (String.length s + String.length t)%nat.
Proof.
  induction s as [|c s IH]; simpl; [reflexivity | now rewrite IH].
Qed.

(** Replacing a non-empty string by itself changes nothing. *)
Lemma replace_from_same (old : string) (n : nat) :
  old <> "" ->
  forall s, (String.length s <= n)%nat -> replace_from old old 0 s = s.
Proof.
  intros Hold. induction n as [|n IH]; intros s Hlen.
  - destruct s; [reflexivity | simpl in Hlen; lia].
  - destruct s as [|c rest]; [reflexivity|].
    cbn [replace_from].
    destruct (String.prefix old (String c rest)) eqn:Hp.
    + destruct old as [|a old']; [congruence|].
      destruct (prefix_split _ _ Hp) as (tail & Htail).
      simpl in Htail. injection Htail as -> ->.
      replace (String.length (String a old') - 1)%nat with (String.length old')
        by (simpl; lia).
      rewrite replace_from_skip.
      rewrite IH; [reflexivity|].
      simpl in Hlen. rewrite length_append in Hlen. lia.
    + rewrite IH; [reflexivity | simpl in Hlen; lia].
Qed.

Lemma replace_same (s v : string) : replace s v v = s.
Proof.
  unfold replace. destruct v as [|a v'].
  - simpl. induction s as [|c s IH]; simpl; [reflexivity | now rewrite IH].
  - simpl. apply (replace_from_same _ (String.length s)); [discriminate | lia].
Qed.

(** Replacing a string that does not occur changes nothing. *)
Lemma replace_from_absent (old new s : string) :
  occurs_in old s = false -> replace_from old new 0 s = s.
Proof.
  induction s as [|c s IH]; intros Hocc; [reflexivity|].
  cbn [occurs_in] in Hocc. apply orb_false_iff in Hocc. destruct Hocc as [Hp Hrest].
  cbn [replace_from]. rewrite Hp, (IH Hrest). reflexivity.
Qed.

Lemma occurs_in_empty (s : string) : occurs_in "" s = true.
Proof.
  destruct s; reflexivity.
Qed.

(** The type step adds the finding whenever the transformation gives no
    name or gives back another name than the updated one. *)
Lemma compare_type_not_tolerated (o u : Field.t)
    (type_name_original type_name_update : WithLocation.t string)
    (c : FindingContainer.t) :
  WithLocation.value (Field.proto_type o) = WithLocation.value (Field.proto_type u) ->
  Field.type_name o = Some type_name_original ->
  Field.type_name u = Some type_name_update ->
  WithLocation.value type_name_original <> WithLocation.value type_name_update ->
  (truthy (Field.api_version o) = false
   \/ exists v w,
        Field.api_version o = Some v /\ Field.api_version u = Some w
        /\ replace (WithLocation.value type_name_original) v w
           = WithLocation.value type_name_original) ->
  FieldComparator.compare_type o u (FieldComparator.make (Some o) (Some u) c)
  = (Returned tt,
     FieldComparator.make (Some o) (Some u)
       (c ++ [type_name_change_finding o u type_name_original type_name_update])).
Proof.
  intros Hproto Ho Hu Hdiff Hcase.
  rewrite (compare_type_changed_name o u _ _ Hproto Ho Hu Hdiff).
  unfold FieldComparator._transformed_type_name, bind, gets, getattr, ret. simpl.
  destruct Hcase as [Hfalsy | (v & w & Hv & Hw & Hrep)].
  - destruct (Field.api_version o) as [v|]; [|reflexivity].
    simpl in Hfalsy. rewrite Hfalsy. reflexivity.
  - rewrite Hv, Hw. destruct (truthy_str v); [|reflexivity].
    rewrite Hrep. simpl.
    apply String.eqb_neq in Hdiff. rewrite Hdiff, orb_true_r. reflexivity.
Qed.

(** X12: for present fields with equal names and equal proto types, when
    both sides have the same api version, or both none, every change of the
    type name gives exactly one [FIELD_TYPE_CHANGE] finding of severity
    [MAJOR]: the version tolerance never hides a change within one api
    version. *)
Theorem X12_same_api_version_no_tolerance
    (o u : Field.t) (type_name_original type_name_update : WithLocation.t string)
    (c : FindingContainer.t) :
  Field.name o = Field.name u ->
  WithLocation.value (Field.proto_type o) = WithLocation.value (Field.proto_type u) ->
  Field.type_name o = Some type_name_original ->
  Field.type_name u = Some type_name_update ->
  WithLocation.value type_name_original <> WithLocation.value type_name_update ->
  Field.api_version u = Field.api_version o ->
  of_category FIELD_TYPE_CHANGE
    (FieldComparator.finding_container (snd (run_field (Some o) (Some u) c)))
  = of_category FIELD_TYPE_CHANGE c
    ++ [type_name_change_finding o u type_name_original type_name_update].
Proof.
  intros Hname Hproto Ho Hu Hdiff Hsame.
  rewrite (type_changes_of_compare o u (Returned tt)
             [type_name_change_finding o u type_name_original type_name_update]
             c Hname).
  - reflexivity.
  - intros c'. apply compare_type_not_tolerated; try assumption.
    destruct (Field.api_version o) as [v|] eqn:Hv; [|now left].
    right. exists v, v. repeat split; try assumption. apply replace_same.
Qed.

Lemma X12_witness :
  of_category FIELD_TYPE_CHANGE
    (findings_field
       (Some (make_field "f" "TYPE_ENUM" (Some ".pkg.v1.Enum") (Some "v1")))
       (Some (make_field "f" "TYPE_ENUM" (Some ".pkg.v1.EnumV2") (Some "v1"))))
  = [Finding.make FIELD_TYPE_CHANGE "foo" 1
       "Type of an existing field `f` is changed from `.pkg.v1.Enum` to `.pkg.v1.EnumV2`."
       MAJOR].
Proof.
  apply (X12_same_api_version_no_tolerance
           (make_field "f" "TYPE_ENUM" (Some ".pkg.v1.Enum") (Some "v1"))
           (make_field "f" "TYPE_ENUM" (Some ".pkg.v1.EnumV2") (Some "v1"))
           (located ".pkg.v1.Enum" 1) (located ".pkg.v1.EnumV2" 1) []);
    simpl; try reflexivity; discriminate.
Defined.

(** X13: for present fields with equal names and equal proto types, when
    the original api version does not occur in the original type name (a
    type of another, or of no, versioned package), every change of the type
    name gives exactly one [FIELD_TYPE_CHANGE] finding of severity [MAJOR],
    whatever the updated api version is. *)
Theorem X13_version_absent_from_type_name_no_tolerance
    (o u : Field.t) (type_name_original type_name_update : WithLocation.t string)
    (v w : string) (c : FindingContainer.t) :
  Field.name o = Field.name u ->
  WithLocation.value (Field.proto_type o) = WithLocation.value (Field.proto_type u) ->
  Field.type_name o = Some type_name_original ->
  Field.type_name u = Some type_name_update ->
  WithLocation.value type_name_original <> WithLocation.value type_name_update ->
  Field.api_version o = Some v ->
  Field.api_version u = Some w ->
  occurs_in v (WithLocation.value type_name_original) = false ->
  of_category FIELD_TYPE_CHANGE
    (FieldComparator.finding_container (snd (run_field (Some o) (Some u) c)))
  = of_category FIELD_TYPE_CHANGE c
    ++ [type_name_change_finding o u type_name_original type_name_update].
Proof.
  intros Hname Hproto Ho Hu Hdiff Hv Hw Hocc.
  rewrite (type_changes_of_compare o u (Returned tt)
             [type_name_change_finding o u type_name_original type_name_update]
             c Hname).
  - reflexivity.
  - intros c'. apply compare_type_not_tolerated; try assumption.
    right. exists v, w. repeat split; try assumption.
    unfold replace. destruct v as [|a v'].
    + rewrite occurs_in_empty in Hocc. discriminate.
    + simpl truthy_str. cbv iota. now apply replace_from_absent.
Qed.

Lemma X13_witness :
  of_category FIELD_TYPE_CHANGE
    (findings_field
       (Some (make_field "f" "TYPE_MESSAGE" (Some ".google.type.Date") (Some "v1")))
       (Some (make_field "f" "TYPE_MESSAGE" (Some ".google.type.DateTime")
                (Some "v1beta1"))))
  = [Finding.make FIELD_TYPE_CHANGE "foo" 1
       "Type of an existing field `f` is changed from `.google.type.Date` to `.google.type.DateTime`."
       MAJOR].
Proof.
  apply (X13_version_absent_from_type_name_no_tolerance
           (make_field "f" "TYPE_MESSAGE" (Some ".google.type.Date") (Some "v1"))
           (make_field "f" "TYPE_MESSAGE" (Some ".google.type.DateTime")
              (Some "v1beta1"))
           (located ".google.type.Date" 1) (located ".google.type.DateTime" 1)
           "v1" "v1beta1" []);
    simpl; try reflexivity; discriminate.
Defined.

(** ** The resolver, branch by branch *)

(** X14: when a [type] reference is added (the original field has none, and
    the updated field does not use [child_type]) and the updated side's
    database answers [get_resource_by_type], the resolver appends exactly one
    [RESOURCE_REFERENCE_ADDITION] finding at the reference's line and
    returns: of severity [MINOR] when the database has a resource of that
    type, of severity [MAJOR] when it has none.  An added reference is never
    silent. *)
Theorem X14_added_type_reference
    (o u : Field.t) (resource_ref_update : WithLocation.t ResourceReference.t)
    (d : ResourceDatabase.t) (q : ResourceDatabase.Query) (c : FindingContainer.t) :
  Field.resource_reference o = None ->
  Field.resource_reference u = Some resource_ref_update ->
  Field.child_type u = false ->
  Field.resource_database u = Some d ->
  ResourceDatabase.lookup d "get_resource_by_type" = Some q ->
  FieldComparator._compare_resource_reference (FieldComparator.make (Some o) (Some u) c)
  = (Returned tt,
     FieldComparator.make (Some o) (Some u)
       (c ++ [reference_addition_finding o u resource_ref_update
                (FieldComparator.nonempty
                   (q (ResourceReference.type
                         (WithLocation.value resource_ref_update))))])).
Proof.
  intros Ho Hu Hchild Hdb Hq.
  unfold FieldComparator._compare_resource_reference, bind, gets, getattr, ret. simpl.
  rewrite Ho, Hu.
  unfold FieldComparator._resource_in_database, bind, gets, getattr, ret. simpl.
  rewrite Hdb, Hchild. simpl. unfold ResourceDatabase.call. rewrite Hq.
  unfold reference_addition_finding, ret.
  destruct (FieldComparator.nonempty _); reflexivity.
Qed.

Lemma X14_witness :
  FieldComparator._compare_resource_reference
    (FieldComparator.make
       (Some (reference_field None None None))
       (Some (reference_field (Some (parent_reference 7)) None
                (Some database_with_parent)))
       [])
  = (Returned tt,
     FieldComparator.make
       (Some (reference_field None None None))
       (Some (reference_field (Some (parent_reference 7)) None
                (Some database_with_parent)))
       [Finding.make RESOURCE_REFERENCE_ADDITION "a.proto" 7
          "A resource reference option is added to the field `name`." MINOR]).
Proof.
  apply (X14_added_type_reference
           (reference_field None None None)
           (reference_field (Some (parent_reference 7)) None
              (Some database_with_parent))
           (parent_reference 7) database_with_parent
           (fun type =>
              if eq type (Some "example.com/Parent") then [parent_resource] else [])
           []);
    reflexivity.
Defined.

(** X15: when a [type] reference is removed (the updated field has none,
    and the original field does not use [child_type]), and the reference is
    well formed or the updated field has no message-level resource, the
    resolver appends exactly one [RESOURCE_REFERENCE_REMOVAL] finding at the
    original reference's line and returns, without consulting any database:
    of severity [MINOR] when the updated field's message declares a resource
    of the removed reference's type, of severity [MAJOR] otherwise. *)
Theorem X15_removed_type_reference
    (o u : Field.t) (resource_ref_original : WithLocation.t ResourceReference.t)
    (c : FindingContainer.t) :
  Field.resource_reference o = Some resource_ref_original ->
  Field.resource_reference u = None ->
  Field.child_type o = false ->
  Field.message_resource u = None
  \/ both_unset (WithLocation.value resource_ref_original) = false ->
  FieldComparator._compare_resource_reference (FieldComparator.make (Some o) (Some u) c)
  = (Returned tt,
     FieldComparator.make (Some o) (Some u)
       (c ++ [reference_removal_finding o resource_ref_original
                match Field.message_resource u with
                | Some mr =>
                    eq (Some (Resource.type (WithLocation.value mr)))
                       (ResourceReference.type
                          (WithLocation.value resource_ref_original))
                | None => false
                end])).
Proof.
  intros Ho Hu Hchild Hwf.
  unfold FieldComparator._compare_resource_reference, bind, gets, getattr, ret. simpl.
  rewrite Ho, Hu.
  unfold FieldComparator._resource_ref_in_local, bind, gets, getattr, ret. simpl.
  destruct (Field.message_resource u) as [mr|] eqn:Hmr; [|reflexivity].
  destruct Hwf as [Hnone|Hset]; [discriminate|].
  rewrite both_unset_checked_type, Hset. simpl. rewrite Hchild.
  unfold reference_removal_finding.
  destruct (ResourceReference.type (WithLocation.value resource_ref_original))
    as [y|]; [|reflexivity].
  destruct (String.eqb (Resource.type (WithLocation.value mr)) y); reflexivity.
Qed.

Lemma X15_witness :
  FieldComparator._compare_resource_reference
    (FieldComparator.make
       (Some (reference_field (Some (parent_reference 7)) None None))
       (Some (reference_field None (Some parent_resource) None))
       [])
  = (Returned tt,
     FieldComparator.make
       (Some (reference_field (Some (parent_reference 7)) None None))
       (Some (reference_field None (Some parent_resource) None))
       [Finding.make RESOURCE_REFERENCE_REMOVAL "a.proto" 7
          "A resource reference option of the field `name` is removed, but added back to the message options."
          MINOR]).
Proof.
  apply (X15_removed_type_reference
           (reference_field (Some (parent_reference 7)) None None)
           (reference_field None (Some parent_resource) None)
           (parent_reference 7) []);
    try reflexivity.
  right. reflexivity.
Defined.

(** X16: when a well-formed [child_type] reference is removed from a field
    whose updated message declares a resource, and the updated side's
    database answers [get_parent_resources_by_child_type], the resolver
    appends exactly one [RESOURCE_REFERENCE_REMOVAL] finding and returns: of
    severity [MINOR] when one of the parents the updated database lists for
    the child type has the type of the message-level resource, of severity
    [MAJOR] otherwise. *)
Theorem X16_removed_child_type_reference
    (o u : Field.t) (resource_ref_original : WithLocation.t ResourceReference.t)
    (mr : WithLocation.t Resource.t)
    (d : ResourceDatabase.t) (q : ResourceDatabase.Query) (c : FindingContainer.t) :
  Field.resource_reference o = Some resource_ref_original ->
  Field.resource_reference u = None ->
  Field.child_type o = true ->
  Field.message_resource u = Some mr ->
  both_unset (WithLocation.value resource_ref_original) = false ->
  Field.resource_database u = Some d ->
  ResourceDatabase.lookup d "get_parent_resources_by_child_type" = Some q ->
  FieldComparator._compare_resource_reference (FieldComparator.make (Some o) (Some u) c)
  = (Returned tt,
     FieldComparator.make (Some o) (Some u)
       (c ++ [reference_removal_finding o resource_ref_original
                (resource_among mr
                   (q (ResourceReference.child_type
                         (WithLocation.value resource_ref_original))))])).
Proof.
  intros Ho Hu Hchild Hmr Hset Hdb Hq.
  unfold FieldComparator._compare_resource_reference, bind, gets, getattr, ret. simpl.
  rewrite Ho, Hu.
  unfold FieldComparator._resource_ref_in_local, bind, gets, getattr, ret. simpl.
  rewrite Hmr, both_unset_checked_type, Hset. simpl. rewrite Hchild, Hdb.
  unfold ResourceDatabase.call. rewrite Hq. unfold ret.
  unfold reference_removal_finding, resource_among.
  destruct (existsb _ _); reflexivity.
Qed.

Lemma X16_witness :
  FieldComparator._compare_resource_reference
    (FieldComparator.make
       (Some (reference_field (Some (child_reference 7)) None None))
       (Some (reference_field None (Some parent_resource) (Some database_with_parent)))
       [])
  = (Returned tt,
     FieldComparator.make
       (Some (reference_field (Some (child_reference 7)) None None))
       (Some (reference_field None (Some parent_resource) (Some database_with_parent)))
       [Finding.make RESOURCE_REFERENCE_REMOVAL "a.proto" 7
          "A resource reference option of the field `name` is removed, but added back to the message options."
          MINOR]).
Proof.
  apply (X16_removed_child_type_reference
           (reference_field (Some (child_reference 7)) None None)
           (reference_field None (Some parent_resource) (Some database_with_parent))
           (child_reference 7) parent_resource database_with_parent
           (fun child_type =>
              if eq child_type (Some "example.com/Child") then [parent_resource] else [])
           []);
    reflexivity.
Defined.

(** X17: when both fields carry a resource reference and both use [type] or
    both use [child_type], the resolver returns without consulting any
    database; it appends nothing when the referenced types are equal and
    exactly one [RESOURCE_REFERENCE_CHANGE] finding, of severity [MAJOR] at
    the updated reference's line and citing both types, when they differ. *)
Theorem X17_same_kind_of_reference
    (o u : Field.t)
    (resource_ref_original resource_ref_update : WithLocation.t ResourceReference.t)
    (c : FindingContainer.t) :
  Field.resource_reference o = Some resource_ref_original ->
  Field.resource_reference u = Some resource_ref_update ->
  Field.child_type o = Field.child_type u ->
  FieldComparator._compare_resource_reference (FieldComparator.make (Some o) (Some u) c)
  = (Returned tt,
     FieldComparator.make (Some o) (Some u)
       (c ++ if eq (referenced_type (WithLocation.value resource_ref_original))
                   (referenced_type (WithLocation.value resource_ref_update))
             then []
             else [reference_change_finding o u
                     resource_ref_original resource_ref_update])).
Proof.
  intros Ho Hu Hchild.
  unfold FieldComparator._compare_resource_reference, bind, gets, getattr, ret. simpl.
  rewrite Ho, Hu, Hchild, Bool.eqb_reflx.
  unfold referenced_type.
  destruct (eq (or_ (ResourceReference.type (WithLocation.value resource_ref_original))
                    (ResourceReference.child_type
                       (WithLocation.value resource_ref_original)))
               (or_ (ResourceReference.type (WithLocation.value resource_ref_update))
                    (ResourceReference.child_type
                       (WithLocation.value resource_ref_update))));
    simpl; [now rewrite app_nil_r | reflexivity].
Qed.

Lemma X17_witness :
  FieldComparator._compare_resource_reference
    (FieldComparator.make
       (Some (reference_field (Some (parent_reference 7)) None None))
       (Some (reference_field
                (Some (located (ResourceReference.make (Some "example.com/Other")
                                  (Some "")) 8))
                None None))
       [])
  = (Returned tt,
     FieldComparator.make
       (Some (reference_field (Some (parent_reference 7)) None None))
       (Some (reference_field
                (Some (located (ResourceReference.make (Some "example.com/Other")
                                  (Some "")) 8))
                None None))
       [Finding.make RESOURCE_REFERENCE_CHANGE "a.proto" 8
          "The type of resource reference option of the field `name` is changed from `example.com/Parent` to `example.com/Other`."
          MAJOR]).
Proof.
  apply (X17_same_kind_of_reference
           (reference_field (Some (parent_reference 7)) None None)
           (reference_field
              (Some (located (ResourceReference.make (Some "example.com/Other")
                                (Some "")) 8))
              None None)
           (parent_reference 7)
           (located (ResourceReference.make (Some "example.com/Other") (Some "")) 8)
           []);
    reflexivity.
Defined.

(** ** Categories *)

(** X18: the two comparators never use each other's categories: every
    finding the field comparator appends has a [FIELD_...] or
    [RESOURCE_REFERENCE_...] category, and every finding the enum-value
    comparator appends has an [ENUM_VALUE_...] category, whatever the views
    are and also when the comparison raises. *)
Theorem X18_categories_kept_apart :
  (forall (original update : option Field.t) (c : FindingContainer.t),
      exists fs,
        FieldComparator.finding_container (snd (run_field original update c)) = c ++ fs
        /\ Forall (fun f => is_enum_value_category (Finding.category f) = false) fs)
  /\
  (forall (original update : option EnumValue.t) (c : FindingContainer.t),
      exists fs,
        EnumValueComparator.finding_container (snd (run_enum_value original update c))
        = c ++ fs
        /\ Forall (fun f => is_enum_value_category (Finding.category f) = true) fs).
Proof.
  split; intros original update c.
  - assert (H : ordered original update 0 8 FieldComparator.compare).
    { destruct (compare_ordered original update) as [H|H];
        [apply (ordered_weaken _ _ 0 8 0 3) | apply (ordered_weaken _ _ 0 8 3 8)];
        try lia; exact H. }
    destruct H as (r & fs & _ & Hb & Hrun).
    exists fs. unfold run_field. rewrite Hrun. split; [reflexivity|].
    unfold steps in Hb. rewrite Forall_map in Hb.
    eapply Forall_impl; [|exact Hb].
    intros f Hf. simpl in Hf. destruct (Finding.category f); simpl in *; try reflexivity; lia.
  - unfold run_enum_value, EnumValueComparator.compare, bind, gets. simpl.
    destruct original as [o|], update as [u|]; simpl;
      try destruct (String.eqb (EnumValue.name o) (EnumValue.name u)); simpl;
      try (exists []; rewrite app_nil_r; split; [reflexivity | constructor]);
      (eexists; split; [reflexivity|]; repeat constructor).
Qed.

(** ** Fields without a type name or a resource reference *)

Lemma compare_type_without_type_name (o u : Field.t) (c : FindingContainer.t) :
  Field.type_name o = None ->
  FieldComparator.compare_type o u (FieldComparator.make (Some o) (Some u) c)
  = (Returned tt,
     FieldComparator.make (Some o) (Some u)
       (c ++ if String.eqb (WithLocation.value (Field.proto_type o))
                           (WithLocation.value (Field.proto_type u))
             then []
             else [proto_type_change_finding o u])).
Proof.
  intros Ho. unfold FieldComparator.compare_type.
  destruct (String.eqb (WithLocation.value (Field.proto_type o))
                       (WithLocation.value (Field.proto_type u))); simpl.
  - rewrite Ho. unfold ret. now rewrite app_nil_r.
  - reflexivity.
Qed.

Lemma resolver_without_references (o u : Field.t) (c : FindingContainer.t) :
  Field.resource_reference o = None ->
  Field.resource_reference u = None ->
  FieldComparator._compare_resource_reference (FieldComparator.make (Some o) (Some u) c)
  = (Returned tt, FieldComparator.make (Some o) (Some u) c).
Proof.
  intros Ho Hu.
  unfold FieldComparator._compare_resource_reference, bind, gets, getattr, ret. simpl.
  rewrite Ho, Hu. reflexivity.
Qed.

Lemma compare_repeated_findings (o u : Field.t) (c : FindingContainer.t) :
  FieldComparator.compare_repeated o u (FieldComparator.make (Some o) (Some u) c)
  = (Returned tt,
     FieldComparator.make (Some o) (Some u)
       (c ++ if Bool.eqb (WithLocation.value (Field.repeated o))
                         (WithLocation.value (Field.repeated u))
             then []
             else [repeated_change_finding o u])).
Proof.
  unfold FieldComparator.compare_repeated.
  destruct (Bool.eqb _ _); simpl; [|reflexivity].
  unfold ret. now rewrite app_nil_r.
Qed.

Lemma compare_required_findings (o u : Field.t) (c : FindingContainer.t) :
  FieldComparator.compare_required o u (FieldComparator.make (Some o) (Some u) c)
  = (Returned tt,
     FieldComparator.make (Some o) (Some u)
       (c ++ if negb (WithLocation.value (Field.required o))
                && WithLocation.value (Field.required u)
             then [behavior_change_finding o u]
             else [])).
Proof.
  unfold FieldComparator.compare_required.
  destruct (negb _ && _); simpl; [reflexivity|].
  unfold ret. now rewrite app_nil_r.
Qed.

(** X19: for present fields with equal names, when the original field has
    no type name and neither field has a resource reference, the comparison
    never raises and never consults a database, and what it appends is, in
    this order: the repeated-state finding if the repeated states differ,
    the field-behavior finding if the field becomes required, the type
    finding if the proto types differ, and the oneof or proto3-optional
    finding. *)
Theorem X19_plain_field_comparison (o u : Field.t) (c : FindingContainer.t) :
  Field.name o = Field.name u ->
  Field.type_name o = None ->
  Field.resource_reference o = None ->
  Field.resource_reference u = None ->
  run_field (Some o) (Some u) c
  = (Returned tt,
     FieldComparator.make (Some o) (Some u)
       (c ++ (if Bool.eqb (WithLocation.value (Field.repeated o))
                          (WithLocation.value (Field.repeated u))
              then [] else [repeated_change_finding o u])
          ++ (if negb (WithLocation.value (Field.required o))
                 && WithLocation.value (Field.required u)
              then [behavior_change_finding o u] else [])
          ++ (if String.eqb (WithLocation.value (Field.proto_type o))
                            (WithLocation.value (Field.proto_type u))
              then [] else [proto_type_change_finding o u])
          ++ oneof_findings o u)).
Proof.
  intros Hname Htn Ho Hu.
  rewrite run_field_same_name by assumption.
  rewrite (bind_run _ _ _ _ _ (compare_repeated_findings o u c)).
  rewrite (bind_run _ _ _ _ _ (compare_required_findings o u _)).
  rewrite (bind_run _ _ _ _ _ (compare_type_without_type_name o u _ Htn)).
  rewrite (bind_run _ _ _ _ _ (compare_oneof_findings o u _)).
  rewrite resolver_without_references by assumption.
  now rewrite <- !app_assoc.
Qed.

(** X19 at the end-to-end scenario of an [int32] field that becomes a
    [string] field. *)
Lemma X19_witness :
  run_field (Some (make_field "foo" "TYPE_INT32" None None))
            (Some (make_field "foo" "TYPE_STRING" None None)) []
  = (Returned tt,
     FieldComparator.make
       (Some (make_field "foo" "TYPE_INT32" None None))
       (Some (make_field "foo" "TYPE_STRING" None None))
       [Finding.make FIELD_TYPE_CHANGE "foo" 1
          "Type of an existing field `foo` is changed from `TYPE_INT32` to `TYPE_STRING`."
          MAJOR]).
Proof.
  apply (X19_plain_field_comparison
           (make_field "foo" "TYPE_INT32" None None)
           (make_field "foo" "TYPE_STRING" None None) []);
    reflexivity.
Defined.

(** * Properties of the loader *)

Lemma scan_files_done (files acc l : list string) :
  Loader.scan_files files acc = Loader.Done l <-> files = [] /\ l = acc.
Proof.
  destruct files as [|file files]; simpl.
  - split; [intros H; injection H as <-; auto | intros [_ ->]; reflexivity].
  - split; [discriminate | intros [H _]; discriminate].
Qed.

Lemma scan_directories_done (fs : Loader.FileSystem) (dirs : list string)
    (acc l : list string) :
  Loader.scan_directories fs dirs acc = Loader.Done l
  <-> l = acc /\ Forall (fun d => Loader.listdir fs d = Some []) dirs.
Proof.
  revert acc. induction dirs as [|d dirs IH]; intros acc; simpl.
  - split; [intros H; injection H as <-; auto | intros [-> _]; reflexivity].
  - destruct (Loader.listdir fs d) as [files|] eqn:Hd.
    + destruct (Loader.scan_files files acc) as [acc'|f] eqn:Hscan.
      * apply scan_files_done in Hscan. destruct Hscan as [-> ->].
        rewrite IH. split.
        -- intros [-> H]. split; [reflexivity | now constructor].
        -- intros [-> H]. inversion H; subst. now split.
      * split; [discriminate|]. intros [_ H]. inversion H as [|? ? Hd' _]; subst.
        rewrite Hd in Hd'. injection Hd' as ->. discriminate.
    + split; [discriminate|]. intros [_ H]. inversion H as [|? ? Hd' _]; subst.
      rewrite Hd in Hd'. discriminate.
Qed.

Lemma get_proto_files_done (fs : Loader.FileSystem) (proto_dirs l : list string) :
  Loader._get_proto_files fs proto_dirs = Loader.Done l
  <-> l = [] /\ Forall (fun d => Loader.listdir fs d = Some []) proto_dirs.
Proof.
  unfold Loader._get_proto_files. apply scan_directories_done.
Qed.

(** X20: [_get_proto_files] returns only when every directory can be listed
    and is empty, and what it returns is then the empty list: it never
    returns a file name, whatever the directories hold. *)
Theorem X20_get_proto_files_returns_nothing
    (fs : Loader.FileSystem) (proto_dirs l : list string) :
  Loader._get_proto_files fs proto_dirs = Loader.Done l
  <-> l = [] /\ Forall (fun d => Loader.listdir fs d = Some []) proto_dirs.
Proof.
  apply get_proto_files_done.
Qed.

(** X21: when the directories before [directory] are empty and [directory]
    has an entry, [_get_proto_files] raises [AttributeError] at that entry,
    whether or not its name ends in [.proto]: the call [endsWith] does not
    exist on [str]. *)
Theorem X21_get_proto_files_raises_at_first_entry
    (fs : Loader.FileSystem) (before after : list string) (directory : string)
    (file_name : string) (files : list string) :
  Forall (fun d => Loader.listdir fs d = Some []) before ->
  Loader.listdir fs directory = Some (file_name :: files) ->
  Loader._get_proto_files fs (before ++ directory :: after)
  = Loader.Failed
      (Loader.Builtin (AttributeError "'str' object has no attribute 'endsWith'")).
Proof.
  intros Hbefore Hdir. unfold Loader._get_proto_files.
  induction Hbefore as [|d before Hd _ IH]; simpl.
  - rewrite Hdir. reflexivity.
  - rewrite Hd. simpl. exact IH.
Qed.

Lemma X21_witness :
  Loader._get_proto_files
    (Loader.Build_FileSystem
       (fun _ => true)
       (fun d => if String.eqb d "protos" then Some ["a.proto"] else Some []))
    (["empty"] ++ "protos" :: ["other"])
  = Loader.Failed
      (Loader.Builtin (AttributeError "'str' object has no attribute 'endsWith'")).
Proof.
  apply (X21_get_proto_files_raises_at_first_entry
           (Loader.Build_FileSystem
              (fun _ => true)
              (fun d => if String.eqb d "protos" then Some ["a.proto"] else Some []))
           ["empty"] ["other"] "protos" "a.proto" []).
  - repeat constructor.
  - reflexivity.
Defined.

Lemma check_directories_done (fs : Loader.FileSystem) (dirs : list string) :
  Loader.check_directories fs dirs = Loader.Done tt
  <-> Forall (fun d => Loader.isdir fs d = true) dirs.
Proof.
  induction dirs as [|d dirs IH]; simpl.
  - split; [constructor | reflexivity].
  - destruct (Loader.isdir fs d) eqn:Hd; simpl.
    + rewrite IH. split; [now constructor | intros H; now inversion H].
    + split; [discriminate|]. intros H. inversion H; congruence.
Qed.

(** X22: [Loader(proto_dirs, proto_files)] raises [TypeError] naming the
    first path that is not a directory, whatever [proto_files] is and before
    any directory is listed. *)
Theorem X22_init_rejects_missing_directory
    (fs : Loader.FileSystem) (before after : list string) (path : string)
    (proto_files : option (list string)) :
  Forall (fun d => Loader.isdir fs d = true) before ->
  Loader.isdir fs path = false ->
  Loader.__init__ fs (before ++ path :: after) proto_files
  = Loader.Failed
      (Loader.Builtin
         (TypeError ("The directory " ++ path
                       ++ " passed in is not existing. Please check the path."))).
Proof.
  intros Hbefore Hpath. unfold Loader.__init__.
  assert (Hcheck :
    Loader.check_directories fs (before ++ path :: after)
    = Loader.Failed
        (Loader.Builtin
           (TypeError ("The directory " ++ path
                         ++ " passed in is not existing. Please check the path.")))).
  { induction Hbefore as [|d before Hd _ IH]; simpl.
    - rewrite Hpath. reflexivity.
    - rewrite Hd. simpl. exact IH. }
  now rewrite Hcheck.
Qed.

Lemma X22_witness :
  Loader.__init__
    (Loader.Build_FileSystem (fun d => String.eqb d "protos") (fun _ => Some []))
    (["protos"] ++ "missing" :: ["also_missing"])
    (Some ["a.proto"])
  = Loader.Failed
      (Loader.Builtin
         (TypeError
            "The directory missing passed in is not existing. Please check the path.")).
Proof.
  apply (X22_init_rejects_missing_directory
           (Loader.Build_FileSystem (fun d => String.eqb d "protos") (fun _ => Some []))
           ["protos"] ["also_missing"] "missing" (Some ["a.proto"])).
  - repeat constructor.
  - reflexivity.
Defined.

(** X23: [Loader(proto_dirs, proto_files)] returns a loader exactly when
    every path is a directory and either [proto_files] is a non-empty list,
    which the loader then keeps as it is, or [proto_files] is absent or empty
    and every directory is empty, and the loader then has no proto file; in
    both cases it keeps the directories in their order.  A loader built
    without explicit proto files never has any. *)
Theorem X23_init_returns
    (fs : Loader.FileSystem) (proto_dirs : list string)
    (proto_files : option (list string)) (loader : Loader.t) :
  Loader.__init__ fs proto_dirs proto_files = Loader.Done loader
  <->
  Forall (fun d => Loader.isdir fs d = true) proto_dirs
  /\ Loader.proto_dirs loader = proto_dirs
  /\ ((exists file files,
          proto_files = Some (file :: files)
          /\ Loader.proto_files loader = file :: files)
      \/ ((proto_files = None \/ proto_files = Some [])
          /\ Loader.proto_files loader = []
          /\ Forall (fun d => Loader.listdir fs d = Some []) proto_dirs)).
Proof.
  unfold Loader.__init__. rewrite map_id.
  destruct (Loader.check_directories fs proto_dirs) as [[]|f] eqn:Hcheck.
  - apply check_directories_done in Hcheck.
    destruct proto_files as [[|file files]|].
    + destruct (Loader._get_proto_files fs proto_dirs) as [found|f] eqn:Hget.
      * apply get_proto_files_done in Hget.
        destruct Hget as [-> Hempty]. split.
        -- intros H. injection H as <-. repeat split; auto.
        -- intros (_ & Hd & [(file & files & Hpf & _)|(_ & Hf & _)]);
             [discriminate|].
           destruct loader as [ds fsl]. simpl in *. now subst.
      * split; [discriminate|].
        intros (_ & _ & [(file & files & Hpf & _)|(_ & _ & Hempty)]);
          [discriminate|].
        assert (Hdone : Loader._get_proto_files fs proto_dirs = Loader.Done [])
          by (apply get_proto_files_done; auto).
        rewrite Hdone in Hget. discriminate.
    + split.
      * intros H. injection H as <-. repeat split; auto. left. eauto.
      * intros (_ & Hd & [(file' & files' & Hpf & Hf)|([Hn|Hn] & _)]);
          try discriminate.
        injection Hpf as <- <-. destruct loader as [ds fsl]. simpl in *. now subst.
    + destruct (Loader._get_proto_files fs proto_dirs) as [found|f] eqn:Hget.
      * apply get_proto_files_done in Hget.
        destruct Hget as [-> Hempty]. split.
        -- intros H. injection H as <-. repeat split; auto.
        -- intros (_ & Hd & [(file & files & Hpf & _)|(_ & Hf & _)]);
             [discriminate|].
           destruct loader as [ds fsl]. simpl in *. now subst.
      * split; [discriminate|].
        intros (_ & _ & [(file & files & Hpf & _)|(_ & _ & Hempty)]);
          [discriminate|].
        assert (Hdone : Loader._get_proto_files fs proto_dirs = Loader.Done [])
          by (apply get_proto_files_done; auto).
        rewrite Hdone in Hget. discriminate.
  - split; [discriminate|]. intros (Hdirs & _).
    apply check_directories_done in Hdirs. rewrite Hdirs in Hcheck. discriminate.
Qed.

(** * Further properties: the enum-value comparator and raised exceptions *)

(** X24: the enum-value comparator decides by presence and by the names
    alone: it appends nothing exactly when both values are present with
    equal names, whatever their files and lines; otherwise it appends one
    finding, [ENUM_VALUE_ADDITION] ([MINOR], at the update) when the original
    is absent, [ENUM_VALUE_REMOVAL] ([MAJOR], at the original) when only the
    update is absent, [ENUM_VALUE_NAME_CHANGE] ([MAJOR], at the update) when
    the names differ; it returns in all these cases, and with both values
    absent it raises [AttributeError], for the attribute [proto_file_name]
    read on [None], and appends nothing. *)
Theorem X24_enum_value_comparison
    (original update : option EnumValue.t) (c : FindingContainer.t) :
  exists fs,
    EnumValueComparator.finding_container (snd (run_enum_value original update c))
    = c ++ fs
    /\ (fs = [] <->
        (original = None /\ update = None)
        \/ exists o u, original = Some o /\ update = Some u
                       /\ EnumValue.name o = EnumValue.name u)
    /\ fst (run_enum_value original update c)
       = match original, update with
         | None, None =>
             Raised (AttributeError
                       "'NoneType' object has no attribute 'proto_file_name'")
         | _, _ => Returned tt
         end
    /\ Forall (fun f =>
                 match original, update with
                 | None, Some u =>
                     Finding.category f = ENUM_VALUE_ADDITION
                     /\ Finding.change_type f = MINOR
                     /\ Finding.proto_file_name f = EnumValue.proto_file_name u
                     /\ Finding.source_code_line f = EnumValue.source_code_line u
                 | Some o, None =>
                     Finding.category f = ENUM_VALUE_REMOVAL
                     /\ Finding.change_type f = MAJOR
                     /\ Finding.proto_file_name f = EnumValue.proto_file_name o
                     /\ Finding.source_code_line f = EnumValue.source_code_line o
                 | Some o, Some u =>
                     Finding.category f = ENUM_VALUE_NAME_CHANGE
                     /\ Finding.change_type f = MAJOR
                     /\ Finding.proto_file_name f = EnumValue.proto_file_name u
                     /\ Finding.source_code_line f = EnumValue.source_code_line u
                 | None, None => False
                 end) fs
    /\ (length fs <= 1)%nat.
Proof.
  unfold run_enum_value, EnumValueComparator.compare, bind, gets. simpl.
  destruct original as [o|], update as [u|]; simpl.
  - destruct (String.eqb_spec (EnumValue.name o) (EnumValue.name u)) as [Heq|Hneq]; simpl.
    + exists []. split; [now rewrite app_nil_r|].
      split; [split; [intros _; right; eauto | reflexivity]|].
      split; [reflexivity|].
      split; [constructor | simpl; lia].
    + eexists. split; [reflexivity|].
      split.
      { split; [discriminate|].
        intros [[H _]|(o' & u' & Ho & Hu & Hn)]; [discriminate|].
        injection Ho as <-. injection Hu as <-. contradiction. }
      split; [reflexivity|].
      split; [repeat constructor | simpl; lia].
  - eexists. split; [reflexivity|].
    split.
    { split; [discriminate|].
      intros [[H _]|(o' & u' & _ & Hu & _)]; discriminate. }
    split; [reflexivity|].
    split; [repeat constructor | simpl; lia].
  - eexists. split; [reflexivity|].
    split.
    { split; [discriminate|].
      intros [[_ H]|(o' & u' & Ho & _ & _)]; discriminate. }
    split; [reflexivity|].
    split; [repeat constructor | simpl; lia].
  - exists []. split; [now rewrite app_nil_r|].
    split; [split; [intros _; left; auto | reflexivity]|].
    split; [reflexivity|].
    split; [constructor | simpl; lia].
Qed.

(** ** Exceptions of the type step *)

Lemma compare_type_update_type_name_missing (o u : Field.t)
    (type_name_original : WithLocation.t string) (c : FindingContainer.t) :
  WithLocation.value (Field.proto_type o) = WithLocation.value (Field.proto_type u) ->
  Field.type_name o = Some type_name_original ->
  Field.type_name u = None ->
  FieldComparator.compare_type o u (FieldComparator.make (Some o) (Some u) c)
  = (Raised (AttributeError "'NoneType' object has no attribute 'value'"),
     FieldComparator.make (Some o) (Some u) c).
Proof.
  intros Hproto Ho Hu. unfold FieldComparator.compare_type.
  rewrite Hproto, String.eqb_refl. simpl. rewrite Ho, Hu. reflexivity.
Qed.

(** X25: for present fields with equal names and equal proto types, when
    the original field has a type name and the updated field has none, the
    comparison raises [AttributeError]: the type names are compared without
    a test for [None].  The findings of the repeated-state and
    field-behavior steps are in the container by then; the oneof, proto3
    optional and resource-reference checks do not run. *)
Theorem X25_missing_updated_type_name_raises
    (o u : Field.t) (type_name_original : WithLocation.t string)
    (c : FindingContainer.t) :
  Field.name o = Field.name u ->
  WithLocation.value (Field.proto_type o) = WithLocation.value (Field.proto_type u) ->
  Field.type_name o = Some type_name_original ->
  Field.type_name u = None ->
  run_field (Some o) (Some u) c
  = (Raised (AttributeError "'NoneType' object has no attribute 'value'"),
     FieldComparator.make (Some o) (Some u)
       (c ++ (if Bool.eqb (WithLocation.value (Field.repeated o))
                          (WithLocation.value (Field.repeated u))
              then [] else [repeated_change_finding o u])
          ++ (if negb (WithLocation.value (Field.required o))
                 && WithLocation.value (Field.required u)
              then [behavior_change_finding o u] else []))).
Proof.
  intros Hname Hproto Ho Hu.
  rewrite run_field_same_name by assumption.
  rewrite (bind_run _ _ _ _ _ (compare_repeated_findings o u c)).
  rewrite (bind_run _ _ _ _ _ (compare_required_findings o u _)).
  rewrite (bind_run _ _ _ _ _
             (compare_type_update_type_name_missing o u _ _ Hproto Ho Hu)).
  now rewrite <- app_assoc.
Qed.

Lemma X25_witness :
  run_field
    (Some (make_field "f" "TYPE_ENUM" (Some ".pkg.v1.Enum") (Some "v1")))
    (Some (make_field "f" "TYPE_ENUM" None (Some "v1")))
    []
  = (Raised (AttributeError "'NoneType' object has no attribute 'value'"),
     FieldComparator.make
       (Some (make_field "f" "TYPE_ENUM" (Some ".pkg.v1.Enum") (Some "v1")))
       (Some (make_field "f" "TYPE_ENUM" None (Some "v1")))
       []).
Proof.
  apply (X25_missing_updated_type_name_raises
           (make_field "f" "TYPE_ENUM" (Some ".pkg.v1.Enum") (Some "v1"))
           (make_field "f" "TYPE_ENUM" None (Some "v1"))
           (located ".pkg.v1.Enum" 1) []);
    reflexivity.
Defined.

(** X26: for present fields with equal names and equal proto types whose
    type names differ, when the original field has a non-empty api version
    and the updated field has none, the comparison raises [TypeError]:
    [str.replace] is given [None].  No [FIELD_TYPE_CHANGE] finding is
    appended for the changed type name, and the oneof, proto3 optional and
    resource-reference checks do not run. *)
Theorem X26_missing_updated_api_version_raises
    (o u : Field.t) (type_name_original type_name_update : WithLocation.t string)
    (v : string) (c : FindingContainer.t) :
  Field.name o = Field.name u ->
  WithLocation.value (Field.proto_type o) = WithLocation.value (Field.proto_type u) ->
  Field.type_name o = Some type_name_original ->
  Field.type_name u = Some type_name_update ->
  WithLocation.value type_name_original <> WithLocation.value type_name_update ->
  Field.api_version o = Some v -> v <> "" ->
  Field.api_version u = None ->
  run_field (Some o) (Some u) c
  = (Raised (TypeError "replace() argument 2 must be str, not None"),
     FieldComparator.make (Some o) (Some u)
       (c ++ (if Bool.eqb (WithLocation.value (Field.repeated o))
                          (WithLocation.value (Field.repeated u))
              then [] else [repeated_change_finding o u])
          ++ (if negb (WithLocation.value (Field.required o))
                 && WithLocation.value (Field.required u)
              then [behavior_change_finding o u] else []))).
Proof.
  intros Hname Hproto Ho Hu Hdiff Hv Hv' Hw.
  rewrite run_field_same_name by assumption.
  rewrite (bind_run _ _ _ _ _ (compare_repeated_findings o u c)).
  rewrite (bind_run _ _ _ _ _ (compare_required_findings o u _)).
  rewrite (bind_run _ _ _ _ _
             (compare_type_update_version_missing o u _ _ Hproto Ho Hu Hdiff
                v _ Hv Hv' Hw)).
  now rewrite <- app_assoc.
Qed.

Lemma X26_witness :
  run_field
    (Some (make_field "f" "TYPE_ENUM" (Some ".pkg.v1.Enum") (Some "v1")))
    (Some (make_field "f" "TYPE_ENUM" (Some ".pkg.Enum") None))
    []
  = (Raised (TypeError "replace() argument 2 must be str, not None"),
     FieldComparator.make
       (Some (make_field "f" "TYPE_ENUM" (Some ".pkg.v1.Enum") (Some "v1")))
       (Some (make_field "f" "TYPE_ENUM" (Some ".pkg.Enum") None))
       []).
Proof.
  apply (X26_missing_updated_api_version_raises
           (make_field "f" "TYPE_ENUM" (Some ".pkg.v1.Enum") (Some "v1"))
           (make_field "f" "TYPE_ENUM" (Some ".pkg.Enum") None)
           (located ".pkg.v1.Enum" 1) (located ".pkg.Enum" 1) "v1" []);
    simpl; try reflexivity; discriminate.
Defined.
